(** * odoo_log_analyser: the log reader, the endpoint statistics and the
    tables

    A shallow embedding of [read_log], of [_print_table] and of [main]
    (src/odoo_log_analyser.py).  Python values are modelled as they are in
    the program: text as [string] (one [ascii] per character, code points
    below 256), [float] as IEEE binary64 ([PrimFloat.float]), [int] as [Z],
    a [dict] as a [gmap], an exception as the [Raise] branch of [result]. *)

From Stdlib Require Import ZArith String Ascii List Lia QArith Qcanon.
From Stdlib Require Import DecimalString Sorted.
From Stdlib Require Import Floats.PrimFloat Floats.SpecFloat Floats.FloatOps.
From Stdlib Require Import Floats.FloatAxioms.
From stdpp Require Import base option list gmap strings.

Set Warnings "-inexact-float,-notation-for-abbreviation".

Local Open Scope string_scope.
Local Open Scope Z_scope.

(** ** The Python built-ins the program calls *)

Module Py.

Inductive exn : Set :=
| IndexError | ValueError | KeyError | TypeError | AttributeError
| FileNotFoundError.

Inductive result (A : Type) : Type :=
| Ok (a : A)
| Raise (e : exn).
Arguments Ok {A} a.
Arguments Raise {A} e.

Definition bind {A B} (c : result A) (k : A -> result B) : result B :=
  match c with
  | Ok a => k a
  | Raise e => Raise e
  end.

Definition of_option {A} (e : exn) (o : option A) : result A :=
  match o with
  | Some a => Ok a
  | None => Raise e
  end.

(** Whether a computation returned, and the value it returned. *)
Definition is_ok {A} (c : result A) : bool :=
  match c with
  | Ok _ => true
  | Raise _ => false
  end.

Definition get_ok {A} (d : A) (c : result A) : A :=
  match c with
  | Ok a => a
  | Raise _ => d
  end.

(** *** Characters *)

Definition code (c : ascii) : Z := Z.of_N (N_of_ascii c).

(** [str.isspace] on the code points below 256. *)
Definition is_space (c : ascii) : bool :=
  let n := code c in
  ((9 <=? n) && (n <=? 13)) || ((28 <=? n) && (n <=? 32))
  || (n =? 133) || (n =? 160).

Definition is_digit (c : ascii) : bool :=
  let n := code c in (48 <=? n) && (n <=? 57).

Definition is_lower (c : ascii) : bool :=
  let n := code c in (97 <=? n) && (n <=? 122).

Definition is_upper (c : ascii) : bool :=
  let n := code c in (65 <=? n) && (n <=? 90).

Definition digit_val (c : ascii) : Z := code c - 48.

Definition to_lower (c : ascii) : ascii :=
  if is_upper c then ascii_of_N (N_of_ascii c + 32) else c.

(** *** Strings *)

(** [s.startswith(p)] *)
Definition startswith (s p : string) : bool := Strings.String.prefix p s.

Fixpoint rev_onto (s acc : string) : string :=
  match s with
  | EmptyString => acc
  | String c s' => rev_onto s' (String c acc)
  end.

Definition reverse (s : string) : string := rev_onto s "".

(** [s.endswith(p)] *)
Definition endswith (s p : string) : bool :=
  Strings.String.prefix (reverse p) (reverse s).

(** [sub in s] *)
Fixpoint contains (sub s : string) : bool :=
  Strings.String.prefix sub s ||
  match s with
  | EmptyString => false
  | String _ s' => contains sub s'
  end.

(** [s[:n]] for [n >= 0] *)
Fixpoint take (n : nat) (s : string) : string :=
  match n, s with
  | S n', String c s' => String c (take n' s')
  | _, _ => ""
  end.

(** [s[1:]] *)
Definition drop_first (s : string) : string :=
  match s with
  | EmptyString => ""
  | String _ s' => s'
  end.

(** [s[:-1]] *)
Fixpoint drop_last (s : string) : string :=
  match s with
  | EmptyString => ""
  | String c EmptyString => ""
  | String c s' => String c (drop_last s')
  end.

(** [s.split()]: the maximal runs of non-whitespace characters. [acc] holds
    the current run, reversed. *)
Fixpoint split_go (acc s : string) : list string :=
  match s with
  | EmptyString =>
      match acc with EmptyString => [] | _ => [reverse acc] end
  | String c s' =>
      if is_space c then
        match acc with
        | EmptyString => split_go "" s'
        | _ => reverse acc :: split_go "" s'
        end
      else split_go (String c acc) s'
  end.

Definition split (s : string) : list string := split_go "" s.

(** [s.split(sep)[0]] for a one-character separator: the text before the
    first [sep] (the whole of [s] when there is none). *)
Fixpoint before (sep : ascii) (s : string) : string :=
  match s with
  | EmptyString => ""
  | String c s' => if Ascii.eqb c sep then "" else String c (before sep s')
  end.

(** [sep.join(l)] *)
Definition join (sep : string) (l : list string) : string :=
  String.concat sep l.

Definition strip_left (s : string) : string :=
  (fix go (s : string) : string :=
     match s with
     | String c s' => if is_space c then go s' else s
     | EmptyString => ""
     end) s.

(** [s.strip()] *)
Definition strip (s : string) : string :=
  reverse (strip_left (reverse (strip_left s))).

Definition lower (s : string) : string :=
  (fix go (s : string) : string :=
     match s with
     | String c s' => String (to_lower c) (go s')
     | EmptyString => ""
     end) s.

(** *** Numbers *)

(** The leading run of decimal digits of [s]: its value on top of [acc], the
    number of digits read, and the rest of the text. *)
Fixpoint digits (s : string) (acc : Z) (n : nat) : Z * nat * string :=
  match s with
  | String c s' =>
      if is_digit c then digits s' (10 * acc + digit_val c) (S n)
      else (acc, n, s)
  | EmptyString => (acc, n, "")
  end.

(** An underscore is accepted between two digits only; [prev] is the
    character before [s]. The result is [s] with its underscores removed. *)
Fixpoint drop_underscores (prev : ascii) (s : string) : option string :=
  match s with
  | EmptyString => if Ascii.eqb prev "_" then None else Some ""
  | String c s' =>
      if Ascii.eqb c "_" then
        if is_digit prev then drop_underscores c s' else None
      else if Ascii.eqb prev "_" && negb (is_digit c) then None
      else String c <$> drop_underscores c s'
  end.

(** An optional sign: [true] for minus. *)
Definition sign (s : string) : bool * string :=
  match s with
  | String "-" s' => (true, s')
  | String "+" s' => (false, s')
  | _ => (false, s)
  end.

(** [int(s)] in base 10. The longest text the interpreter converts has
    4300 digits. *)
Definition int (s : string) : result Z :=
  let '(neg, body) := sign (strip s) in
  match drop_underscores "000" body with
  | Some body =>
      let '(v, n, rest) := digits body 0 0%nat in
      match n, rest with
      | O, _ => Raise ValueError
      | _, EmptyString =>
          if (4300 <? n)%nat then Raise ValueError
          else Ok (if neg then - v else v)
      | _, _ => Raise ValueError
      end
  | None => Raise ValueError
  end.

(** The binary64 value nearest to [m * 10^e] (ties to even), [m > 0].
    The two cut-offs only keep the powers of ten small: above the first
    every value overflows, below the second every value rounds to zero. *)
Definition nearest_decimal (m : positive) (ndigits : nat) (e : Z) : spec_float :=
  if 310 <? e then S754_infinity false
  else if Z.of_nat ndigits + e <? -330 then S754_zero false
  else if 0 <=? e then binary_normalize prec emax (Zpos m * 10 ^ e) 0 false
  else SFdiv prec emax (S754_finite false m 0)
                       (S754_finite false (Z.to_pos (10 ^ (- e))) 0).

(** The text of a decimal number after its sign: digits, an optional
    fraction, an optional exponent; at least one digit before the exponent
    and nothing left over. The result is mantissa, digit count, exponent. *)
Definition decimal (s : string) : option (Z * nat * Z) :=
  let '(ip, n1, r1) := digits s 0 0%nat in
  let '(m, n2, r2) :=
    match r1 with
    | String "." r => digits r ip 0%nat
    | _ => (ip, 0%nat, r1)
    end in
  if (n1 + n2 =? 0)%nat then None
  else
    match r2 with
    | EmptyString => Some (m, (n1 + n2)%nat, - Z.of_nat n2)
    | String c r =>
        if Ascii.eqb (to_lower c) "e" then
          let '(eneg, r') := sign r in
          let '(x, n3, r3) := digits r' 0 0%nat in
          match n3, r3 with
          | S _, EmptyString =>
              Some (m, (n1 + n2)%nat, (if eneg then - x else x) - Z.of_nat n2)
          | _, _ => None
          end
        else None
    end.

(** [float(s)]: decimal text, [inf], [infinity] and [nan] in any case,
    rounded to the nearest binary64 value. *)
Definition float (s : string) : result PrimFloat.float :=
  match drop_underscores "000" s with
  | None => Raise ValueError
  | Some s =>
      let '(neg, body) := sign (strip s) in
      let signed (f : PrimFloat.float) := if neg then PrimFloat.opp f else f in
      let name := lower body in
      if String.eqb name "inf" || String.eqb name "infinity"
      then Ok (signed infinity)
      else if String.eqb name "nan" then Ok nan
      else
        match decimal body with
        | Some (Zpos m, n, e) => Ok (signed (SF2Prim (nearest_decimal m n e)))
        | Some (_, _, _) => Ok (signed zero)
        | None => Raise ValueError
        end
  end.

(** [float(n)] for an integer [n], as in [x * n] with [x] a float. *)
Definition float_of_int (n : Z) : PrimFloat.float :=
  SF2Prim (binary_normalize prec emax n 0 false).

(** [f < n] between a float and an integer compares the exact values. *)
Definition float_lt_int (f : PrimFloat.float) (n : Z) : bool :=
  match Prim2SF f with
  | S754_nan => false
  | S754_infinity s => s
  | S754_zero _ => 0 <? n
  | S754_finite s m e =>
      let v := if s then Zneg m else Zpos m in
      if 0 <=? e then v * 2 ^ e <? n else v <? n * 2 ^ (- e)
  end.

(** *** datetime *)

Record datetime : Set := mk_datetime {
  year : Z; month : Z; day : Z; hour : Z; minute : Z; second : Z
}.

Definition is_leap (y : Z) : bool :=
  ((y mod 4 =? 0) && negb (y mod 100 =? 0)) || (y mod 400 =? 0).

Definition days_in_month (y m : Z) : Z :=
  if m =? 2 then (if is_leap y then 29 else 28)
  else if (m =? 4) || (m =? 6) || (m =? 9) || (m =? 11) then 30
  else 31.

(** A field of one or two digits, as the directives [%m %d %H %M %S] read
    it; the caller checks the range. *)
Definition field2 (s : string) : option Z :=
  match s with
  | String a EmptyString => if is_digit a then Some (digit_val a) else None
  | String a (String b EmptyString) =>
      if is_digit a && is_digit b
      then Some (10 * digit_val a + digit_val b) else None
  | _ => None
  end.

Definition field4 (s : string) : option Z :=
  match digits s 0 0%nat with
  | (v, 4%nat, EmptyString) => Some v
  | _ => None
  end.

Definition after (sep : ascii) (s : string) : option string :=
  (fix go (s : string) : option string :=
     match s with
     | EmptyString => None
     | String c s' => if Ascii.eqb c sep then Some s' else go s'
     end) s.

(** [datetime.strptime(s, "%Y-%m-%d %H:%M:%S")] on a text [s] with exactly
    one whitespace character, a space (what the reader passes: two tokens
    joined by a space). *)
Definition strptime (s : string) : result datetime :=
  let get :=
    y ← field4 (before "-" s);
    r1 ← after "-" s;
    mo ← field2 (before "-" r1);
    r2 ← after "-" r1;
    d ← field2 (before " " r2);
    r3 ← after " " r2;
    h ← field2 (before ":" r3);
    r4 ← after ":" r3;
    mi ← field2 (before ":" r4);
    r5 ← after ":" r4;
    se ← field2 r5;
    if (1 <=? y) && (1 <=? mo) && (mo <=? 12) && (1 <=? d)
       && (d <=? days_in_month y mo) && (h <=? 23) && (mi <=? 59)
       && (se <=? 59)
    then Some (mk_datetime y mo d h mi se) else None in
  of_option ValueError get.

(** *** Lists *)

(** [l[i]], a negative [i] counting from the end. *)
Definition getitem {A} (l : list A) (i : Z) : result A :=
  let j := if i <? 0 then i + Z.of_nat (length l) else i in
  if j <? 0 then Raise IndexError
  else of_option IndexError (l !! Z.to_nat j).

(** [l[n:]] for [n >= 0] *)
Definition slice_from {A} (n : nat) (l : list A) : list A := drop n l.

End Py.

Export Py.

Declare Scope py_scope.
Delimit Scope py_scope with py.
Notation "'let*' x ':=' c 'in' k" := (Py.bind c (fun x => k))
  (at level 10, x name, c at level 100, k at level 200) : py_scope.
Notation "l .[ i ]" := (Py.getitem l i)
  (at level 1, format "l .[ i ]") : py_scope.
Local Open Scope py_scope.

(** ** Module-level constants *)

(** [logging.getLevelNamesMapping()] of the standard library, in the order
    of its keys. *)
Definition _LEVEL_MAPPING : list (string * Z) :=
  [("CRITICAL", 50); ("FATAL", 50); ("ERROR", 40); ("WARN", 30);
   ("WARNING", 30); ("INFO", 20); ("DEBUG", 10); ("NOTSET", 0)].

Definition LOG_LEVELS : list string := fst <$> _LEVEL_MAPPING.
Definition REQUEST_KEY : string := "REQUEST".
Definition _YEAR_SUFFIX : string := "202".

(** [_LEVEL_MAPPING.get(level, d)] *)
Definition level_get (level : string) (d : Z) : Z :=
  match List.find (fun kv => String.eqb (fst kv) level) _LEVEL_MAPPING with
  | Some kv => snd kv
  | None => d
  end.

(** [max(_LEVEL_MAPPING.values())] *)
Definition max_level : Z :=
  match snd <$> _LEVEL_MAPPING with
  | [] => 0
  | v :: vs => fold_left Z.max vs v
  end.

(** ** Data *)

(** What a key of a log record holds. *)
Inductive value : Type :=
| VStr (s : string)
| VInt (n : Z)
| VFloat (f : PrimFloat.float)
| VList (l : list string)
| VTime (t : datetime).

(** A log record is a [dict] from field name to value; the value returned
    by [read_log] is a [defaultdict(list)] from level to records. *)
Notation entry := (gmap string value).
Notation buckets := (gmap string (list (gmap string value))).

(** The [threshold] argument: an [int] (what [main] passes) or a [float]. *)
Inductive number : Type :=
| NInt (n : Z)
| NFloat (f : PrimFloat.float).

(** [bool(x)] of a number *)
Definition truthy (x : number) : bool :=
  match x with
  | NInt n => negb (n =? 0)
  | NFloat f => negb (PrimFloat.eqb f 0)
  end.

(** [f < x] *)
Definition lt_number (f : PrimFloat.float) (x : number) : bool :=
  match x with
  | NInt n => float_lt_int f n
  | NFloat g => PrimFloat.ltb f g
  end.

(** [bool(d)] of a dict *)
Definition nonempty (d : entry) : bool := negb (bool_decide (size d = 0%nat)).

(** [d.setdefault(k, v)] *)
Definition setdefault (k : string) (v : value) (d : entry) : entry :=
  match d !! k with
  | Some _ => d
  | None => <[k := v]> d
  end.

(** The state of the loop of [read_log]. *)
Record state : Type := mk_state {
  log : buckets;
  current_line : entry
}.

(** ** read_log *)

Section Reader.

(** The arguments after [threshold = threshold or 0] and after the default
    of [severity]. *)
Variable threshold : number.
Variable severity : Z.
Variable ignore_no_db : bool.

(** [line.startswith(_YEAR_SUFFIX) and any(f" {ll} " in line[:40] ...)] *)
Definition is_header (line : string) : bool :=
  startswith line _YEAR_SUFFIX
  && existsb (fun ll => contains (" " +:+ ll +:+ " ") (take 40 line)) LOG_LEVELS.

(** The request branch (lines 63 to 80); [None] stands for [continue]. *)
Definition request_fields (line : string) (fragments : list string)
  : result (option entry) :=
  if negb (truthy threshold) || endswith line "-" then Ok None
  else
    let* last := fragments.[-1] in
    let* other_time := float last in
    let* last2 := fragments.[-2] in
    let* sql_time := float last2 in
    let total_time := PrimFloat.add other_time sql_time in
    if lt_number total_time threshold then Ok None
    else
      let* ip := fragments.[6] in
      let* f11 := fragments.[11] in
      let* endpoint := fragments.[12] in
      let* status := fragments.[14] in
      let* last3 := fragments.[-3] in
      let* query_count := int last3 in
      Ok (Some (<["level" := VStr REQUEST_KEY]>
               (<["query_count" := VInt query_count]>
               (<["total_time" := VFloat total_time]>
               (<["sql_time" := VFloat sql_time]>
               (<["other_time" := VFloat other_time]>
               (<["status" := VStr status]>
               (<["endpoint" := VStr endpoint]>
               (<["method" := VStr (drop_first f11)]>
               (<["ip" := VStr ip]> ∅)))))))))).

(** The message branch (lines 82 to 86). *)
Definition message_fields (level : string) (fragments : list string)
  : result (option entry) :=
  if level_get level 0 <? severity then Ok None
  else
    Ok (Some (<["context" := VList []]>
             (<["message" := VStr (join " " (slice_from 6 fragments))]> ∅))).

(** The body of the loop for a header line, after the previous record is
    stored (lines 54 to 99): the new value of [current_line], which is the
    empty dict after a [continue]. *)
Definition header (line : string) : result entry :=
  let fragments := split line in
  let* level := fragments.[3] in
  let* f5 := fragments.[5] in
  let logger := drop_last f5 in
  let* db := fragments.[4] in
  if ignore_no_db && String.eqb db "?" then Ok ∅
  else
    let* branch :=
      if String.eqb logger "werkzeug" && String.eqb level "INFO"
      then request_fields line fragments
      else message_fields level fragments in
    match branch with
    | None => Ok ∅
    | Some current_line =>
        let* date_str := fragments.[0] in
        let* f1 := fragments.[1] in
        let time_str := before "," (before "." f1) in
        let* timestamp := strptime (join " " [date_str; time_str]) in
        let* f2 := fragments.[2] in
        let* pid := int f2 in
        Ok (<["logger" := VStr logger]>
           (<["db" := VStr db]>
           (setdefault "level" (VStr level)
           (<["pid" := VInt pid]>
           (<["timestamp" := VTime timestamp]> current_line)))))
    end.

(** [log[current_line["level"]].append(current_line)] *)
Definition store (log : buckets) (current_line : entry) : result buckets :=
  match current_line !! "level" with
  | Some (VStr k) => Ok (<[k := (default [] (log !! k) ++ [current_line])%list]> log)
  | Some _ => Raise TypeError
  | None => Raise KeyError
  end.

(** Lines 52 and 53. *)
Definition end_previous (st : state) : result buckets :=
  if nonempty (current_line st) then store (log st) (current_line st)
  else Ok (log st).

(** One iteration of the loop over the lines of the file. The progress
    display (lines 42 to 45) writes to the terminal only and is left out. *)
Definition step (st : state) (line : string) : result state :=
  if is_header line then
    let* log' := end_previous st in
    let* current_line' := header line in
    Ok (mk_state log' current_line')
  else
    match current_line st !! "context" with
    | Some (VList context) =>
        Ok (mk_state (log st)
              (<["context" := VList (context ++ [line])%list]> (current_line st)))
    | Some _ => Raise AttributeError
    | None => Ok st
    end.

Fixpoint run (st : state) (lines : list string) : result state :=
  match lines with
  | [] => Ok st
  | line :: rest => let* st' := step st line in run st' rest
  end.

End Reader.

(** *** The file *)

(** Text mode with universal newlines: [\r\n] and [\r] are read as [\n]. *)
Fixpoint universal_newlines (s : string) : string :=
  match s with
  | EmptyString => ""
  | String "013" s' =>
      String "010"
        match s' with
        | String "010" s'' => universal_newlines s''
        | _ => universal_newlines s'
        end
  | String c s' => String c (universal_newlines s')
  end.

(** Iterating over the file yields each line with its newline; the last
    line has none when the file does not end with one. [acc] is the current
    line, reversed. *)
Fixpoint lines_go (acc s : string) : list string :=
  match s with
  | EmptyString => match acc with EmptyString => [] | _ => [reverse acc] end
  | String c s' =>
      if Ascii.eqb c "010" then reverse (String c acc) :: lines_go "" s'
      else lines_go (String c acc) s'
  end.

Definition file_lines (text : string) : list string :=
  lines_go "" (universal_newlines text).

(** [not threshold] on the argument as passed *)
Definition unset (threshold : option number) : bool :=
  match threshold with
  | None => true
  | Some x => negb (truthy x)
  end.

Definition init : state := mk_state ∅ ∅.

(** [threshold or 0] *)
Definition threshold_or_0 (threshold : option number) : number :=
  match threshold with
  | Some x => if truthy x then x else NInt 0
  | None => NInt 0
  end.

(** Lines 32 and 33. *)
Definition severity_or_above (severity : option Z) : Z :=
  match severity with
  | Some s => s
  | None => 1 + max_level
  end.

(** [read_log(logfile, threshold, severity, ignore_no_db)]. [fs] gives the
    decoded text of each file that exists. *)
Definition read_log (fs : gmap string string) (logfile : string)
    (threshold : option number) (severity : option Z) (ignore_no_db : bool)
  : result buckets :=
  if unset threshold && bool_decide (severity = None) then Ok ∅
  else
    let threshold := threshold_or_0 threshold in
    let severity := severity_or_above severity in
    let* text := of_option FileNotFoundError (fs !! logfile) in
    let* st := run threshold severity ignore_no_db init (file_lines text) in
    Ok (log st).

(** ** The endpoint statistics of main (lines 154 to 163) *)

(** [re.sub(r"^/[a-z]{2}_[A-Z]{2}/", "/", ep)]: the pattern is anchored at
    the start of the text, so at most one match is replaced. *)
Definition sub_locale (ep : string) : string :=
  match ep with
  | String s0 (String a (String b (String u
      (String c (String d (String s1 rest)))))) =>
      if Ascii.eqb s0 "/" && is_lower a && is_lower b && Ascii.eqb u "_"
         && is_upper c && is_upper d && Ascii.eqb s1 "/"
      then String "/" rest else ep
  | _ => ep
  end.

(** The arithmetic of the loop. The program computes in binary64; the same
    loop is also read over the rationals to state what it computes when no
    operation rounds. *)
Class Arith (F : Type) : Type := {
  of_int : Z -> F;
  add : F -> F -> F;
  mul : F -> F -> F;
  div : F -> F -> F
}.

#[export] Instance binary64 : Arith PrimFloat.float := {|
  of_int := float_of_int;
  add := PrimFloat.add;
  mul := PrimFloat.mul;
  div := PrimFloat.div
|}.

#[export] Instance rational : Arith Qc := {|
  of_int n := Q2Qc (inject_Z n);
  add := Qcplus;
  mul := Qcmult;
  div := Qcdiv
|}.

(** The two [defaultdict(int)] of the loop. A missing key reads as the
    integer 0, which enters the arithmetic as [of_int 0]. *)
Record stats (F : Type) : Type := mk_stats {
  ep_hits : gmap string Z;
  ep_times : gmap string F
}.
Arguments mk_stats {F} ep_hits ep_times.
Arguments ep_hits {F} s.
Arguments ep_times {F} s.

Section Stats.
Context {F : Type} `{Arith F}.

(** The new average of lines 160 to 162. *)
Definition next_average (average : F) (hits : Z) (total_time : F) : F :=
  div (add (mul average (of_int hits)) total_time) (of_int (hits + 1)).

(** The body of the loop for a request with the given fields. *)
Definition update (st : stats F) (endpoint : string) (total_time : F)
  : stats F :=
  let ep := sub_locale endpoint in
  let hits := default 0 (ep_hits st !! ep) in
  let average := default (of_int 0) (ep_times st !! ep) in
  mk_stats (<[ep := hits + 1]> (ep_hits st))
           (<[ep := next_average average hits total_time]> (ep_times st)).

Definition no_stats : stats F := mk_stats ∅ ∅.

(** The loop over requests already reduced to the two fields it reads. *)
Definition aggregate (samples : list (string * F)) : stats F :=
  fold_left (fun st s => update st (fst s) (snd s)) samples no_stats.

(** The running average and the hit count of one endpoint alone, over its
    total times in file order. *)
Definition online (ts : list F) : F * Z :=
  fold_left (fun a t => (next_average (fst a) (snd a) t, snd a + 1))
            ts (of_int 0, 0).

(** The arithmetic mean of a batch: the sum over the count. *)
Definition batch_mean (ts : list F) : F :=
  div (fold_left add ts (of_int 0)) (of_int (Z.of_nat (length ts))).

End Stats.

(** [line["endpoint"]] as the text [re.sub] needs *)
Definition endpoint_of (line : entry) : result string :=
  let* v := of_option KeyError (line !! "endpoint") in
  match v with
  | VStr s => Ok s
  | _ => Raise TypeError
  end.

(** [line["total_time"]] as a number of the arithmetic *)
Definition total_time_of (line : entry) : result PrimFloat.float :=
  let* v := of_option KeyError (line !! "total_time") in
  match v with
  | VFloat f => Ok f
  | VInt n => Ok (float_of_int n)
  | _ => Raise TypeError
  end.

(** The loop of [main] over [logs[REQUEST_KEY]]. *)
Fixpoint endpoint_loop (st : stats PrimFloat.float) (requests : list entry)
  : result (stats PrimFloat.float) :=
  match requests with
  | [] => Ok st
  | line :: rest =>
      let* ep := endpoint_of line in
      let* total_time := total_time_of line in
      endpoint_loop (update st ep total_time) rest
  end.

(** [logs[REQUEST_KEY]] followed by the loop. *)
Definition endpoint_stats (logs : buckets) : result (stats PrimFloat.float) :=
  endpoint_loop no_stats (default [] (logs !! REQUEST_KEY)).

(** The total times of the samples whose endpoint is [E] once the locale
    prefix is removed. *)
Definition times_of {F} (E : string) (samples : list (string * F)) : list F :=
  snd <$> filter (fun s => sub_locale (fst s) = E) samples.

(** ** Vocabulary of the statements *)

(** A record of the request branch carries [total_time]; a record of the
    message branch carries [message]. *)
Definition is_request (e : entry) : Prop := is_Some (e !! "total_time").
Definition is_message (e : entry) : Prop := is_Some (e !! "message").

(** What the request branch leaves in a record. *)
Definition request_shaped (threshold : number) (e : entry) : Prop :=
  exists o s ep q,
    e !! "other_time" = Some (VFloat o) /\
    e !! "sql_time" = Some (VFloat s) /\
    e !! "total_time" = Some (VFloat (PrimFloat.add o s)) /\
    lt_number (PrimFloat.add o s) threshold = false /\
    e !! "endpoint" = Some (VStr ep) /\
    e !! "query_count" = Some (VInt q) /\
    e !! "level" = Some (VStr REQUEST_KEY) /\
    e !! "context" = None /\
    e !! "message" = None.

(** What the message branch leaves in a record. *)
Definition message_shaped (e : entry) : Prop :=
  exists m ctx k,
    e !! "message" = Some (VStr m) /\
    e !! "context" = Some (VList ctx) /\
    e !! "level" = Some (VStr k) /\
    e !! "total_time" = None.

Definition shaped (threshold : number) (e : entry) : Prop :=
  request_shaped threshold e \/ message_shaped e.

(** The invariant of the loop of [read_log]. *)
Definition state_ok (threshold : number) (st : state) : Prop :=
  (current_line st = ∅ \/ shaped threshold (current_line st)) /\
  (forall k es, log st !! k = Some es -> Forall (shaped threshold) es).

(** The number of records held by the buckets. *)
Definition stored (L : buckets) : nat :=
  map_fold (fun _ es n => (length es + n)%nat) 0%nat L.

(** A header line opens a record when the loop body reaches its end
    without [continue]. *)
Definition opens (threshold : number) (severity : Z) (ignore_no_db : bool)
    (line : string) : bool :=
  is_header line &&
  match header threshold severity ignore_no_db line with
  | Ok e => nonempty e
  | Raise _ => false
  end.

Definition opened (threshold : number) (severity : Z) (ignore_no_db : bool)
    (lines : list string) : nat :=
  length (List.filter (opens threshold severity ignore_no_db) lines).

Definition pending (st : state) : nat :=
  if nonempty (current_line st) then 1%nat else 0%nat.

(** *** Sample inputs *)

Definition nl : string := String "010" "".
Definition quote : string := String "034" "".

(** A request line in the layout of the werkzeug access log. *)
Definition request_line : string :=
  "2024-01-01 10:00:00,000 123 INFO mydb werkzeug: 127.0.0.1 - - "
  +:+ "[01/Jan/2024 10:00:00] " +:+ quote +:+ "GET / HTTP/1.1" +:+ quote
  +:+ " 200 - 5 0.010 0.040" +:+ nl.

(** The same request without timing data. *)
Definition request_line_no_perf : string :=
  "2024-01-01 10:00:00,000 123 INFO mydb werkzeug: 127.0.0.1 - - "
  +:+ "[01/Jan/2024 10:00:00] " +:+ quote +:+ "GET / HTTP/1.1" +:+ quote
  +:+ " 200 - - - -".

(** The line of the scenario of the specification. *)
Definition short_request_line : string :=
  "2024-01-01 10:00:00,000 123 INFO mydb werkzeug: GET / HTTP/1.1 200 - 5 0.010 0.040".

Definition error_line : string :=
  "2024-01-01 10:00:01,250 123 ERROR mydb odoo.http: Exception during request"
  +:+ nl.

Definition debug_line : string :=
  "2024-01-01 10:00:02,000 123 DEBUG mydb odoo.sql_db: query" +:+ nl.

Definition no_db_line : string :=
  "2024-01-01 10:00:03,000 123 ERROR ? odoo.service: no database" +:+ nl.

(** A header whose level token is no level name. *)
Definition trace_line : string :=
  "2024-01-01 10:00:04,000 1 TRACE db INFO detail" +:+ nl.

Definition traceback_1 : string := "Traceback (most recent call last):" +:+ nl.
Definition traceback_2 : string := "  File odoo/http.py, line 1, in dispatch" +:+ nl.

(** A request to [/shop] with the given timing tokens. *)
Definition shop_line (sql_time other_time : string) : string :=
  "2024-01-01 10:00:05,000 123 INFO mydb werkzeug: 127.0.0.1 - - "
  +:+ "[01/Jan/2024 10:00:05] " +:+ quote +:+ "GET /shop HTTP/1.1" +:+ quote
  +:+ " 200 - 7 " +:+ sql_time +:+ " " +:+ other_time +:+ nl.

Definition one_file (text : string) : gmap string string :=
  {[ "odoo.log" := text ]}.

(** A request record reduced to the fields the statistics read. *)
Definition request (ep : string) (t : PrimFloat.float) : entry :=
  <["endpoint" := VStr ep]> (<["total_time" := VFloat t]> ∅).



(** ** The text of values: [str], [repr] and [format] *)

Module Text.

(** The decimal digits of an integer, with its sign. *)
Definition decimal_of (n : Z) : string := NilZero.string_of_int (Z.to_int n).

(** [str(n)] for an integer: the interpreter refuses to convert an integer
    of more than 4300 digits, that is of absolute value [10^4300] or
    more. *)
Definition str_int (n : Z) : result string :=
  if 10 ^ 4300 <=? Z.abs n then Raise ValueError else Ok (decimal_of n).

(** [c * n] for a character [c] *)
Fixpoint times (c : ascii) (n : nat) : string :=
  match n with
  | O => ""
  | S n' => String c (times c n')
  end.

(** [format(s, "<w")] once [s] is the text of the value. *)
Definition ljust (s : string) (w : nat) : string :=
  s +:+ times " " (w - String.length s).

(** [format(s, "^w")]: the smaller half of the padding goes to the left. *)
Definition center (s : string) (w : nat) : string :=
  let pad := (w - String.length s)%nat in
  let left := (pad / 2)%nat in
  times " " left +:+ s +:+ times " " (pad - left).

(** *** Floats *)

(** Whether [num / den >= 10^k]. *)
Definition ge_pow10 (num den k : Z) : bool :=
  if 0 <=? k then 10 ^ k * den <=? num else den <=? num * 10 ^ (- k).

(** The least [k' >= k] with [num / den < 10^k']. *)
Fixpoint decimal_exponent (fuel : nat) (num den k : Z) : Z :=
  match fuel with
  | O => k
  | S fuel' =>
      if ge_pow10 num den k then decimal_exponent fuel' num den (k + 1) else k
  end.

(** [num / den * 10^j] as a fraction. *)
Definition scaled (num den j : Z) : Z * Z :=
  if 0 <=? j then (num * 10 ^ j, den) else (num, den * 10 ^ (- j)).

(** Whether the decimal [n * 10^e] reads back as [x]. *)
Definition reads_back (x : PrimFloat.float) (n : Z) (e : Z) : bool :=
  PrimFloat.eqb
    (SF2Prim (nearest_decimal (Z.to_pos n)
                              (String.length (decimal_of n)) e)) x.

(** The shortest decimal that reads back as [x = num / den > 0], and among
    the decimals of that length the one nearest to [x]: its digits as an
    integer and its exponent. [k] is the decimal exponent of [x], [p] the
    number of digits tried; 17 digits always suffice. *)
Fixpoint shortest (fuel : nat) (x : PrimFloat.float) (num den k p : Z)
  : Z * Z :=
  match fuel with
  | O => (0, 0)
  | S fuel' =>
      let '(sn, sd) := scaled num den (p - k) in
      let lo := sn / sd in
      let hi := lo + 1 in
      let e := k - p in
      let ok_lo := reads_back x lo e in
      let ok_hi := reads_back x hi e in
      if ok_lo && ok_hi then
        (if 2 * sn <=? (2 * lo + 1) * sd then lo else hi, e)
      else if ok_lo then (lo, e)
      else if ok_hi then (hi, e)
      else shortest fuel' x num den k (p + 1)
  end.

(** Trailing zeros go to the exponent. *)
Fixpoint strip_zeros (fuel : nat) (n e : Z) : Z * Z :=
  match fuel with
  | O => (n, e)
  | S fuel' =>
      if (n mod 10 =? 0) && negb (n =? 0) then strip_zeros fuel' (n / 10) (e + 1)
      else (n, e)
  end.

(** The exact value of a finite float [m * 2^e] as a fraction. *)
Definition fraction (m : positive) (e : Z) : Z * Z :=
  if 0 <=? e then (Zpos m * 2 ^ e, 1) else (Zpos m, 2 ^ (- e)).

(** The first [n] characters of [s] and the rest. *)
Definition split_at (n : nat) (s : string) : string * string :=
  (take n s, String.substring n (String.length s - n) s).

(** The text of the exponent: a sign and at least two digits. *)
Definition exponent_text (x : Z) : string :=
  let d := decimal_of (Z.abs x) in
  (if x <? 0 then "-" else "+") +:+
  (if (String.length d <? 2)%nat then "0" +:+ d else d).

(** [repr(x)] for [x > 0] with digits [ds] and the decimal point after
    [decpt] digits: plain when [-4 < decpt <= 16], with an exponent
    otherwise. *)
Definition layout (ds : string) (decpt : Z) : string :=
  let nd := Z.of_nat (String.length ds) in
  if (-4 <? decpt) && (decpt <=? 16) then
    if decpt <=? 0 then "0." +:+ times "0" (Z.to_nat (- decpt)) +:+ ds
    else if decpt <? nd then
      let '(a, b) := split_at (Z.to_nat decpt) ds in a +:+ "." +:+ b
    else ds +:+ times "0" (Z.to_nat (decpt - nd)) +:+ ".0"
  else
    let '(a, b) := split_at 1 ds in
    a +:+ (if String.eqb b "" then "" else "." +:+ b)
      +:+ "e" +:+ exponent_text (decpt - 1).

(** [repr(f)] and [str(f)] of a float. *)
Definition repr_float (f : PrimFloat.float) : string :=
  match Prim2SF f with
  | S754_nan => "nan"
  | S754_infinity s => if s then "-inf" else "inf"
  | S754_zero s => if s then "-0.0" else "0.0"
  | S754_finite s m e =>
      let '(num, den) := fraction m e in
      let est := (Z.log2 num - Z.log2 den) * 30103 / 100000 in
      let k := decimal_exponent 8 num den (est - 2) in
      let '(n0, e0) := shortest 17 (PrimFloat.abs f) num den k 1 in
      let '(n, e10) := strip_zeros 17 n0 e0 in
      let ds := decimal_of n in
      (if s then "-" else "") +:+
      layout ds (Z.of_nat (String.length ds) + e10)
  end.

(** [f"{f:.1f}"]: one digit after the point, the exact value rounded to
    the nearest tenth, ties to the even digit. *)
Definition format_1f (f : PrimFloat.float) : string :=
  match Prim2SF f with
  | S754_nan => "nan"
  | S754_infinity s => if s then "-inf" else "inf"
  | S754_zero s => if s then "-0.0" else "0.0"
  | S754_finite s m e =>
      let '(num, den) := fraction m e in
      let t := 10 * num / den in
      let twice := 2 * (10 * num) in
      let mid := (2 * t + 1) * den in
      let n := if twice <? mid then t
               else if mid <? twice then t + 1
               else if Z.even t then t else t + 1 in
      (if s then "-" else "") +:+ decimal_of (n / 10) +:+ "."
        +:+ decimal_of (n mod 10)
  end.

(** *** The other values *)

(** A number in at least [w] digits, as [%02d] and [%04d] print it. *)
Definition zero_padded (w : nat) (n : Z) : string :=
  let d := decimal_of n in
  times "0" (w - String.length d) +:+ d.

(** [str(t)] of a datetime without microseconds *)
Definition str_datetime (t : datetime) : string :=
  zero_padded 4 (year t) +:+ "-" +:+ zero_padded 2 (month t) +:+ "-"
  +:+ zero_padded 2 (day t) +:+ " " +:+ zero_padded 2 (hour t) +:+ ":"
  +:+ zero_padded 2 (minute t) +:+ ":" +:+ zero_padded 2 (second t).

Definition hex_digit (n : Z) : ascii :=
  ascii_of_N (Z.to_N (if n <? 10 then 48 + n else 87 + n)).

(** One character of [repr(s)] inside the quotes [q]. *)
Definition escape (q c : ascii) : string :=
  let n := code c in
  if Ascii.eqb c q || Ascii.eqb c "\" then String "\" (String c "")
  else if n =? 9 then "\t"
  else if n =? 10 then "\n"
  else if n =? 13 then "\r"
  else if (n <? 32) || ((127 <=? n) && (n <=? 160)) || (n =? 173) then
    String "\" (String "x" (String (hex_digit (n / 16))
                            (String (hex_digit (n mod 16)) "")))
  else String c "".

(** [repr(s)] of a text: single quotes unless the text has a single quote
    and no double quote. *)
Definition repr_str (s : string) : string :=
  let q : ascii :=
    if contains "'" s && negb (contains (String "034" "") s)
    then "034"%char else "'"%char in
  String q ((fix go (s : string) : string :=
               match s with
               | EmptyString => String q ""
               | String c s' => escape q c +:+ go s'
               end) s).

(** [str(l)] of a list of texts *)
Definition str_list (l : list string) : string :=
  "[" +:+ join ", " (repr_str <$> l) +:+ "]".

End Text.

Export Text.

(** [str(v)] *)
Definition str_value (v : value) : result string :=
  match v with
  | VStr s => Ok s
  | VInt n => str_int n
  | VFloat f => Ok (repr_float f)
  | VList l => Ok (str_list l)
  | VTime t => Ok (str_datetime t)
  end.

(** [format(v, "<w")], the replacement field [{v:<w}]. A float without a
    presentation type is formatted as [str] does; a list has no format
    with a width; a datetime takes the text of the format as an argument of
    [strftime], which copies it, as it holds no directive. *)
Definition format_left (v : value) (w : nat) : result string :=
  match v with
  | VStr s => Ok (ljust s w)
  | VInt n => let* s := str_int n in Ok (ljust s w)
  | VFloat f => Ok (ljust (repr_float f) w)
  | VList _ => Raise TypeError
  | VTime _ => Ok ("<" +:+ decimal_of (Z.of_nat w))
  end.

(** ** Printing *)

(** What a computation has printed, one text for each call of [print], and
    how it ended. *)
Definition printing (A : Type) : Type := list string * result A.

Definition print (s : string) : printing unit := ([s], Ok tt).

(** A computation that prints nothing. *)
Definition silent {A} (c : result A) : printing A := ([], c).

Definition and_then {A B} (c : printing A) (k : A -> printing B)
  : printing B :=
  match c with
  | (out, Ok a) => let '(out', r) := k a in ((out ++ out')%list, r)
  | (out, Raise e) => (out, Raise e)
  end.

Notation "'let!' x ':=' c 'in' k" := (and_then c (fun x => k))
  (at level 10, x pattern, c at level 200, k at level 200, only parsing)
  : py_scope.

(** ** The tables of [main] *)

(** [len(str(line[field]))] for each line, up to the first error. *)
Fixpoint widths (field : string) (lines : list entry) : result (list nat) :=
  match lines with
  | [] => Ok []
  | line :: rest =>
      let* v := of_option KeyError (line !! field) in
      let* s := str_value v in
      let* ws := widths field rest in
      Ok (String.length s :: ws)
  end.

(** [max(len(str(line[field])) for line in lines)]; [max] refuses an empty
    sequence. *)
Definition max_len_of (field : string) (lines : list entry) : result nat :=
  let* ws := widths field lines in
  match ws with
  | [] => Raise ValueError
  | w :: ws => Ok (fold_left Nat.max ws w)
  end.

(** Line 116. *)
Definition row (line : entry) (field value : string)
    (max_len_field max_len_value : nat) : result string :=
  let* f := of_option KeyError (line !! field) in
  let* a := format_left f max_len_field in
  let* v := of_option KeyError (line !! value) in
  let* b := format_left v max_len_value in
  Ok ("| " +:+ a +:+ " | " +:+ b +:+ " |").

(** The loop of lines 115 and 116. *)
Fixpoint print_rows (lines : list entry) (field value : string)
    (max_len_field max_len_value : nat) : printing unit :=
  match lines with
  | [] => silent (Ok tt)
  | line :: rest =>
      let! text := silent (row line field value max_len_field max_len_value) in
      let! _ := print text in
      print_rows rest field value max_len_field max_len_value
  end.

Definition _print_table (title : string) (lines : list entry)
    (field value : string) : printing unit :=
  let! max_len_field := silent (max_len_of field lines) in
  let! max_len_value := silent (max_len_of value lines) in
  let max_len := (max_len_field + max_len_value + 7)%nat in
  let! _ := print (times "=" max_len) in
  let! _ := print ("|" +:+ center title (max_len - 2) +:+ "|") in
  let! _ := print (times "-" max_len) in
  let! _ := print_rows lines field value max_len_field max_len_value in
  let! _ := print (times "-" max_len) in
  print "".

(** *** [sorted(..., reverse=True)] *)

Section Sorted.
Context {A K : Type} (lt : K -> K -> bool) (key : A -> K).

(** [x] goes behind the items with a larger key and before the first item
    whose key is not larger, so before the items with its own key. *)
Fixpoint insert_reverse (x : A) (l : list A) : list A :=
  match l with
  | [] => [x]
  | y :: rest =>
      if lt (key x) (key y) then y :: insert_reverse x rest else x :: l
  end.

(** [sorted(l, key=key, reverse=True)] for keys that [<] orders: the items
    by decreasing key, those of equal key in the order of [l], which is the
    result of the stable sort of the interpreter. With a nan among the keys
    the interpreter's result depends on the steps of its algorithm and is
    not described here. *)
Definition sorted_reverse (l : list A) : list A := foldr insert_reverse [] l.

(** No item comes before an item with a larger key. *)
Definition descending (l : list A) : Prop :=
  StronglySorted (fun a b => lt (key a) (key b) = false) l.

End Sorted.

(** [n < f] between an integer and a float compares the exact values. *)
Definition int_lt_float (n : Z) (f : PrimFloat.float) : bool :=
  match Prim2SF f with
  | S754_nan => false
  | S754_infinity s => negb s
  | S754_zero _ => n <? 0
  | S754_finite s m e =>
      let v := if s then Zneg m else Zpos m in
      if 0 <=? e then n <? v * 2 ^ e else n * 2 ^ (- e) <? v
  end.

(** [a < b] between numbers *)
Definition number_lt (a b : number) : bool :=
  match a, b with
  | NInt m, NInt n => m <? n
  | NFloat f, NFloat g => PrimFloat.ltb f g
  | NFloat f, NInt n => float_lt_int f n
  | NInt n, NFloat f => int_lt_float n f
  end.

(** [itemgetter(key)(line)] as a key of the sort. The reader stores a float
    under ["total_time"]; a key that is no number is outside what is
    described, and reads as a type error. *)
Definition sort_key (key : string) (line : entry) : result number :=
  let* v := of_option KeyError (line !! key) in
  match v with
  | VInt n => Ok (NInt n)
  | VFloat f => Ok (NFloat f)
  | _ => Raise TypeError
  end.

(** The keys of all lines, computed before the sort starts. *)
Fixpoint keyed (key : string) (lines : list entry)
  : result (list (number * entry)) :=
  match lines with
  | [] => Ok []
  | line :: rest =>
      let* k := sort_key key line in
      let* ks := keyed key rest in
      Ok ((k, line) :: ks)
  end.

(** Line 151. *)
Definition slowest_requests (requests : list entry) : result (list entry) :=
  let* ks := keyed "total_time" requests in
  Ok (firstn 10 (snd <$> sorted_reverse number_lt fst ks)).

(** Each text at its first occurrence. *)
Fixpoint first_seen (l : list string) : list string :=
  match l with
  | [] => []
  | x :: rest => x :: List.filter (fun y => negb (String.eqb x y)) (first_seen rest)
  end.

(** The keys of [ep_times] and of [ep_hits] in the order of their
    insertion, which is the order of [items()]: each endpoint, without its
    locale prefix, at its first request. *)
Definition keys_in_order (requests : list entry) : list string :=
  first_seen (omap (fun line => match endpoint_of line with
                                | Ok ep => Some (sub_locale ep)
                                | Raise _ => None
                                end) requests).

(** [d.items()] for a dict with the given keys. *)
Definition items {V} (keys : list string) (d : gmap string V)
  : list (string * V) :=
  omap (fun k => (fun v => (k, v)) <$> d !! k) keys.

(** The ten pairs of lines 167 to 169. *)
Definition slowest (keys : list string) (times : gmap string PrimFloat.float)
  : list (string * PrimFloat.float) :=
  firstn 10 (sorted_reverse PrimFloat.ltb snd (items keys times)).

(** Lines 165 to 170. *)
Definition slowest_endpoints (keys : list string)
    (st : stats PrimFloat.float) : list entry :=
  (fun '(endpoint, time) =>
     <["time" := VStr (format_1f time)]> (<["endpoint" := VStr endpoint]> ∅))
  <$> slowest keys (ep_times st).

(** The ten pairs of lines 175 to 177. *)
Definition most_hit (keys : list string) (hits : gmap string Z)
  : list (string * Z) :=
  firstn 10 (sorted_reverse Z.ltb snd (items keys hits)).

(** Lines 173 to 178. *)
Definition most_hit_endpoints (keys : list string)
    (st : stats PrimFloat.float) : list entry :=
  (fun '(endpoint, hits) =>
     <["hits" := VInt hits]> (<["endpoint" := VStr endpoint]> ∅))
  <$> most_hit keys (ep_hits st).

(** Lines 149 to 179, on the [defaultdict] that [read_log] returns when it
    opens the file. *)
Definition main_tables (no_requests : bool) (logs : buckets)
  : printing unit :=
  if no_requests then silent (Ok tt)
  else
    let requests := default [] (logs !! REQUEST_KEY) in
    let! lines := silent (slowest_requests requests) in
    let! _ := _print_table "Top 10 Slow requests" lines
                           "endpoint" "total_time" in
    let! st := silent (endpoint_loop no_stats requests) in
    let keys := keys_in_order requests in
    let! _ := _print_table "Top 10 slow endpoints"
                           (slowest_endpoints keys st) "endpoint" "time" in
    _print_table "Top 10 most hit endpoints:"
                 (most_hit_endpoints keys st) "endpoint" "hits".

(** *** The command line *)

(** The result of [parse_args]; [severity] is one of [LOG_LEVELS]. *)
Module Args.
Record t : Type := mk {
  logfile : string;
  threshold : Z;
  severity : string;
  include_no_db : bool;
  no_requests : bool;
  just_requests : bool;
  quiet : bool;
  vervose : bool
}.
End Args.

(** The levels under which the loop of [read_log] appends a record, in the
    order of the calls of [append]. *)
Fixpoint appended (threshold : number) (severity : Z) (ignore_no_db : bool)
    (st : state) (lines : list string) : list string :=
  match lines with
  | [] => []
  | line :: rest =>
      match step threshold severity ignore_no_db st line with
      | Ok st' =>
          (if is_header line && nonempty (current_line st) then
             match current_line st !! "level" with
             | Some (VStr k) => [k]
             | _ => []
             end
           else []) ++ appended threshold severity ignore_no_db st' rest
      | Raise _ => []
      end
  end.

(** The keys of the mapping that [read_log] returns in the order of their
    insertion, which is the order of [items()]: each level at the first
    record appended under it. *)
Definition levels_in_order (fs : gmap string string) (logfile : string)
    (threshold : option number) (severity : option Z) (ignore_no_db : bool)
  : list string :=
  if unset threshold && bool_decide (severity = None) then []
  else
    first_seen (appended (threshold_or_0 threshold)
                         (severity_or_above severity) ignore_no_db init
                         (file_lines (default "" (fs !! logfile)))).

(** The text of line 148 for the given keys. *)
Definition counts (levels : list string) (logs : buckets) : string :=
  join nl ((fun level =>
              level +:+ ": " +:+
              decimal_of (Z.of_nat (length (default [] (logs !! level)))))
           <$> levels).

(** Lines 132 and 133. *)
Definition main_threshold (a : Args.t) : Z :=
  if Args.no_requests a then 0 else Args.threshold a.

(** Lines 134, 135 and 145: [_LEVEL_MAPPING.get(Args.severity, 1000)],
    where the severity is [None] after [--just-requests]. *)
Definition main_severity (a : Args.t) : Z :=
  if Args.just_requests a then 1000 else level_get (Args.severity a) 1000.

(** The call of lines 142 to 147. *)
Definition main_read_log (fs : gmap string string) (a : Args.t)
  : result buckets :=
  read_log fs (Args.logfile a) (Some (NInt (main_threshold a)))
           (Some (main_severity a)) (negb (Args.include_no_db a)).

(** Lines 137 to 140 set the level of the logger, which [read_log] asks
    before it prints its progress (lines 42 to 45, 103 and 104): the
    progress is displayed with [--vervose], unless [--quiet] is given
    too. *)
Definition progress_display (a : Args.t) : bool :=
  Args.vervose a && negb (Args.quiet a).

(** [main] after [parse_args], for a command line without progress
    display: what [read_log] prints while it reads is not described. *)
Definition main (fs : gmap string string) (a : Args.t) : printing unit :=
  let! logs := silent (main_read_log fs a) in
  let levels := levels_in_order fs (Args.logfile a)
                                (Some (NInt (main_threshold a)))
                                (Some (main_severity a))
                                (negb (Args.include_no_db a)) in
  let! _ := print (counts levels logs) in
  main_tables (Args.no_requests a) logs.

(** ** Vocabulary of the further properties *)

(** The keys of a record of each branch (lines 72 to 99). *)
Definition common_keys : gset string :=
  list_to_set ["timestamp"; "pid"; "level"; "db"; "logger"].

Definition request_keys : gset string :=
  list_to_set ["ip"; "method"; "endpoint"; "status"; "other_time"; "sql_time";
               "total_time"; "query_count"] ∪ common_keys.

Definition message_keys : gset string :=
  list_to_set ["message"; "context"] ∪ common_keys.

(** The sum of the hit counts. *)
Definition total_hits (hits : gmap string Z) : Z :=
  map_fold (fun _ h acc => h + acc) 0 hits.

(** The invariant of the loop of [main]: the two tables have the same keys
    and every count is positive. *)
Definition tables_ok {F} (st : stats F) : Prop :=
  dom (ep_hits st) = dom (ep_times st) /\
  map_Forall (fun _ h => 1 <= h) (ep_hits st).

(** The place of a float that is no nan in the order of [<]: the sign
    class first, then exponent and mantissa, reversed for negative
    numbers. *)
Definition place (f : spec_float) : Z * Z * Z :=
  match f with
  | S754_zero _ | S754_nan => (0, 0, 0)
  | S754_infinity s => (if s then -2 else 2, 0, 0)
  | S754_finite s m e => if s then (-1, - e, Zneg m) else (1, e, Zpos m)
  end.

Definition before_place (a b : Z * Z * Z) : Prop :=
  a.1.1 < b.1.1 \/
  (a.1.1 = b.1.1 /\ (a.1.2 < b.1.2 \/ (a.1.2 = b.1.2 /\ a.2 < b.2))).

(** A float that is not a nan. *)
Definition is_number (f : PrimFloat.float) : Prop := is_nan f = false.

(** The cells that [format] pads to the width it is given: texts and
    numbers. *)
Definition padded_cell (v : value) : Prop :=
  match v with
  | VStr _ | VInt _ | VFloat _ => True
  | VList _ | VTime _ => False
  end.

(** Both cells of a row are such. *)
Definition padded_row (field value : string) (line : entry) : Prop :=
  forall v, line !! field = Some v \/ line !! value = Some v -> padded_cell v.

(** A record whose total time is a float that is a number. *)
Definition timed (line : entry) : Prop :=
  exists t, line !! "total_time" = Some (VFloat t) /\ is_number t.

(** The total time of such a record. *)
Definition time_of (line : entry) : PrimFloat.float :=
  match line !! "total_time" with
  | Some (VFloat t) => t
  | _ => 0%float
  end.

(** Neither cell of a row is a list. *)
Definition no_list_cell (field value : string) (line : entry) : Prop :=
  forall l, line !! field <> Some (VList l) /\ line !! value <> Some (VList l).

(** ** Further samples *)

(** A header whose level token is the name of the bucket of the requests. *)
Definition request_level_line : string :=
  "2024-01-01 10:00:06 1 REQUEST db INFO odd" +:+ nl.

(** A log with three requests that take more than fifty seconds, two of
    them to one endpoint, and an error. *)
Definition slow_log : string :=
  shop_line "30.5" "40.25" +:+ error_line +:+ traceback_1
  +:+ request_line +:+ shop_line "20" "45" +:+ error_line
  +:+ "2024-01-01 10:00:07,000 123 INFO mydb werkzeug: 127.0.0.1 - - "
  +:+ "[01/Jan/2024 10:00:07] " +:+ quote +:+ "GET /fr_FR/web HTTP/1.1"
  +:+ quote +:+ " 200 - 9 1.5 60" +:+ nl
  +:+ debug_line.

(** The command line [odoo.log] with no option. *)
Definition default_args : Args.t :=
  Args.mk "odoo.log" 50 "INFO" false false false false false.

(** * Properties *)

(** ** The error monad and the built-ins *)

Lemma bind_Ok {A B} (c : result A) (k : A -> result B) (b : B) :
  bind c k = Ok b <-> exists a, c = Ok a /\ k a = Ok b.
Proof.
  destruct c as [a|e]; simpl; split.
  - intros Hk. exists a. auto.
  - intros (a' & Ha & Hk). congruence.
  - discriminate.
  - intros (a' & Ha & _). discriminate.
Qed.

Lemma Ok_inj {A} (a b : A) : Ok a = Ok b -> a = b.
Proof. by intros [= ->]. Qed.

Lemma get_ok_spec {A} (d : A) (c : result A) :
  is_ok c = true -> c = Ok (get_ok d c).
Proof. by destruct c. Qed.

Lemma is_Some_true {A} (o : option A) : bool_decide (is_Some o) = true -> is_Some o.
Proof. apply bool_decide_eq_true_1. Qed.

Lemma only_element {A} (d : A) (l : list A) :
  length l = 1%nat -> l = [hd d l].
Proof. by destruct l as [|x [|y l]]. Qed.

Lemma lookup_present {A} (d : A) (m : gmap string A) (k : string) :
  bool_decide (is_Some (m !! k)) = true -> m !! k = Some (default d (m !! k)).
Proof. intros [x ->]%bool_decide_eq_true_1. done. Qed.

Lemma getitem_nat {A} (l : list A) (i : nat) :
  l.[Z.of_nat i] = of_option IndexError (l !! i).
Proof.
  unfold getitem.
  destruct (Z.ltb_spec (Z.of_nat i) 0) as [Hneg|_]; [lia|].
  destruct (Z.ltb_spec (Z.of_nat i) 0) as [Hneg|_]; [lia|].
  by rewrite Nat2Z.id.
Qed.

Lemma nonempty_spec (d : entry) : nonempty d = true <-> d <> ∅.
Proof.
  unfold nonempty. rewrite negb_true_iff, bool_decide_eq_false.
  apply map_size_non_empty_iff.
Qed.

Lemma nonempty_empty : nonempty ∅ = false.
Proof. reflexivity. Qed.

Lemma nonempty_insert (k : string) (v : value) (d : entry) :
  nonempty (<[k := v]> d) = true.
Proof. apply nonempty_spec, insert_non_empty. Qed.

Lemma nonempty_lookup (d : entry) (k : string) (v : value) :
  d !! k = Some v -> nonempty d = true.
Proof.
  intros Hk. apply nonempty_spec. intros ->.
  by rewrite lookup_empty in Hk.
Qed.

Lemma setdefault_lookup (k j : string) (v : value) (d : entry) :
  setdefault k v d !! j =
  if decide (k = j) then Some (default v (d !! k)) else d !! j.
Proof.
  unfold setdefault. destruct (d !! k) as [w|] eqn:Hk.
  - case_decide; subst; simpl; congruence.
  - rewrite lookup_insert. by case_decide.
Qed.

(** ** The body of the loop *)

Lemma request_fields_Some thr line fr e :
  request_fields thr line fr = Ok (Some e) ->
  exists t1 o t2 s ip f11 ep status t3 q,
    truthy thr = true /\ endswith line "-" = false /\
    fr.[-1] = Ok t1 /\ float t1 = Ok o /\
    fr.[-2] = Ok t2 /\ float t2 = Ok s /\
    lt_number (PrimFloat.add o s) thr = false /\
    fr.[6] = Ok ip /\ fr.[11] = Ok f11 /\ fr.[12] = Ok ep /\
    fr.[14] = Ok status /\ fr.[-3] = Ok t3 /\ int t3 = Ok q /\
    e = <["level" := VStr REQUEST_KEY]>
        (<["query_count" := VInt q]>
        (<["total_time" := VFloat (PrimFloat.add o s)]>
        (<["sql_time" := VFloat s]>
        (<["other_time" := VFloat o]>
        (<["status" := VStr status]>
        (<["endpoint" := VStr ep]>
        (<["method" := VStr (drop_first f11)]>
        (<["ip" := VStr ip]> ∅)))))))).
Proof.
  unfold request_fields. intros H.
  destruct (negb (truthy thr) || endswith line "-") eqn:Hskip; [discriminate|].
  apply orb_false_iff in Hskip as [Ht He]. apply negb_false_iff in Ht.
  repeat (apply bind_Ok in H as (? & ? & H)).
  destruct (lt_number _ thr) eqn:Hlt; [discriminate|].
  repeat (apply bind_Ok in H as (? & ? & H)).
  injection H as <-.
  repeat eexists; eauto.
Qed.

Lemma header_inv thr sev ign line e :
  header thr sev ign line = Ok e ->
  e = ∅ \/
  exists level f5 db cl ts pid,
    (split line).[3] = Ok level /\ (split line).[5] = Ok f5 /\
    (split line).[4] = Ok db /\
    (ign && String.eqb db "?") = false /\
    (if String.eqb (drop_last f5) "werkzeug" && String.eqb level "INFO"
     then request_fields thr line (split line)
     else message_fields sev level (split line)) = Ok (Some cl) /\
    e = <["logger" := VStr (drop_last f5)]>
        (<["db" := VStr db]>
        (setdefault "level" (VStr level)
        (<["pid" := VInt pid]>
        (<["timestamp" := VTime ts]> cl)))).
Proof.
  unfold header. intros H.
  apply bind_Ok in H as (level & Hl & H).
  apply bind_Ok in H as (f5 & Hf5 & H).
  apply bind_Ok in H as (db & Hdb & H).
  destruct (ign && String.eqb db "?") eqn:Hign.
  { injection H as <-. by left. }
  apply bind_Ok in H as ([cl|] & Hbr & H).
  2:{ injection H as <-. by left. }
  repeat (apply bind_Ok in H as (? & ? & H)).
  injection H as <-. right.
  repeat eexists; eauto.
Qed.

Lemma message_fields_Some sev level fr e :
  message_fields sev level fr = Ok (Some e) ->
  (level_get level 0 <? sev) = false /\
  e = <["context" := VList []]>
      (<["message" := VStr (join " " (slice_from 6 fr))]> ∅).
Proof.
  unfold message_fields. destruct (_ <? _); [discriminate|].
  intros [= <-]. done.
Qed.

Lemma header_shaped thr sev ign line e :
  header thr sev ign line = Ok e -> e = ∅ \/ shaped thr e.
Proof.
  intros H. apply header_inv in H as [->|(level & f5 & db & cl & ts & pid & _ & _ & _ & _ & Hbr & ->)]; [by left|].
  right.
  destruct (_ && _).
  - apply request_fields_Some in Hbr
      as (t1 & o & t2 & s & ip & f11 & ep & status & t3 & q & _ & _ & _ & _ & _ & _ & Hlt & _ & _ & _ & _ & _ & _ & ->).
    left. exists o, s, ep, q.
    repeat split; try done.
  - apply message_fields_Some in Hbr as [_ ->].
    right. eexists _, [], level. repeat split; try done.
Qed.

(** ** The buckets *)

Lemma store_Ok thr L e :
  shaped thr e -> exists k, e !! "level" = Some (VStr k) /\
    store L e = Ok (<[k := (default [] (L !! k) ++ [e])%list]> L).
Proof.
  intros [(o & s & ep & q & _ & _ & _ & _ & _ & _ & Hl & _)|(m & ctx & k & _ & _ & Hl & _)];
    unfold store; rewrite Hl; eauto.
Qed.

Lemma stored_insert (L : buckets) k es :
  stored (<[k := es]> L) = (length es + stored L - length (default [] (L !! k)))%nat.
Proof.
  assert (Hcomm : forall (M : buckets) (j1 j2 : string) (z1 z2 : list entry) (y : nat),
    j1 <> j2 -> M !! j1 = Some z1 -> M !! j2 = Some z2 ->
    (length z1 + (length z2 + y) = length z2 + (length z1 + y))%nat) by (intros; lia).
  unfold stored. rewrite <- insert_delete_eq.
  rewrite map_fold_insert_L; [|by eauto|by rewrite lookup_delete_eq].
  destruct (L !! k) as [old|] eqn:Hk; simpl.
  - rewrite (map_fold_delete_L _ _ k old L); [lia|by eauto|done].
  - rewrite delete_id by done. lia.
Qed.

Lemma stored_store L e L' : store L e = Ok L' -> stored L' = S (stored L).
Proof.
  unfold store. destruct (e !! "level") as [[k| | | |]|]; try discriminate.
  intros [= <-]. rewrite stored_insert, length_app. simpl.
  destruct (L !! k) as [old|] eqn:Hk; simpl; [|lia].
  assert (length old <= stored L)%nat; [|lia].
  unfold stored. rewrite (map_fold_delete_L _ _ k old L); [lia| |done].
  intros; lia.
Qed.

(** ** The loop and its invariant *)

Section Loop.
Variables (thr : number) (sev : Z) (ign : bool).

Lemma run_app st l1 l2 :
  run thr sev ign st (l1 ++ l2) = let* st' := run thr sev ign st l1 in run thr sev ign st' l2.
Proof.
  revert st. induction l1 as [|l l1 IH]; intros st; simpl; [done|].
  destruct (step thr sev ign st l) as [st'|e]; simpl; [apply IH|done].
Qed.

Lemma run_snoc st st' ls l :
  run thr sev ign st ls = Ok st' -> run thr sev ign st (ls ++ [l]) = step thr sev ign st' l.
Proof.
  intros Hr. rewrite run_app, Hr. simpl. by destruct (step thr sev ign st' l).
Qed.

Lemma end_previous_ok st :
  state_ok thr st ->
  exists L, end_previous st = Ok L /\
    (forall k es, L !! k = Some es -> Forall (shaped thr) es).
Proof.
  intros [[Hc|Hc] Hlog]; unfold end_previous.
  - rewrite Hc, nonempty_empty. eauto.
  - destruct (nonempty (current_line st)); [|by eauto].
    destruct (store_Ok thr (log st) _ Hc) as (k & _ & ->).
    eexists; split; [done|].
    intros j es. rewrite lookup_insert. case_decide as Hj.
    + intros [= <-]. apply Forall_app. split; [|by apply Forall_singleton].
      destruct (log st !! k) as [old|] eqn:Hk; simpl; [by eapply Hlog|constructor].
    + apply Hlog.
Qed.

Lemma step_header st line :
  is_header line = true ->
  step thr sev ign st line =
  let* L := end_previous st in
  let* e := header thr sev ign line in Ok (mk_state L e).
Proof. intros Hh. unfold step. by rewrite Hh. Qed.

Lemma message_append thr' e ctx line :
  shaped thr' e -> e !! "context" = Some (VList ctx) ->
  message_shaped e /\
  message_shaped (<["context" := VList (ctx ++ [line])%list]> e).
Proof.
  intros [(o & s & ep & q & _ & _ & _ & _ & _ & _ & _ & Hc & _)|Hm] Hctx;
    [congruence|].
  split; [done|].
  destruct Hm as (m & ctx' & k & Hm & _ & Hl & Ht).
  exists m, (ctx ++ [line])%list, k.
  rewrite !lookup_insert. repeat split; by case_decide.
Qed.

Lemma step_continuation st line :
  state_ok thr st -> is_header line = false ->
  step thr sev ign st line =
  Ok match current_line st !! "context" with
     | Some (VList ctx) =>
         mk_state (log st)
           (<["context" := VList (ctx ++ [line])%list]> (current_line st))
     | _ => st
     end.
Proof.
  intros [[Hc|Hc] _] Hh; unfold step; rewrite Hh.
  - by rewrite Hc, lookup_empty.
  - destruct Hc as [(o & s & ep & q & _ & _ & _ & _ & _ & _ & _ & -> & _)
                   |(m & ctx & k & _ & -> & _)]; done.
Qed.

Lemma step_ok st line st' :
  state_ok thr st -> step thr sev ign st line = Ok st' -> state_ok thr st'.
Proof.
  intros Hok. destruct (is_header line) eqn:Hh.
  - rewrite step_header by done.
    destruct (end_previous_ok st Hok) as (L & -> & HL). simpl.
    intros (e & He & [= <-])%bind_Ok. split; [|done].
    simpl. by eapply header_shaped.
  - rewrite step_continuation by done. intros [= <-].
    destruct Hok as [Hc Hlog].
    destruct (current_line st !! "context") as [[| | |ctx|]|] eqn:Hctx;
      try by split.
    split; [|done]. right. right.
    destruct Hc as [Hc|Hc]; [by rewrite Hc, lookup_empty in Hctx|].
    by eapply message_append.
Qed.

Lemma init_ok : state_ok thr init.
Proof. split; [by left|]. intros k es. unfold init. simpl. by rewrite lookup_empty. Qed.

Lemma run_ok st lines st' :
  state_ok thr st -> run thr sev ign st lines = Ok st' -> state_ok thr st'.
Proof.
  revert st. induction lines as [|l ls IH]; intros st Hok; simpl.
  - by intros [= <-].
  - intros (st1 & Hs & Hr)%bind_Ok. eauto using step_ok.
Qed.

Lemma step_count st line st' :
  step thr sev ign st line = Ok st' ->
  (stored (log st') + pending st' =
   stored (log st) + pending st + if opens thr sev ign line then 1 else 0)%nat.
Proof.
  unfold step, opens. destruct (is_header line); simpl.
  - intros (L & HL & (e & He & [= <-])%bind_Ok)%bind_Ok. rewrite He. simpl.
    unfold pending at 1. simpl.
    unfold end_previous, pending in *.
    destruct (nonempty (current_line st)).
    + apply stored_store in HL. destruct (nonempty e); lia.
    + injection HL as <-. destruct (nonempty e); lia.
  - destruct (current_line st !! "context") as [[| | |ctx|]|] eqn:Hctx;
      try discriminate; intros [= <-]; [|lia].
    unfold pending. simpl. rewrite nonempty_insert.
    by rewrite (nonempty_lookup _ _ _ Hctx).
Qed.

Lemma run_count st lines st' :
  run thr sev ign st lines = Ok st' ->
  (stored (log st') + pending st' =
   stored (log st) + pending st + opened thr sev ign lines)%nat.
Proof.
  revert st. induction lines as [|l ls IH]; intros st; simpl.
  - intros [= <-]. unfold opened. simpl. lia.
  - intros (st1 & Hs & Hr)%bind_Ok.
    apply IH in Hr. apply step_count in Hs.
    unfold opened in *. simpl. destruct (opens thr sev ign l); simpl; lia.
Qed.

Lemma run_continuations st conts :
  state_ok thr st -> Forall (fun c => is_header c = false) conts ->
  current_line st !! "context" = None ->
  run thr sev ign st conts = Ok st.
Proof.
  intros Hok Hc Hctx. induction Hc as [|c cs Hc _ IH]; simpl; [done|].
  rewrite step_continuation, Hctx by done. simpl. apply IH.
Qed.

End Loop.

(** ** Reading a whole file *)

Lemma read_log_inv fs logfile threshold severity ign L :
  read_log fs logfile threshold severity ign = Ok L ->
  (unset threshold = true /\ severity = None /\ L = ∅) \/
  exists text st,
    fs !! logfile = Some text /\
    run (threshold_or_0 threshold) (severity_or_above severity) ign init
        (file_lines text) = Ok st /\
    L = log st.
Proof.
  unfold read_log.
  destruct (unset threshold && bool_decide (severity = None)) eqn:Hu.
  - intros [= <-]. apply andb_true_iff in Hu as [Hu Hs].
    apply bool_decide_eq_true in Hs. by left.
  - intros (text & Ht & (st & Hr & [= <-])%bind_Ok)%bind_Ok. right.
    destruct (fs !! logfile); [|discriminate]. injection Ht as ->. eauto.
Qed.

Lemma read_log_run fs logfile threshold severity ign text :
  (unset threshold && bool_decide (severity = None)) = false ->
  fs !! logfile = Some text ->
  read_log fs logfile threshold severity ign =
  let* st := run (threshold_or_0 threshold) (severity_or_above severity) ign
                 init (file_lines text) in Ok (log st).
Proof. intros Hu Hf. unfold read_log. by rewrite Hu, Hf. Qed.

(** ** The claims about the reader *)

(** C10: when the threshold is unset or zero and the severity is unset,
    [read_log] returns the empty mapping without opening the file, so no
    file error is raised even for a file that does not exist; in every
    other case a missing file raises. *)
Theorem read_log_nothing_to_capture
    (fs : gmap string string) (logfile : string) (threshold : option number)
    (severity : option Z) (ignore_no_db : bool) :
  (unset threshold = true -> severity = None ->
   read_log fs logfile threshold severity ignore_no_db = Ok ∅) /\
  ((unset threshold = false \/ severity <> None) -> fs !! logfile = None ->
   read_log fs logfile threshold severity ignore_no_db = Raise FileNotFoundError).
Proof.
  unfold read_log. split.
  - intros -> ->. done.
  - intros Hset Hf.
    destruct (unset threshold && bool_decide (severity = None)) eqn:Hu.
    + apply andb_true_iff in Hu as [Hu Hs%bool_decide_eq_true].
      destruct Hset; congruence.
    + by rewrite Hf.
Qed.

Lemma read_log_nothing_to_capture_witness :
  read_log ∅ "missing.log" (Some (NInt 0)) None true = Ok ∅ /\
  read_log ∅ "missing.log" (Some (NInt 50)) None true = Raise FileNotFoundError.
Proof.
  split.
  - apply (read_log_nothing_to_capture ∅ "missing.log" (Some (NInt 0)) None true);
      reflexivity.
  - apply (read_log_nothing_to_capture ∅ "missing.log" (Some (NInt 50)) None true);
      [left|]; reflexivity.
Defined.

(** C9: the endpoint is normalized by removing exactly one leading segment
    [/xx_YY/] (two lower-case letters, underscore, two upper-case letters),
    which is replaced by [/]; an endpoint without such a prefix is left as
    it is; [/en_US/shop] and [/shop] are counted under the one key
    [/shop]. *)
Theorem sub_locale_strips_one_prefix :
  (forall a b c d rest,
     is_lower a = true -> is_lower b = true ->
     is_upper c = true -> is_upper d = true ->
     sub_locale (String "/" (String a (String b (String "_"
                (String c (String d (String "/" rest)))))))
     = String "/" rest) /\
  (forall ep,
     (forall a b c d rest,
        ep = String "/" (String a (String b (String "_"
               (String c (String d (String "/" rest)))))) ->
        is_lower a && is_lower b && is_upper c && is_upper d = false) ->
     sub_locale ep = ep) /\
  sub_locale "/en_US/shop" = "/shop" /\
  sub_locale "/shop" = "/shop" /\
  (forall e1 e2 t1 t2,
     endpoint_of e1 = Ok "/en_US/shop" -> total_time_of e1 = Ok t1 ->
     endpoint_of e2 = Ok "/shop" -> total_time_of e2 = Ok t2 ->
     exists st,
       endpoint_loop no_stats [e1; e2] = Ok st /\
       ep_hits st = {[ "/shop" := 2 ]} /\
       dom (ep_times st) = {[ "/shop" ]}).
Proof.
  repeat split.
  - intros a b c d rest Ha Hb Hc Hd. simpl. by rewrite Ha, Hb, Hc, Hd.
  - intros ep Hno.
    destruct ep as [|s0 [|a [|b [|u [|c [|d [|s1 rest]]]]]]]; try done.
    unfold sub_locale.
    destruct (Ascii.eqb_spec s0 "/") as [->|]; [|done].
    destruct (Ascii.eqb_spec u "_") as [->|]; [|by rewrite !andb_false_r].
    destruct (Ascii.eqb_spec s1 "/") as [->|]; [|by rewrite !andb_false_r].
    specialize (Hno a b c d rest eq_refl).
    simpl. rewrite !andb_true_r.
    destruct (is_lower a), (is_lower b), (is_upper c), (is_upper d); done.
  - intros e1 e2 t1 t2 He1 Ht1 He2 Ht2. simpl.
    rewrite He1, Ht1. simpl. rewrite He2, Ht2. simpl.
    eexists. split; [done|]. unfold update. simpl. split.
    + rewrite lookup_empty. simpl. rewrite lookup_insert_eq. simpl.
      by rewrite insert_insert_eq.
    + rewrite !dom_insert_L, dom_empty_L. set_solver.
Qed.

Lemma sub_locale_strips_one_prefix_witness :
  sub_locale "/fr_BE/en_US/shop" = "/en_US/shop" /\
  sub_locale "/web/login" = "/web/login" /\
  exists st,
    endpoint_loop no_stats [request "/en_US/shop" 1; request "/shop" 3] = Ok st /\
    ep_hits st = {[ "/shop" := 2 ]} /\ dom (ep_times st) = {[ "/shop" ]}.
Proof.
  destruct sub_locale_strips_one_prefix as (Hstrip & Hkeep & _ & _ & Hagg).
  split; [|split].
  - apply (Hstrip "f"%char "r"%char "B"%char "E"%char "en_US/shop"); reflexivity.
  - apply Hkeep. intros a b c d rest Heq. discriminate Heq.
  - apply (Hagg _ _ 1%float 3%float); reflexivity.
Defined.

Lemma getitem_below {A} (l : list A) (i j : Z) (x : A) :
  0 <= i <= j -> l.[j] = Ok x -> exists y, l.[i] = Ok y.
Proof.
  unfold getitem. intros Hij.
  destruct (Z.ltb_spec j 0) as [?|_]; [lia|].
  destruct (Z.ltb_spec j 0) as [?|_]; [lia|].
  destruct (Z.ltb_spec i 0) as [?|_]; [lia|].
  destruct (Z.ltb_spec i 0) as [?|_]; [lia|].
  destruct (l !! Z.to_nat j) eqn:Hj; [|discriminate]. intros _.
  apply lookup_lt_Some in Hj.
  destruct (lookup_lt_is_Some_2 l (Z.to_nat i)) as [y ->]; [lia|]. by exists y.
Qed.

Lemma is_request_shaped thr e :
  shaped thr e -> is_request e -> request_shaped thr e.
Proof.
  intros [Hr|(m & ctx & k & _ & _ & _ & Ht)] [v Hv]; [done|congruence].
Qed.

(** C6: a retained request record has [total_time] equal to the float sum
    of [other_time] (the last token) and [sql_time] (the token before it),
    the only value [total_time] is ever given; a request line whose sum is
    strictly below the threshold is skipped. The third part states the same
    of every request record that [read_log] returns. *)
Theorem total_time_is_the_sum :
  (forall thr sev ign line e,
     header thr sev ign line = Ok e -> is_request e ->
     exists t1 t2 o s,
       (split line).[-1] = Ok t1 /\ float t1 = Ok o /\
       (split line).[-2] = Ok t2 /\ float t2 = Ok s /\
       e !! "other_time" = Some (VFloat o) /\
       e !! "sql_time" = Some (VFloat s) /\
       e !! "total_time" = Some (VFloat (PrimFloat.add o s)) /\
       lt_number (PrimFloat.add o s) thr = false) /\
  (forall thr sev ign line f5 db t1 t2 o s,
     (split line).[3] = Ok "INFO" -> (split line).[5] = Ok f5 ->
     drop_last f5 = "werkzeug" -> (split line).[4] = Ok db ->
     (split line).[-1] = Ok t1 -> float t1 = Ok o ->
     (split line).[-2] = Ok t2 -> float t2 = Ok s ->
     lt_number (PrimFloat.add o s) thr = true ->
     header thr sev ign line = Ok ∅) /\
  (forall fs logfile threshold severity ign L k es e,
     read_log fs logfile threshold severity ign = Ok L ->
     L !! k = Some es -> e ∈ es -> is_request e ->
     exists o s,
       e !! "other_time" = Some (VFloat o) /\
       e !! "sql_time" = Some (VFloat s) /\
       e !! "total_time" = Some (VFloat (PrimFloat.add o s)) /\
       lt_number (PrimFloat.add o s) (threshold_or_0 threshold) = false).
Proof.
  split; [|split].
  - intros thr sev ign line e H Hreq.
    apply header_inv in H
      as [->|(level & f5 & db & cl & ts & pid & _ & _ & _ & _ & Hbr & ->)].
    { destruct Hreq as [v Hv]. by rewrite lookup_empty in Hv. }
    destruct (_ && _).
    + apply request_fields_Some in Hbr
        as (t1 & o & t2 & s & ip & f11 & ep & status & t3 & q & _ & _ & Ht1
            & Ho & Ht2 & Hs & Hlt & _ & _ & _ & _ & _ & _ & ->).
      exists t1, t2, o, s. repeat split; done.
    + apply message_fields_Some in Hbr as [_ ->].
      destruct Hreq as [v Hv]. done.
  - intros thr sev ign line f5 db t1 t2 o s Hl Hf5 Hlg Hdb Ht1 Ho Ht2 Hs Hlt.
    unfold header. rewrite Hl, Hf5, Hdb. simpl.
    destruct (ign && String.eqb db "?"); [done|].
    rewrite Hlg. simpl. unfold request_fields.
    destruct (negb (truthy thr) || endswith line "-"); [done|].
    rewrite Ht1. simpl. rewrite Ho, Ht2. simpl. rewrite Hs. simpl.
    by rewrite Hlt.
  - intros fs logfile threshold severity ign L k es e HL Hk He Hreq.
    apply read_log_inv in HL as [(_ & _ & ->)|(text & st & _ & Hrun & ->)].
    { by rewrite lookup_empty in Hk. }
    apply run_ok in Hrun as [_ Hlog]; [|apply init_ok].
    specialize (Hlog k es Hk). rewrite Forall_forall in Hlog.
    apply Hlog in He.
    destruct (is_request_shaped _ _ He Hreq)
      as (o & s & ep & q & ? & ? & ? & ? & _).
    by exists o, s.
Qed.

Lemma total_time_is_the_sum_witness :
  (exists e t1 t2 o s,
     header (NFloat 0.04) 20 true request_line = Ok e /\
     (split request_line).[-1] = Ok t1 /\ float t1 = Ok o /\
     (split request_line).[-2] = Ok t2 /\ float t2 = Ok s /\
     e !! "other_time" = Some (VFloat o) /\
     e !! "sql_time" = Some (VFloat s) /\
     e !! "total_time" = Some (VFloat (PrimFloat.add o s)) /\
     lt_number (PrimFloat.add o s) (NFloat 0.04) = false) /\
  header (NInt 50) 20 true request_line = Ok ∅.
Proof.
  destruct total_time_is_the_sum as (Hkeep & Hskip & _). split.
  - assert (He : header (NFloat 0.04) 20 true request_line =
                 Ok (get_ok ∅ (header (NFloat 0.04) 20 true request_line)))
      by (apply get_ok_spec; vm_compute; reflexivity).
    destruct (Hkeep _ _ _ _ _ He) as (t1 & t2 & o & s & H).
    { apply is_Some_true. vm_compute. reflexivity. }
    exact (ex_intro _ _ (ex_intro _ t1 (ex_intro _ t2 (ex_intro _ o
             (ex_intro _ s (conj He H)))))).
  - apply (Hskip (NInt 50) 20 true request_line "werkzeug:" "mydb"
                 "0.040" "0.010" 0.04%float 0.01%float);
      vm_compute; reflexivity.
Defined.

Lemma run_continuations_log thr sev ign st conts :
  state_ok thr st -> Forall (fun c => is_header c = false) conts ->
  exists cur,
    run thr sev ign st conts = Ok (mk_state (log st) cur) /\
    (nonempty (current_line st) = true -> nonempty cur = true).
Proof.
  intros Hok Hc. revert st Hok.
  induction Hc as [|c cs Hc _ IH]; intros st Hok; simpl.
  - exists (current_line st). by destruct st.
  - pose proof (step_continuation thr sev ign st c Hok Hc) as Hs.
    pose proof (step_ok thr sev ign st c _ Hok Hs) as Hok'.
    rewrite Hs. simpl.
    destruct (IH _ Hok') as (cur & Hr & Hn). exists cur.
    destruct (current_line st !! "context") as [[| | |ctx|]|] eqn:Hctx;
      try (split; [by destruct st|done]).
    simpl in *. split; [done|]. intros _. apply Hn, nonempty_insert.
Qed.

(** C3: at the end of the input the record in progress is not stored.
    When the last header of the file opens a record and only continuation
    lines follow, [read_log] returns the buckets as they stand once the
    record before it is stored: the last record stays in [current_line],
    and the buckets hold one record fewer than were opened. *)
Theorem last_entry_is_dropped
    (fs : gmap string string) (logfile : string) (threshold : option number)
    (severity : option Z) (ign : bool) (text : string)
    (pre : list string) (h : string) (conts : list string)
    (st : state) (e : entry) :
  let thr := threshold_or_0 threshold in
  let sev := severity_or_above severity in
  (unset threshold && bool_decide (severity = None)) = false ->
  fs !! logfile = Some text ->
  file_lines text = (pre ++ h :: conts)%list ->
  run thr sev ign init pre = Ok st ->
  is_header h = true ->
  header thr sev ign h = Ok e -> nonempty e = true ->
  Forall (fun c => is_header c = false) conts ->
  exists L cur,
    end_previous st = Ok L /\
    run thr sev ign init (pre ++ h :: conts) = Ok (mk_state L cur) /\
    nonempty cur = true /\
    read_log fs logfile threshold severity ign = Ok L /\
    (stored L + 1 = opened thr sev ign (pre ++ h :: conts))%nat.
Proof.
  intros thr sev Hu Hf Hlines Hpre Hh He Hne Hconts.
  pose proof (run_ok thr sev ign _ _ _ (init_ok thr) Hpre) as Hok.
  destruct (end_previous_ok thr st Hok) as (L & HL & HLok).
  assert (Hstep : step thr sev ign st h = Ok (mk_state L e)).
  { rewrite step_header by done. by rewrite HL, He. }
  pose proof (step_ok thr sev ign _ _ _ Hok Hstep) as Hok1.
  destruct (run_continuations_log thr sev ign _ conts Hok1 Hconts)
    as (cur & Hr & Hcur).
  assert (Hall : run thr sev ign init (pre ++ h :: conts) = Ok (mk_state L cur)).
  { rewrite run_app, Hpre. simpl. by rewrite Hstep. }
  exists L, cur. repeat split; try done.
  - by apply Hcur.
  - rewrite (read_log_run _ _ _ _ _ text) by done.
    fold thr sev. by rewrite Hlines, Hall.
  - apply run_count in Hall. unfold pending in Hall. simpl in Hall.
    rewrite Hcur in Hall by done. unfold stored at 2 in Hall.
    rewrite map_fold_empty, nonempty_empty in Hall. lia.
Qed.

Lemma last_entry_is_dropped_witness :
  exists L cur,
    run (threshold_or_0 (Some (NFloat 0.04))) (severity_or_above (Some 20)) true
        init ([request_line] ++ error_line :: [traceback_1; traceback_2])
    = Ok (mk_state L cur) /\
    nonempty cur = true /\
    read_log (one_file (request_line +:+ error_line +:+ traceback_1 +:+ traceback_2))
             "odoo.log" (Some (NFloat 0.04)) (Some 20) true = Ok L /\
    (stored L + 1)%nat =
    opened (threshold_or_0 (Some (NFloat 0.04))) (severity_or_above (Some 20))
           true ([request_line] ++ error_line :: [traceback_1; traceback_2]).
Proof.
  destruct (last_entry_is_dropped
              (one_file (request_line +:+ error_line +:+ traceback_1 +:+ traceback_2))
              "odoo.log" (Some (NFloat 0.04)) (Some 20) true
              (request_line +:+ error_line +:+ traceback_1 +:+ traceback_2)
              [request_line] error_line [traceback_1; traceback_2]
              (get_ok init (run (NFloat 0.04) 20 true init [request_line]))
              (get_ok ∅ (header (NFloat 0.04) 20 true error_line)))
    as (L & cur & _ & Hrun & Hcur & Hread & Hcount).
  - reflexivity.
  - vm_compute. reflexivity.
  - vm_compute. reflexivity.
  - apply get_ok_spec. vm_compute. reflexivity.
  - vm_compute. reflexivity.
  - apply get_ok_spec. vm_compute. reflexivity.
  - vm_compute. reflexivity.
  - repeat constructor; vm_compute; reflexivity.
  - exact (ex_intro _ L (ex_intro _ cur
             (conj Hrun (conj Hcur (conj Hread Hcount))))).
Defined.

(** C8: with [ignore_no_db] set, a header line whose db token is [?] (and
    that has its logger token) first stores the record in progress: the
    buckets after the line are those before it with that record appended at
    the end of the bucket of its level, or the same buckets when no record
    is in progress. The line opens no record and leaves [current_line]
    empty, so that the continuation lines after it change nothing. *)
Theorem no_db_header_is_skipped
    (thr : number) (sev : Z) (pre : list string) (st : state)
    (h f5 : string) (conts : list string) :
  run thr sev true init pre = Ok st ->
  is_header h = true ->
  (split h).[4] = Ok "?" -> (split h).[5] = Ok f5 ->
  Forall (fun c => is_header c = false) conts ->
  header thr sev true h = Ok ∅ /\
  exists L,
    end_previous st = Ok L /\
    (current_line st = ∅ -> L = log st) /\
    (current_line st <> ∅ ->
     exists k,
       current_line st !! "level" = Some (VStr k) /\
       L = <[k := (default [] (log st !! k) ++ [current_line st])%list]>
             (log st) /\
       stored L = S (stored (log st))) /\
    run thr sev true init (pre ++ [h]) = Ok (mk_state L ∅) /\
    run thr sev true init (pre ++ h :: conts) = Ok (mk_state L ∅).
Proof.
  intros Hpre Hh Hdb Hf5 Hconts.
  assert (Hhead : header thr sev true h = Ok ∅).
  { unfold header.
    destruct (getitem_below (split h) 3 4 "?") as [level ->]; [lia|done|].
    simpl. by rewrite Hf5, Hdb. }
  split; [done|].
  pose proof (run_ok thr sev true _ _ _ (init_ok thr) Hpre) as Hok.
  destruct (end_previous_ok thr st Hok) as (L & HL & HLok).
  assert (Hstep : step thr sev true st h = Ok (mk_state L ∅)).
  { rewrite step_header by done. by rewrite HL, Hhead. }
  exists L. split; [done|]. split; [|split; [|split]].
  - intros Hempty. unfold end_previous in HL.
    rewrite Hempty, nonempty_empty in HL. by apply Ok_inj in HL.
  - intros Hcur. unfold end_previous in HL.
    rewrite (proj2 (nonempty_spec _) Hcur) in HL.
    destruct Hok as [[Hempty|Hshape] _]; [done|].
    destruct (store_Ok thr (log st) _ Hshape) as (k & Hk & Hstore).
    exists k. split; [done|]. split.
    + rewrite Hstore in HL. by apply Ok_inj in HL.
    + by apply (stored_store _ _ _ HL).
  - by rewrite (run_snoc _ _ _ _ _ _ _ Hpre).
  - rewrite run_app, Hpre. simpl. rewrite Hstep. simpl.
    apply run_continuations; [|done|done].
    split; [by left|done].
Qed.

Lemma no_db_header_is_skipped_witness :
  header (NInt 50) 20 true no_db_line = Ok ∅ /\
  exists st L,
    run (NInt 50) 20 true init [error_line] = Ok st /\
    log st !! "ERROR" = None /\
    current_line st !! "level" = Some (VStr "ERROR") /\
    L !! "ERROR" = Some [current_line st] /\
    stored L = 1%nat /\
    run (NInt 50) 20 true init ([error_line] ++ [no_db_line]) = Ok (mk_state L ∅) /\
    run (NInt 50) 20 true init
        ([error_line] ++ no_db_line :: [traceback_1; traceback_2])
    = Ok (mk_state L ∅).
Proof.
  pose (st := get_ok init (run (NInt 50) 20 true init [error_line])).
  assert (Hst : run (NInt 50) 20 true init [error_line] = Ok st)
    by (apply get_ok_spec; vm_compute; reflexivity).
  assert (Hlog : log st !! "ERROR" = None) by (vm_compute; reflexivity).
  assert (Hlevel : current_line st !! "level" = Some (VStr "ERROR"))
    by (vm_compute; reflexivity).
  assert (Hstored : stored (log st) = 0%nat) by (vm_compute; reflexivity).
  destruct (no_db_header_is_skipped (NInt 50) 20 [error_line] st
              no_db_line "odoo.service:" [traceback_1; traceback_2])
    as (Hhead & L & _ & _ & Hfull & H1 & H2).
  - exact Hst.
  - vm_compute. reflexivity.
  - vm_compute. reflexivity.
  - vm_compute. reflexivity.
  - repeat constructor; vm_compute; reflexivity.
  - destruct Hfull as (k & Hk & HL & Hn).
    { apply nonempty_spec. vm_compute. reflexivity. }
    assert (Hkey : k = "ERROR").
    { rewrite Hlevel in Hk. injection Hk as <-. reflexivity. }
    rewrite Hkey in HL.
    assert (Hbucket : L !! "ERROR" = Some [current_line st]).
    { rewrite HL, lookup_insert_eq, Hlog. reflexivity. }
    rewrite Hstored in Hn.
    exact (conj Hhead (ex_intro _ st (ex_intro _ L
             (conj Hst (conj Hlog (conj Hlevel (conj Hbucket
               (conj Hn (conj H1 H2))))))))).
Defined.

(** C7: in every state the loop reaches, a continuation line is appended
    to the context of the record in progress exactly when that record is a
    message record, and is dropped otherwise (no record, or a request
    record); a request record never has a context, in progress or stored;
    a message header followed by two continuation lines and a header is
    stored with exactly those two lines, in order, as its context. *)
Theorem continuation_only_for_messages
    (thr : number) (sev : Z) (ign : bool) (pre : list string) (st : state) :
  run thr sev ign init pre = Ok st ->
  (forall c, is_header c = false ->
     (is_message (current_line st) ->
      exists ctx,
        current_line st !! "context" = Some (VList ctx) /\
        step thr sev ign st c =
        Ok (mk_state (log st)
              (<["context" := VList (ctx ++ [c])%list]> (current_line st)))) /\
     (~ is_message (current_line st) -> step thr sev ign st c = Ok st)) /\
  (is_request (current_line st) ->
     ~ is_message (current_line st) /\ current_line st !! "context" = None) /\
  (forall k es e, log st !! k = Some es -> e ∈ es -> is_request e ->
     e !! "context" = None) /\
  (forall h e c1 c2 h2 e2 L,
     is_header h = true -> header thr sev ign h = Ok e -> is_message e ->
     is_header c1 = false -> is_header c2 = false ->
     is_header h2 = true -> header thr sev ign h2 = Ok e2 ->
     end_previous st = Ok L ->
     exists k,
       e !! "level" = Some (VStr k) /\
       e !! "context" = Some (VList []) /\
       run thr sev ign init (pre ++ [h; c1; c2; h2]) =
       Ok (mk_state
             (<[k := (default [] (L !! k)
                      ++ [<["context" := VList [c1; c2]]> e])%list]> L)
             e2)).
Proof.
  intros Hpre.
  pose proof (run_ok thr sev ign _ _ _ (init_ok thr) Hpre) as Hok.
  assert (Hshape : forall e', shaped thr e' ->
            (is_message e' -> message_shaped e') /\
            (is_request e' -> request_shaped thr e')).
  { intros e' [Hr|Hm]; split; try done.
    - destruct Hr as (o & s & ep & q & _ & _ & _ & _ & _ & _ & _ & _ & Hmsg).
      intros [v Hv]. congruence.
    - destruct Hm as (m & ctx & k & _ & _ & _ & Ht). intros [v Hv]. congruence. }
  split; [|split; [|split]].
  - intros c Hc. rewrite (step_continuation thr sev ign st c Hok Hc).
    destruct Hok as [[Hcur|Hcur] _].
    + rewrite Hcur. split; [|by rewrite lookup_empty].
      intros [v Hv]. by rewrite lookup_empty in Hv.
    + destruct (Hshape _ Hcur) as [Hm _]. split.
      * intros (m & ctx & k & _ & Hctx & _)%Hm. exists ctx. by rewrite Hctx.
      * intros Hnm. destruct Hcur as [Hr|(m & ctx & k & Hmsg & _)].
        -- by destruct Hr as (o & s & ep & q & _ & _ & _ & _ & _ & _ & _ & -> & _).
        -- destruct Hnm. by exists (VStr m).
  - intros Hreq. destruct Hok as [[Hcur|Hcur] _].
    + rewrite Hcur in Hreq. destruct Hreq as [v Hv].
      by rewrite lookup_empty in Hv.
    + destruct (Hshape _ Hcur) as [_ Hr].
      destruct (Hr Hreq) as (o & s & ep & q & _ & _ & _ & _ & _ & _ & _ & Hc & Hm).
      split; [|done]. intros [v Hv]. congruence.
  - intros k es e Hk He Hreq. destruct Hok as [_ Hlog].
    specialize (Hlog k es Hk). rewrite Forall_forall in Hlog.
    destruct (Hshape _ (Hlog _ He)) as [_ Hr].
    by destruct (Hr Hreq) as (o & s & ep & q & _ & _ & _ & _ & _ & _ & _ & Hc & _).
  - intros h e c1 c2 h2 e2 L Hh He Hmsg Hc1 Hc2 Hh2 He2 HL.
    assert (Hs1 : step thr sev ign st h = Ok (mk_state L e)).
    { rewrite step_header by done. by rewrite HL, He. }
    pose proof (step_ok thr sev ign _ _ _ Hok Hs1) as Hok1.
    apply header_inv in He
      as [->|(level & f5 & db & cl & ts & pid & _ & _ & _ & _ & Hbr & ->)].
    { destruct Hmsg as [v Hv]. by rewrite lookup_empty in Hv. }
    destruct (_ && _).
    { apply request_fields_Some in Hbr
        as (t1 & o & t2 & s & ip & f11 & ep & status & t3 & q & _ & _ & _ & _
            & _ & _ & _ & _ & _ & _ & _ & _ & _ & ->).
      destruct Hmsg as [v Hv]. done. }
    apply message_fields_Some in Hbr as [_ ->].
    set (e := <["logger":=_]> _) in *.
    assert (Hctx : e !! "context" = Some (VList [])) by done.
    assert (Hlvl : e !! "level" = Some (VStr level)) by done.
    exists level. split; [done|]. split; [done|].
    rewrite run_app, Hpre. simpl. rewrite Hs1. simpl.
    rewrite (step_continuation thr sev ign _ c1 Hok1 Hc1). simpl.
    rewrite Hctx. simpl.
    set (st2 := mk_state L _).
    assert (Hs2 : step thr sev ign (mk_state L e) c1 = Ok st2).
    { rewrite (step_continuation thr sev ign _ c1 Hok1 Hc1). simpl.
      by rewrite Hctx. }
    pose proof (step_ok thr sev ign _ _ _ Hok1 Hs2) as Hok2.
    rewrite (step_continuation thr sev ign _ c2 Hok2 Hc2). simpl.
    rewrite lookup_insert_eq. simpl. rewrite insert_insert_eq.
    rewrite step_header by done. unfold end_previous. simpl.
    rewrite nonempty_insert. unfold store.
    rewrite lookup_insert_ne by done. rewrite Hlvl. simpl.
    by rewrite He2.
Qed.

Lemma continuation_only_for_messages_witness :
  exists st e L k,
    run (NFloat 0.04) 20 true init [request_line] = Ok st /\
    is_request (current_line st) /\
    step (NFloat 0.04) 20 true st traceback_1 = Ok st /\
    header (NFloat 0.04) 20 true error_line = Ok e /\
    e !! "level" = Some (VStr k) /\
    run (NFloat 0.04) 20 true init
        ([request_line] ++ [error_line; traceback_1; traceback_2; debug_line])
    = Ok (mk_state
            (<[k := (default [] (L !! k)
                     ++ [<["context" := VList [traceback_1; traceback_2]]> e])%list]> L)
            ∅).
Proof.
  pose (st := get_ok init (run (NFloat 0.04) 20 true init [request_line])).
  pose (e := get_ok ∅ (header (NFloat 0.04) 20 true error_line)).
  pose (L := get_ok ∅ (end_previous st)).
  assert (Hst : run (NFloat 0.04) 20 true init [request_line] = Ok st)
    by (apply get_ok_spec; vm_compute; reflexivity).
  assert (He : header (NFloat 0.04) 20 true error_line = Ok e)
    by (apply get_ok_spec; vm_compute; reflexivity).
  assert (HL : end_previous st = Ok L)
    by (apply get_ok_spec; vm_compute; reflexivity).
  assert (Hr : is_request (current_line st))
    by (apply is_Some_true; vm_compute; reflexivity).
  assert (Hm : is_message e)
    by (apply is_Some_true; vm_compute; reflexivity).
  destruct (continuation_only_for_messages (NFloat 0.04) 20 true
              [request_line] st Hst) as (Hcont & Hreq & _ & Hscen).
  destruct (Hreq Hr) as [Hnm _].
  destruct (Hcont traceback_1) as [_ Hdrop]; [vm_compute; reflexivity|].
  destruct (Hscen error_line e traceback_1 traceback_2 debug_line ∅ L)
    as (k & Hk & _ & Hrun);
    [ vm_compute; reflexivity | exact He | exact Hm
    | vm_compute; reflexivity | vm_compute; reflexivity
    | vm_compute; reflexivity | vm_compute; reflexivity | exact HL | ].
  exact (ex_intro _ st (ex_intro _ e (ex_intro _ L (ex_intro _ k
           (conj Hst (conj Hr (conj (Hdrop Hnm) (conj He (conj Hk Hrun))))))))).
Defined.

Lemma unknown_level_rank (level : string) :
  level ∉ LOG_LEVELS -> level_get level 0 = 0 /\ level <> "INFO".
Proof.
  intros Hl. split.
  - unfold level_get.
    destruct (List.find _ _LEVEL_MAPPING) as [kv|] eqn:Hf; [|done].
    apply find_some in Hf as [Hin Heq]. apply String.eqb_eq in Heq.
    destruct Hl. rewrite <- Heq. unfold LOG_LEVELS.
    by apply list_elem_of_fmap_2, list_elem_of_In.
  - intros ->. apply Hl. by apply list_elem_of_In; vm_compute; tauto.
Qed.

(** C4, as amended: a level token that is no level name has rank 0, so
    the severity filter skips its line exactly when the minimal severity is
    positive, and lets it through only for a minimal severity of 0 or
    less. *)
Theorem unknown_level_has_rank_zero
    (thr : number) (sev : Z) (ign : bool) (line level f5 db : string) :
  level ∉ LOG_LEVELS ->
  (split line).[3] = Ok level -> (split line).[5] = Ok f5 ->
  (split line).[4] = Ok db -> (ign && String.eqb db "?") = false ->
  level_get level 0 = 0 /\
  (message_fields sev level (split line) = Ok None <-> 0 < sev) /\
  (0 < sev -> header thr sev ign line = Ok ∅) /\
  (sev <= 0 -> header thr sev ign line <> Ok ∅).
Proof.
  intros Hl H3 H5 H4 Hign.
  destruct (unknown_level_rank level Hl) as [Hrank Hinfo].
  assert (Hbranch : (String.eqb (drop_last f5) "werkzeug" && String.eqb level "INFO") = false).
  { apply andb_false_iff. right. by apply String.eqb_neq. }
  split; [done|]. split; [|split].
  - unfold message_fields. rewrite Hrank.
    destruct (Z.ltb_spec 0 sev); split; try done; lia.
  - intros Hsev. unfold header. rewrite H3, H5, H4. simpl.
    rewrite Hign, Hbranch. unfold message_fields. rewrite Hrank.
    destruct (Z.ltb_spec 0 sev); [done|lia].
  - intros Hsev. unfold header. rewrite H3, H5, H4. simpl.
    rewrite Hign, Hbranch. unfold message_fields. rewrite Hrank.
    destruct (Z.ltb_spec 0 sev); [lia|]. simpl. intros Heq.
    repeat (apply bind_Ok in Heq as (? & ? & Heq)).
    apply Ok_inj in Heq. by apply insert_non_empty in Heq.
Qed.

Lemma unknown_level_has_rank_zero_witness :
  header (NInt 50) 20 true trace_line = Ok ∅ /\
  header (NInt 50) 0 true trace_line <> Ok ∅.
Proof.
  assert (Hl : "TRACE" ∉ LOG_LEVELS).
  { rewrite list_elem_of_In. vm_compute. intuition discriminate. }
  split.
  - apply (unknown_level_has_rank_zero (NInt 50) 20 true trace_line
             "TRACE" "INFO" "db" Hl); try (vm_compute; reflexivity); lia.
  - apply (unknown_level_has_rank_zero (NInt 50) 0 true trace_line
             "TRACE" "INFO" "db" Hl); try (vm_compute; reflexivity); lia.
Defined.

Lemma unknown_level_is_filtered :
  is_header trace_line = true /\
  (split trace_line).[3] = Ok "TRACE" /\
  existsb (String.eqb "TRACE") LOG_LEVELS = false /\
  message_fields 20 "TRACE" (split trace_line) = Ok None /\
  header (NInt 50) 20 true trace_line = Ok ∅ /\
  read_log (one_file (trace_line +:+ error_line)) "odoo.log"
           (Some (NInt 50)) (Some 20) true = Ok ∅ /\
  exists L e,
    read_log (one_file (trace_line +:+ error_line)) "odoo.log"
             (Some (NInt 50)) (Some 0) true = Ok L /\
    L !! "TRACE" = Some [e] /\ stored L = 1%nat /\
    e !! "level" = Some (VStr "TRACE").
Proof.
  do 6 (split; [vm_compute; reflexivity|]).
  pose (L := get_ok ∅ (read_log (one_file (trace_line +:+ error_line)) "odoo.log"
                                (Some (NInt 50)) (Some 0) true)).
  exists L, (hd ∅ (default [] (L !! "TRACE"))).
  split; [apply get_ok_spec; vm_compute; reflexivity|].
  split; [|split; vm_compute; reflexivity].
  rewrite (lookup_present [] L "TRACE") by (vm_compute; reflexivity).
  apply (f_equal Some), only_element. vm_compute. reflexivity.
Qed.

(** C2, the claim as stated fails: the line of the scenario has 14 tokens,
    the request branch reads tokens 11, 12 and 14, and [read_log] stops with
    an index error. *)
Lemma short_request_line_raises :
  is_header short_request_line = true /\
  length (split short_request_line) = 14%nat /\
  (split short_request_line).[12] = Ok "0.010" /\
  (split short_request_line).[14] = Raise IndexError /\
  read_log (one_file short_request_line) "odoo.log"
           (Some (NFloat 0.04)) None true = Raise IndexError /\
  read_log (one_file (short_request_line +:+ nl +:+ debug_line)) "odoo.log"
           (Some (NFloat 0.04)) (Some 20) true = Raise IndexError.
Proof. repeat split; vm_compute; reflexivity. Qed.

(** C2, as amended: for the request line in the layout of the access log
    (client address, two dashes, bracketed date, quoted request line before
    the status), read with threshold 0.04 and followed by a further header,
    [read_log] returns exactly one request record, with endpoint [/], total
    time 0.05 and query count 5. *)
Theorem request_line_scenario :
  exists L e,
    read_log (one_file (request_line +:+ debug_line)) "odoo.log"
             (Some (NFloat 0.04)) None true = Ok L /\
    L !! REQUEST_KEY = Some [e] /\
    stored L = 1%nat /\
    e !! "endpoint" = Some (VStr "/") /\
    e !! "total_time" = Some (VFloat 0.05) /\
    e !! "query_count" = Some (VInt 5) /\
    e !! "other_time" = Some (VFloat 0.04) /\
    e !! "sql_time" = Some (VFloat 0.01) /\
    e !! "method" = Some (VStr "GET") /\
    e !! "status" = Some (VStr "200") /\
    e !! "ip" = Some (VStr "127.0.0.1") /\
    e !! "level" = Some (VStr REQUEST_KEY) /\
    e !! "context" = None.
Proof.
  pose (L := get_ok ∅ (read_log (one_file (request_line +:+ debug_line))
                                "odoo.log" (Some (NFloat 0.04)) None true)).
  exists L, (hd ∅ (default [] (L !! REQUEST_KEY))).
  split; [apply get_ok_spec; vm_compute; reflexivity|].
  split.
  { rewrite (lookup_present [] L REQUEST_KEY) by (vm_compute; reflexivity).
    apply (f_equal Some), only_element. vm_compute. reflexivity. }
  repeat split; vm_compute; reflexivity.
Qed.

Lemma rev_onto_app (s t acc : string) :
  rev_onto (s +:+ t) acc = rev_onto t (rev_onto s acc).
Proof. revert acc. induction s as [|c s IH]; intros acc; simpl; [done|apply IH]. Qed.

Lemma endswith_newline (body : string) : endswith (body +:+ nl) "-" = false.
Proof. unfold endswith, reverse. by rewrite rev_onto_app. Qed.

(** The part of the request branch that holds on every line. *)
Lemma request_without_timing_is_skipped
    (thr : number) (sev : Z) (ign : bool) (line f5 db : string) :
  (split line).[3] = Ok "INFO" -> (split line).[5] = Ok f5 ->
  drop_last f5 = "werkzeug" -> (split line).[4] = Ok db ->
  truthy thr = false \/ endswith line "-" = true ->
  header thr sev ign line = Ok ∅.
Proof.
  intros H3 H5 Hlg H4 Hskip. unfold header. rewrite H3, H5, H4. simpl.
  destruct (ign && String.eqb db "?"); [done|].
  rewrite Hlg. simpl. unfold request_fields.
  by destruct Hskip as [-> | ->]; rewrite ?orb_true_r.
Qed.

(** A request line without timing data that still carries its newline. *)
Lemma no_perf_line_with_newline
    (thr : number) (sev : Z) (ign : bool) (body f5 db : string) :
  (split (body +:+ nl)).[3] = Ok "INFO" ->
  (split (body +:+ nl)).[5] = Ok f5 -> drop_last f5 = "werkzeug" ->
  (split (body +:+ nl)).[4] = Ok db -> (ign && String.eqb db "?") = false ->
  truthy thr = true -> (split (body +:+ nl)).[-1] = Ok "-" ->
  header thr sev ign (body +:+ nl) = Raise ValueError.
Proof.
  intros H3 H5 Hlg H4 Hign Hthr Hlast. unfold header.
  rewrite H3, H5, H4. simpl. rewrite Hign, Hlg. simpl.
  unfold request_fields. rewrite Hthr, endswith_newline. simpl.
  by rewrite Hlast.
Qed.

(** C5, at the failing input: the test for the final [-] is made on the
    line with its newline. The request line without timing data is skipped
    when it is the last line of a file with no final newline; followed by
    its newline it reaches [float("-")] and the reader stops with a value
    error. *)
Theorem no_perf_line_is_not_skipped :
  endswith request_line_no_perf "-" = true /\
  read_log (one_file request_line_no_perf) "odoo.log"
           (Some (NInt 50)) (Some 20) true = Ok ∅ /\
  endswith (request_line_no_perf +:+ nl) "-" = false /\
  (split (request_line_no_perf +:+ nl)).[-1] = Ok "-" /\
  float "-" = Raise ValueError /\
  header (NInt 50) 20 true (request_line_no_perf +:+ nl) = Raise ValueError /\
  read_log (one_file (request_line_no_perf +:+ nl)) "odoo.log"
           (Some (NInt 50)) (Some 20) true = Raise ValueError /\
  read_log (one_file (request_line_no_perf +:+ nl +:+ error_line)) "odoo.log"
           (Some (NInt 50)) (Some 20) true = Raise ValueError.
Proof. repeat split; vm_compute; reflexivity. Qed.

(** ** The endpoint statistics *)

Section StatsFacts.
Context {F : Type} `{Arith F}.

Lemma online_snoc (ts : list F) (t : F) :
  online (ts ++ [t]) =
  (next_average (fst (online ts)) (snd (online ts)) t, snd (online ts) + 1).
Proof. unfold online. by rewrite fold_left_app. Qed.

Lemma online_count (ts : list F) : snd (online ts) = Z.of_nat (length ts).
Proof.
  induction ts as [|t ts IH] using rev_ind; [done|].
  rewrite online_snoc, length_app. simpl. lia.
Qed.

Lemma aggregate_snoc (samples : list (string * F)) (s : string * F) :
  aggregate (samples ++ [s]) = update (aggregate samples) (fst s) (snd s).
Proof. unfold aggregate. by rewrite fold_left_app. Qed.

Lemma times_of_snoc (E : string) (samples : list (string * F)) (s : string * F) :
  times_of E (samples ++ [s]) =
  (times_of E samples ++ if decide (sub_locale (fst s) = E) then [snd s] else [])%list.
Proof.
  unfold times_of. rewrite filter_app, fmap_app. f_equal.
  rewrite filter_cons, filter_nil. by case_decide.
Qed.

(** Each endpoint is aggregated on its own: its hit count and its average
    are the recurrence over its own total times, in file order. *)
Lemma aggregate_lookup (E : string) (samples : list (string * F)) :
  let ts := times_of E samples in
  ep_hits (aggregate samples) !! E =
    match ts with [] => None | _ => Some (snd (online ts)) end /\
  ep_times (aggregate samples) !! E =
    match ts with [] => None | _ => Some (fst (online ts)) end.
Proof.
  induction samples as [|s samples IH] using rev_ind; [done|].
  simpl in *. rewrite aggregate_snoc, times_of_snoc.
  destruct IH as [IHh IHt]. unfold update. simpl.
  case_decide as HE.
  - rewrite HE, !lookup_insert_eq, IHh, IHt, online_snoc.
    by destruct (times_of E samples) as [|t0 ts0].
  - rewrite !lookup_insert_ne by done. by rewrite app_nil_r.
Qed.

End StatsFacts.


(** *** Exact arithmetic *)

Lemma of_int_nonzero (n : Z) : n <> 0 -> (of_int n : Qc) <> 0%Qc.
Proof.
  intros Hn Hq. apply Hn. simpl in Hq.
  apply Q2Qc_eq_iff in Hq. unfold Qeq in Hq. simpl in Hq. lia.
Qed.

Lemma total_snoc (ts : list Qc) (t : Qc) :
  fold_left add (ts ++ [t]) (of_int 0) = (fold_left add ts (of_int 0) + t)%Qc.
Proof. by rewrite fold_left_app. Qed.

Lemma online_exact (ts : list Qc) :
  (fst (online ts) * of_int (Z.of_nat (length ts)) =
   fold_left add ts (of_int 0))%Qc.
Proof.
  induction ts as [|t ts IH] using rev_ind.
  - simpl. change (Q2Qc (inject_Z 0)) with 0%Qc. ring.
  - rewrite online_snoc, total_snoc, length_app. simpl fst.
    rewrite online_count, <- IH. unfold next_average.
    replace (Z.of_nat (length ts + length [t])) with (Z.of_nat (length ts) + 1)
      by (simpl; lia).
    pose proof (of_int_nonzero (Z.of_nat (length ts) + 1) ltac:(lia)) as Hnz.
    unfold div, mul, add in *. simpl in *. by field.
Qed.

Lemma online_is_batch_mean (ts : list Qc) :
  ts <> [] -> fst (online ts) = batch_mean ts.
Proof.
  intros Hts. unfold batch_mean. rewrite <- online_exact.
  assert (Hnz : (of_int (Z.of_nat (length ts)) : Qc) <> 0%Qc).
  { apply of_int_nonzero. destruct ts; [done|simpl; lia]. }
  unfold div, mul in *. simpl in *. by field.
Qed.




(** * Further properties *)

(** ** More on the reader *)

Section Records.
Variables (thr : number) (sev : Z) (ign : bool).

(** A property of records that every opened record has and that appending
    to a context keeps holds of every record the loop holds or stores. *)
Lemma run_records (P : entry -> Prop) :
  (forall line e, header thr sev ign line = Ok e -> e <> ∅ -> P e) ->
  (forall e ctx ctx', P e -> e !! "context" = Some (VList ctx) ->
     P (<["context" := VList ctx']> e)) ->
  forall lines st,
    run thr sev ign init lines = Ok st ->
    (current_line st = ∅ \/ P (current_line st)) /\
    (forall k es, log st !! k = Some es -> Forall P es).
Proof.
  intros Hopen Hctx lines.
  induction lines as [|l lines IH] using rev_ind; intros st.
  - intros [= <-]. split; [by left|]. intros k es. unfold init. simpl.
    by rewrite lookup_empty.
  - rewrite run_app. intros (st0 & Hrun & Hstep)%bind_Ok.
    simpl in Hstep. apply bind_Ok in Hstep as (st1 & Hstep & [= <-]).
    destruct (IH _ Hrun) as [Hcur Hlog]. clear IH.
    pose proof (run_ok thr sev ign _ _ _ (init_ok thr) Hrun) as Hok.
    destruct (is_header l) eqn:Hh.
    + rewrite step_header in Hstep by done.
      apply bind_Ok in Hstep as (L & HL & (e & He & [= <-])%bind_Ok).
      simpl. split.
      * destruct (decide (e = ∅)) as [->|Hne]; [by left|right; eauto].
      * unfold end_previous in HL.
        destruct (nonempty (current_line st0)) eqn:Hn;
          [|injection HL as <-; done].
        apply nonempty_spec in Hn. destruct Hcur as [?|Hcur]; [done|].
        unfold store in HL.
        destruct (current_line st0 !! "level") as [[k| | | |]|];
          try discriminate.
        apply Ok_inj in HL. subst L. intros j es.
        rewrite lookup_insert. case_decide as Hj; [|apply Hlog].
        intros [= <-]. apply Forall_app. split; [|by apply Forall_singleton].
        destruct (log st0 !! k) as [old|] eqn:Hk; simpl;
          [by eapply Hlog|constructor].
    + rewrite step_continuation in Hstep by done. apply Ok_inj in Hstep.
      subst st1.
      destruct (current_line st0 !! "context") as [[| | |ctx|]|] eqn:Hc;
        try done.
      simpl. split; [|done]. right.
      destruct Hcur as [Hcur|Hcur]; [by rewrite Hcur, lookup_empty in Hc|].
      by eapply Hctx.
Qed.

End Records.

Lemma read_log_records (P : entry -> Prop) fs logfile threshold severity ign L :
  (forall line e,
     header (threshold_or_0 threshold) (severity_or_above severity) ign line
       = Ok e -> e <> ∅ -> P e) ->
  (forall e ctx ctx', P e -> e !! "context" = Some (VList ctx) ->
     P (<["context" := VList ctx']> e)) ->
  read_log fs logfile threshold severity ign = Ok L ->
  forall k es, L !! k = Some es -> Forall P es.
Proof.
  intros Hopen Hctx [(_ & _ & ->)|(text & st & _ & Hrun & ->)]%read_log_inv.
  - intros k es. by rewrite lookup_empty.
  - by apply (run_records _ _ _ P Hopen Hctx _ _ Hrun).
Qed.

Lemma level_get_le (level : string) (d : Z) : d <= 50 -> level_get level d <= 50.
Proof.
  intros Hd. unfold level_get.
  destruct (List.find _ _) as [kv|] eqn:Hf; [|done].
  apply find_some in Hf as [Hin _].
  assert (Hall : Forall (fun kv : string * Z => snd kv <= 50) _LEVEL_MAPPING).
  { unfold _LEVEL_MAPPING. repeat constructor; simpl; lia. }
  rewrite Forall_forall in Hall. apply Hall. by apply list_elem_of_In.
Qed.

Lemma run_filed thr sev ign lines st :
  run thr sev ign init lines = Ok st ->
  forall k es, log st !! k = Some es ->
    es <> [] /\ Forall (fun e => e !! "level" = Some (VStr k)) es.
Proof.
  revert st. induction lines as [|l lines IH] using rev_ind; intros st.
  - intros [= <-] k es. unfold init. simpl. by rewrite lookup_empty.
  - rewrite run_app. intros (st0 & Hrun & Hstep)%bind_Ok.
    simpl in Hstep. apply bind_Ok in Hstep as (st1 & Hstep & [= <-]).
    specialize (IH _ Hrun).
    destruct (is_header l) eqn:Hh.
    + rewrite step_header in Hstep by done.
      apply bind_Ok in Hstep as (L & HL & (e & He & [= <-])%bind_Ok).
      simpl. unfold end_previous in HL.
      destruct (nonempty (current_line st0)); [|by apply Ok_inj in HL; subst L].
      unfold store in HL.
      destruct (current_line st0 !! "level") as [[k| | | |]|] eqn:Hl;
        try discriminate.
      apply Ok_inj in HL. subst L. intros j es.
      rewrite lookup_insert. case_decide as Hj; [|apply IH].
      intros [= <-]. subst j. split; [by destruct (default _ _)|].
      apply Forall_app. split; [|by apply Forall_singleton].
      destruct (log st0 !! k) as [old|] eqn:Hk; simpl;
        [by eapply IH|constructor].
    + unfold step in Hstep. rewrite Hh in Hstep.
      destruct (current_line st0 !! "context") as [[| | |ctx|]|];
        try discriminate; apply Ok_inj in Hstep; subst st1; apply IH.
Qed.

Lemma read_log_filed fs logfile threshold severity ign L k es :
  read_log fs logfile threshold severity ign = Ok L ->
  L !! k = Some es ->
  es <> [] /\ Forall (fun e => e !! "level" = Some (VStr k)) es.
Proof.
  intros [(_ & _ & ->)|(text & st & _ & Hrun & ->)]%read_log_inv.
  - by rewrite lookup_empty.
  - by eapply run_filed.
Qed.

Lemma read_log_shaped fs logfile threshold severity ign L k es :
  read_log fs logfile threshold severity ign = Ok L ->
  L !! k = Some es -> Forall (shaped (threshold_or_0 threshold)) es.
Proof.
  intros [(_ & _ & ->)|(text & st & _ & Hrun & ->)]%read_log_inv.
  - by rewrite lookup_empty.
  - apply (run_ok _ _ _ _ _ _ (init_ok _) Hrun).
Qed.

(** ** What the returned buckets hold *)

(** X1: every bucket that [read_log] returns holds at least one record,
    each record sits in the bucket named by its own ["level"], and a record
    of the request branch sits in the bucket [REQUEST]. *)
Theorem records_are_filed_by_level
    (fs : gmap string string) (logfile : string) (threshold : option number)
    (severity : option Z) (ignore_no_db : bool) (L : buckets)
    (k : string) (es : list entry) :
  read_log fs logfile threshold severity ignore_no_db = Ok L ->
  L !! k = Some es ->
  es <> [] /\
  Forall (fun e => e !! "level" = Some (VStr k) /\
                   (is_request e -> k = REQUEST_KEY)) es.
Proof.
  intros Hread Hk.
  destruct (read_log_filed _ _ _ _ _ _ _ _ Hread Hk) as [Hne Hlevel].
  split; [done|].
  pose proof (read_log_shaped _ _ _ _ _ _ _ _ Hread Hk) as Hshape.
  rewrite Forall_forall in Hlevel, Hshape. apply Forall_forall.
  intros e He. split; [by apply Hlevel|].
  intros [t Ht].
  destruct (Hshape e He)
    as [(o & s & ep & q & _ & _ & _ & _ & _ & _ & Hl & _)
       |(m & ctx & j & _ & _ & _ & Hno)]; [|congruence].
  specialize (Hlevel e He). congruence.
Qed.

Lemma records_are_filed_by_level_witness :
  exists L es,
    read_log (one_file (request_line +:+ error_line +:+ traceback_1
                        +:+ error_line +:+ debug_line))
             "odoo.log" (Some (NFloat 0.04)) (Some 20) true = Ok L /\
    L !! "ERROR" = Some es /\
    es <> [] /\
    Forall (fun e => e !! "level" = Some (VStr "ERROR") /\
                     (is_request e -> "ERROR" = REQUEST_KEY)) es.
Proof.
  pose (r := read_log (one_file (request_line +:+ error_line +:+ traceback_1
                                 +:+ error_line +:+ debug_line))
                      "odoo.log" (Some (NFloat 0.04)) (Some 20) true).
  assert (HL : r = Ok (get_ok ∅ r)) by (apply get_ok_spec; vm_compute; reflexivity).
  assert (Hk : get_ok ∅ r !! "ERROR" = Some (default [] (get_ok ∅ r !! "ERROR")))
    by (apply lookup_present; vm_compute; reflexivity).
  exists (get_ok ∅ r), (default [] (get_ok ∅ r !! "ERROR")).
  split; [exact HL|]. split; [exact Hk|].
  exact (records_are_filed_by_level _ _ _ _ _ _ _ _ HL Hk).
Defined.

Section Filters.
Variables (thr : number) (sev : Z) (ign : bool).
Variables (lines : list string) (st : state).
Hypothesis Hrun : run thr sev ign init lines = Ok st.

Lemma run_requests_only k es :
  50 < sev -> log st !! k = Some es ->
  Forall (fun e => is_request e /\ e !! "level" = Some (VStr REQUEST_KEY)) es.
Proof.
  intros Hsev. revert k es. apply (run_records thr sev ign) with (lines := lines);
    [| |exact Hrun].
  - intros line e He Hne.
    apply header_inv in He
      as [->|(level & f5 & db & cl & ts & pid & _ & _ & _ & _ & Hbr & ->)];
      [done|].
    destruct (_ && _).
    + apply request_fields_Some in Hbr
        as (t1 & o & t2 & s & ip & f11 & ep & status & t3 & q & _ & _ & _ & _
            & _ & _ & _ & _ & _ & _ & _ & _ & _ & ->).
      split; [by eexists|done].
    + apply message_fields_Some in Hbr as [Hlt _].
      pose proof (level_get_le level 0). lia.
  - intros e ctx ctx' [[t Ht] Hl] Hc. split.
    + exists t. by rewrite lookup_insert_ne.
    + by rewrite lookup_insert_ne.
Qed.

Lemma run_messages_only k es :
  truthy thr = false -> log st !! k = Some es ->
  Forall (fun e => is_message e /\ ~ is_request e) es.
Proof.
  intros Hfalsy. revert k es.
  apply (run_records thr sev ign) with (lines := lines); [| |exact Hrun].
  - intros line e He Hne.
    apply header_inv in He
      as [->|(level & f5 & db & cl & ts & pid & _ & _ & _ & _ & Hbr & ->)];
      [done|].
    destruct (_ && _).
    + apply request_fields_Some in Hbr
        as (t1 & o & t2 & s & ip & f11 & ep & status & t3 & q & Ht & _).
      congruence.
    + apply message_fields_Some in Hbr as [_ ->].
      split; [by eexists|]. intros [t Ht]. vm_compute in Ht. discriminate.
  - intros e ctx ctx' [[m Hm] Hno] Hc. split.
    + exists m. by rewrite lookup_insert_ne.
    + intros [t Ht]. apply Hno. exists t. by rewrite lookup_insert_ne in Ht.
Qed.

Lemma run_db_known k es :
  ign = true -> log st !! k = Some es ->
  Forall (fun e => exists db, e !! "db" = Some (VStr db) /\ db <> "?") es.
Proof.
  intros Hign. revert k es.
  apply (run_records thr sev ign) with (lines := lines); [| |exact Hrun].
  - intros line e He Hne.
    apply header_inv in He
      as [->|(level & f5 & db & cl & ts & pid & _ & _ & _ & Hdb & _ & ->)];
      [done|].
    exists db. split; [by rewrite lookup_insert_ne, lookup_insert_eq|].
    rewrite Hign in Hdb. simpl in Hdb. by apply String.eqb_neq.
  - intros e ctx ctx' (db & Hdb & Hne) _. exists db.
    by rewrite lookup_insert_ne.
Qed.

End Filters.

Lemma unset_falsy (threshold : option number) :
  unset threshold = true -> truthy (threshold_or_0 threshold) = false.
Proof.
  destruct threshold as [x|]; simpl; [|done].
  intros Hx%negb_true_iff. by rewrite Hx.
Qed.

(** X2: with a severity above every level of the table (an unset severity,
    or the 1000 that [main] passes for [--just-requests]), all that
    [read_log] returns is request records, in the one bucket [REQUEST]. *)
Theorem high_severity_keeps_requests_only
    (fs : gmap string string) (logfile : string) (threshold : option number)
    (severity : option Z) (ignore_no_db : bool) (L : buckets)
    (k : string) (es : list entry) :
  50 < severity_or_above severity ->
  read_log fs logfile threshold severity ignore_no_db = Ok L ->
  L !! k = Some es ->
  k = REQUEST_KEY /\ Forall is_request es.
Proof.
  intros Hsev Hread Hk.
  destruct (read_log_filed _ _ _ _ _ _ _ _ Hread Hk) as [Hne Hlevel].
  apply read_log_inv in Hread as [(_ & _ & ->)|(text & st & _ & Hrun & ->)];
    [by rewrite lookup_empty in Hk|].
  pose proof (run_requests_only _ _ _ _ _ Hrun k es Hsev Hk) as Hall.
  split; [|by eapply Forall_impl; [exact Hall|intros e [? _]]].
  destruct es as [|e es]; [done|].
  apply Forall_cons in Hall as [[_ Hl] _].
  apply Forall_cons in Hlevel as [Hl' _]. congruence.
Qed.

Lemma high_severity_keeps_requests_only_witness :
  exists L es,
    read_log (one_file (request_line +:+ error_line +:+ debug_line))
             "odoo.log" (Some (NFloat 0.04)) None true = Ok L /\
    L !! REQUEST_KEY = Some es /\
    REQUEST_KEY = REQUEST_KEY /\ Forall is_request es.
Proof.
  pose (r := read_log (one_file (request_line +:+ error_line +:+ debug_line))
                      "odoo.log" (Some (NFloat 0.04)) None true).
  assert (HL : r = Ok (get_ok ∅ r)) by (apply get_ok_spec; vm_compute; reflexivity).
  assert (Hk : get_ok ∅ r !! REQUEST_KEY
               = Some (default [] (get_ok ∅ r !! REQUEST_KEY)))
    by (apply lookup_present; vm_compute; reflexivity).
  exists (get_ok ∅ r), (default [] (get_ok ∅ r !! REQUEST_KEY)).
  split; [exact HL|]. split; [exact Hk|].
  apply (high_severity_keeps_requests_only _ _ _ _ _ _ _ _) with (3 := Hk) (2 := HL).
  vm_compute. reflexivity.
Defined.

(** X3: with a threshold that is unset or zero, [read_log] returns no
    request record: every record is a message record. *)
Theorem no_threshold_keeps_no_request
    (fs : gmap string string) (logfile : string) (threshold : option number)
    (severity : option Z) (ignore_no_db : bool) (L : buckets)
    (k : string) (es : list entry) :
  unset threshold = true ->
  read_log fs logfile threshold severity ignore_no_db = Ok L ->
  L !! k = Some es ->
  Forall (fun e => is_message e /\ ~ is_request e) es.
Proof.
  intros Hun Hread Hk.
  apply read_log_inv in Hread as [(_ & _ & ->)|(text & st & _ & Hrun & ->)];
    [by rewrite lookup_empty in Hk|].
  apply (run_messages_only _ _ _ _ _ Hrun k es); [|done].
  by apply unset_falsy.
Qed.

Lemma no_threshold_keeps_no_request_witness :
  exists L es,
    read_log (one_file (request_line +:+ error_line +:+ debug_line))
             "odoo.log" (Some (NInt 0)) (Some 20) true = Ok L /\
    L !! "ERROR" = Some es /\
    Forall (fun e => is_message e /\ ~ is_request e) es.
Proof.
  pose (r := read_log (one_file (request_line +:+ error_line +:+ debug_line))
                      "odoo.log" (Some (NInt 0)) (Some 20) true).
  assert (HL : r = Ok (get_ok ∅ r)) by (apply get_ok_spec; vm_compute; reflexivity).
  assert (Hk : get_ok ∅ r !! "ERROR" = Some (default [] (get_ok ∅ r !! "ERROR")))
    by (apply lookup_present; vm_compute; reflexivity).
  exists (get_ok ∅ r), (default [] (get_ok ∅ r !! "ERROR")).
  split; [exact HL|]. split; [exact Hk|].
  apply (no_threshold_keeps_no_request _ _ _ _ _ _ _ _) with (3 := Hk) (2 := HL).
  reflexivity.
Defined.

(** X4: when records without a database are ignored, every record that
    [read_log] returns names a database other than [?]. *)
Theorem ignored_no_db_is_never_stored
    (fs : gmap string string) (logfile : string) (threshold : option number)
    (severity : option Z) (L : buckets) (k : string) (es : list entry) :
  read_log fs logfile threshold severity true = Ok L ->
  L !! k = Some es ->
  Forall (fun e => exists db, e !! "db" = Some (VStr db) /\ db <> "?") es.
Proof.
  intros Hread Hk.
  apply read_log_inv in Hread as [(_ & _ & ->)|(text & st & _ & Hrun & ->)];
    [by rewrite lookup_empty in Hk|].
  by apply (run_db_known _ _ _ _ _ Hrun k es).
Qed.

Lemma ignored_no_db_is_never_stored_witness :
  exists L es,
    read_log (one_file (no_db_line +:+ error_line +:+ no_db_line +:+ debug_line))
             "odoo.log" None (Some 20) true = Ok L /\
    L !! "ERROR" = Some es /\
    Forall (fun e => exists db, e !! "db" = Some (VStr db) /\ db <> "?") es.
Proof.
  pose (r := read_log (one_file (no_db_line +:+ error_line +:+ no_db_line
                                 +:+ debug_line))
                      "odoo.log" None (Some 20) true).
  assert (HL : r = Ok (get_ok ∅ r)) by (apply get_ok_spec; vm_compute; reflexivity).
  assert (Hk : get_ok ∅ r !! "ERROR" = Some (default [] (get_ok ∅ r !! "ERROR")))
    by (apply lookup_present; vm_compute; reflexivity).
  exists (get_ok ∅ r), (default [] (get_ok ∅ r !! "ERROR")).
  split; [exact HL|]. split; [exact Hk|].
  exact (ignored_no_db_is_never_stored _ _ _ _ _ _ _ HL Hk).
Defined.

Lemma dom_setdefault (k : string) (v : value) (d : entry) :
  dom (setdefault k v d) = {[ k ]} ∪ dom d.
Proof.
  unfold setdefault. destruct (d !! k) as [w|] eqn:Hk.
  - apply (elem_of_dom_2 (D := gset string)) in Hk. symmetry.
    apply subseteq_union_1_L. by apply singleton_subseteq_l.
  - by rewrite dom_insert_L.
Qed.

(** X5: a record that [read_log] returns has one of two sets of keys: the
    thirteen keys of a request record, among them no ["context"] and no
    ["message"], or the seven keys of a message record. *)
Theorem records_have_fixed_keys
    (fs : gmap string string) (logfile : string) (threshold : option number)
    (severity : option Z) (ignore_no_db : bool) (L : buckets)
    (k : string) (es : list entry) :
  read_log fs logfile threshold severity ignore_no_db = Ok L ->
  L !! k = Some es ->
  Forall (fun e => (is_request e /\ dom e = request_keys) \/
                   (is_message e /\ dom e = message_keys)) es.
Proof.
  intros Hread Hk. revert Hread k es Hk. apply read_log_records.
  - intros line e He Hne.
    apply header_inv in He
      as [->|(level & f5 & db & cl & ts & pid & _ & _ & _ & _ & Hbr & ->)];
      [done|].
    destruct (_ && _).
    + apply request_fields_Some in Hbr
        as (t1 & o & t2 & s & ip & f11 & ep & status & t3 & q & _ & _ & _ & _
            & _ & _ & _ & _ & _ & _ & _ & _ & _ & ->).
      left. split; [by eexists|].
      rewrite !dom_insert_L, dom_setdefault, !dom_insert_L, dom_empty_L.
      unfold request_keys, common_keys. simpl. set_solver.
    + apply message_fields_Some in Hbr as [_ ->].
      right. split; [by eexists|].
      rewrite !dom_insert_L, dom_setdefault, !dom_insert_L, dom_empty_L.
      unfold message_keys, common_keys. simpl. set_solver.
  - intros e ctx ctx' He Hc.
    assert (Hdom : dom (<["context" := VList ctx']> e) = dom e).
    { apply dom_insert_lookup_L. by eexists. }
    rewrite Hdom.
    destruct He as [[[t Ht] Hd]|[[m Hm] Hd]]; [left|right]; (split; [|done]).
    + exists t. by rewrite lookup_insert_ne.
    + exists m. by rewrite lookup_insert_ne.
Qed.

Lemma records_have_fixed_keys_witness :
  exists L es,
    read_log (one_file (request_line +:+ error_line +:+ debug_line))
             "odoo.log" (Some (NFloat 0.04)) (Some 20) true = Ok L /\
    L !! REQUEST_KEY = Some es /\
    Forall (fun e => (is_request e /\ dom e = request_keys) \/
                     (is_message e /\ dom e = message_keys)) es.
Proof.
  pose (r := read_log (one_file (request_line +:+ error_line +:+ debug_line))
                      "odoo.log" (Some (NFloat 0.04)) (Some 20) true).
  assert (HL : r = Ok (get_ok ∅ r)) by (apply get_ok_spec; vm_compute; reflexivity).
  assert (Hk : get_ok ∅ r !! REQUEST_KEY
               = Some (default [] (get_ok ∅ r !! REQUEST_KEY)))
    by (apply lookup_present; vm_compute; reflexivity).
  exists (get_ok ∅ r), (default [] (get_ok ∅ r !! REQUEST_KEY)).
  split; [exact HL|]. split; [exact Hk|].
  exact (records_have_fixed_keys _ _ _ _ _ _ _ _ HL Hk).
Defined.

(** ** Lines that stop the reader, and files without a header *)

Lemma read_log_aborts fs logfile threshold severity ign text before line after x :
  (unset threshold && bool_decide (severity = None)) = false ->
  fs !! logfile = Some text ->
  file_lines text = (before ++ line :: after)%list ->
  is_ok (run (threshold_or_0 threshold) (severity_or_above severity) ign init
             before) = true ->
  is_header line = true ->
  header (threshold_or_0 threshold) (severity_or_above severity) ign line
    = Raise x ->
  read_log fs logfile threshold severity ign = Raise x.
Proof.
  intros Hu Hf Hlines Hbefore Hh Hx.
  rewrite (read_log_run _ _ _ _ _ _ Hu Hf), Hlines, run_app.
  apply (get_ok_spec init) in Hbefore. rewrite Hbefore. simpl.
  rewrite step_header by done.
  destruct (end_previous_ok _ _ (run_ok _ _ _ _ _ _ (init_ok _) Hbefore))
    as [L' [-> _]].
  simpl. by rewrite Hx.
Qed.




(** X7: a request line (logger [werkzeug], level [INFO]) that ends with a
    newline and has [-] as last token stops [read_log] with a value error as
    soon as requests are captured: the test for a final [-] sees the newline,
    and [float("-")] is reached. *)
Theorem dash_before_newline_raises_value_error
    (fs : gmap string string) (logfile : string) (threshold : option number)
    (severity : option Z) (ignore_no_db : bool)
    (text : string) (before : list string) (body f5 db : string)
    (after : list string) :
  unset threshold = false ->
  fs !! logfile = Some text ->
  file_lines text = (before ++ (body +:+ nl) :: after)%list ->
  is_ok (run (threshold_or_0 threshold) (severity_or_above severity)
             ignore_no_db init before) = true ->
  is_header (body +:+ nl) = true ->
  (split (body +:+ nl)).[3] = Ok "INFO" ->
  (split (body +:+ nl)).[5] = Ok f5 -> drop_last f5 = "werkzeug" ->
  (split (body +:+ nl)).[4] = Ok db ->
  (ignore_no_db && String.eqb db "?") = false ->
  (split (body +:+ nl)).[-1] = Ok "-" ->
  read_log fs logfile threshold severity ignore_no_db = Raise ValueError.
Proof.
  intros Hu Hf Hlines Hbefore Hh H3 H5 Hlg H4 Hign Hlast.
  apply (read_log_aborts _ _ _ _ _ _ _ _ _ _ (eq_trans (f_equal (fun b => b && _) Hu) eq_refl) Hf Hlines Hbefore Hh).
  apply (no_perf_line_with_newline _ _ _ _ f5 db); try done.
  destruct threshold as [x|]; [|done]. simpl in *.
  apply negb_false_iff in Hu. by rewrite Hu.
Qed.

Lemma dash_before_newline_raises_value_error_witness :
  read_log (one_file (error_line +:+ request_line_no_perf +:+ nl +:+ debug_line))
           "odoo.log" (Some (NInt 50)) (Some 20) true = Raise ValueError.
Proof.
  apply (dash_before_newline_raises_value_error _ _ _ _ _
           (error_line +:+ request_line_no_perf +:+ nl +:+ debug_line)
           [error_line] request_line_no_perf "werkzeug:" "mydb" [debug_line]);
    vm_compute; reflexivity.
Defined.

Lemma run_no_header thr sev ign lines :
  Forall (fun line => is_header line = false) lines ->
  run thr sev ign init lines = Ok init.
Proof.
  induction 1 as [|l lines Hl _ IH]; [done|].
  simpl. unfold step. by rewrite Hl.
Qed.

(** X8: a file none of whose lines starts with [202] (the empty file, or a
    log written from 2030 on) has no header line, and [read_log] returns the
    empty mapping for it. *)
Theorem file_without_year_prefix_gives_nothing
    (fs : gmap string string) (logfile : string) (threshold : option number)
    (severity : option Z) (ignore_no_db : bool) (text : string) :
  fs !! logfile = Some text ->
  Forall (fun line => startswith line _YEAR_SUFFIX = false) (file_lines text) ->
  read_log fs logfile threshold severity ignore_no_db = Ok ∅.
Proof.
  intros Hf Hlines. unfold read_log.
  destruct (unset threshold && bool_decide (severity = None)); [done|].
  rewrite Hf. simpl. rewrite run_no_header; [done|].
  eapply Forall_impl; [exact Hlines|].
  intros line Hl. unfold is_header. by rewrite Hl.
Qed.

Lemma file_without_year_prefix_gives_nothing_witness :
  read_log (one_file (traceback_1 +:+ "2031-01-01 10:00:00,000 1 ERROR db x: y" +:+ nl))
           "odoo.log" (Some (NInt 50)) (Some 20) true = Ok ∅.
Proof.
  apply (file_without_year_prefix_gives_nothing _ _ _ _ _
           (traceback_1 +:+ "2031-01-01 10:00:00,000 1 ERROR db x: y" +:+ nl)).
  - vm_compute. reflexivity.
  - assert (Hl : file_lines (traceback_1 +:+ "2031-01-01 10:00:00,000 1 ERROR db x: y" +:+ nl)
                 = [traceback_1; "2031-01-01 10:00:00,000 1 ERROR db x: y" +:+ nl])
      by (vm_compute; reflexivity).
    rewrite Hl. repeat constructor.
Defined.

(** ** Reading a file that has grown *)

Lemma step_extends thr sev ign st line st' k es :
  step thr sev ign st line = Ok st' ->
  log st !! k = Some es -> exists more, log st' !! k = Some (es ++ more)%list.
Proof.
  unfold step. intros Hstep Hk. destruct (is_header line).
  - apply bind_Ok in Hstep as (L & HL & (e & He & [= <-])%bind_Ok). simpl.
    unfold end_previous in HL. destruct (nonempty (current_line st)).
    + unfold store in HL.
      destruct (current_line st !! "level") as [[j| | | |]|]; try discriminate.
      apply Ok_inj in HL. subst L. rewrite lookup_insert. case_decide as Hj.
      * subst j. rewrite Hk. simpl. eauto.
      * exists []. by rewrite app_nil_r.
    + apply Ok_inj in HL. subst L. exists []. by rewrite app_nil_r.
  - exists []. rewrite app_nil_r.
    destruct (current_line st !! "context") as [[| | |ctx|]|];
      try discriminate; by apply Ok_inj in Hstep; subst st'.
Qed.

Lemma run_extends thr sev ign lines st st' k es :
  run thr sev ign st lines = Ok st' ->
  log st !! k = Some es -> exists more, log st' !! k = Some (es ++ more)%list.
Proof.
  revert st es. induction lines as [|l lines IH]; intros st es.
  - intros [= <-] Hk. exists []. by rewrite app_nil_r.
  - simpl. intros (st1 & Hstep & Hrun)%bind_Ok Hk.
    destruct (step_extends _ _ _ _ _ _ _ _ Hstep Hk) as [m1 H1].
    destruct (IH _ _ Hrun H1) as [m2 H2].
    exists (m1 ++ m2)%list. by rewrite app_assoc.
Qed.

(** X9: buckets only grow at their end. When a file has grown by further
    lines, reading it again returns every bucket of the first reading
    extended by new records, the old records unchanged and in place. *)
Theorem buckets_only_grow
    (fs fs' : gmap string string) (logfile : string)
    (threshold : option number) (severity : option Z) (ignore_no_db : bool)
    (text text' : string) (added : list string) (L L' : buckets)
    (k : string) (es : list entry) :
  fs !! logfile = Some text -> fs' !! logfile = Some text' ->
  file_lines text' = (file_lines text ++ added)%list ->
  read_log fs logfile threshold severity ignore_no_db = Ok L ->
  read_log fs' logfile threshold severity ignore_no_db = Ok L' ->
  L !! k = Some es ->
  exists more, L' !! k = Some (es ++ more)%list.
Proof.
  intros Hf Hf' Hlines HL HL' Hk. unfold read_log in HL, HL'.
  destruct (unset threshold && bool_decide (severity = None)).
  { apply Ok_inj in HL. subst L. by rewrite lookup_empty in Hk. }
  rewrite Hf in HL. rewrite Hf' in HL'. simpl in HL, HL'.
  apply bind_Ok in HL as (st & Hrun & [= <-]).
  apply bind_Ok in HL' as (st' & Hrun' & [= <-]).
  rewrite Hlines, run_app, Hrun in Hrun'. simpl in Hrun'.
  by eapply run_extends.
Qed.

Lemma buckets_only_grow_witness :
  exists L L' es more,
    read_log (one_file (request_line +:+ error_line)) "odoo.log"
             (Some (NFloat 0.04)) (Some 20) true = Ok L /\
    read_log (one_file (request_line +:+ error_line +:+ request_line +:+ debug_line))
             "odoo.log" (Some (NFloat 0.04)) (Some 20) true = Ok L' /\
    L !! REQUEST_KEY = Some es /\
    L' !! REQUEST_KEY = Some (es ++ more)%list.
Proof.
  pose (r := read_log (one_file (request_line +:+ error_line)) "odoo.log"
                      (Some (NFloat 0.04)) (Some 20) true).
  pose (r' := read_log (one_file (request_line +:+ error_line +:+ request_line
                                  +:+ debug_line))
                       "odoo.log" (Some (NFloat 0.04)) (Some 20) true).
  assert (HL : r = Ok (get_ok ∅ r)) by (apply get_ok_spec; vm_compute; reflexivity).
  assert (HL' : r' = Ok (get_ok ∅ r')) by (apply get_ok_spec; vm_compute; reflexivity).
  assert (Hk : get_ok ∅ r !! REQUEST_KEY
               = Some (default [] (get_ok ∅ r !! REQUEST_KEY)))
    by (apply lookup_present; vm_compute; reflexivity).
  destruct (buckets_only_grow
              (one_file (request_line +:+ error_line))
              (one_file (request_line +:+ error_line +:+ request_line +:+ debug_line))
              "odoo.log" (Some (NFloat 0.04)) (Some 20) true
              (request_line +:+ error_line)
              (request_line +:+ error_line +:+ request_line +:+ debug_line)
              [request_line; debug_line]
              (get_ok ∅ r) (get_ok ∅ r') REQUEST_KEY
              (default [] (get_ok ∅ r !! REQUEST_KEY)))
    as [more Hmore];
    [vm_compute; reflexivity|vm_compute; reflexivity|vm_compute; reflexivity
    |exact HL|exact HL'|exact Hk|].
  exact (ex_intro _ _ (ex_intro _ _ (ex_intro _ _ (ex_intro _ more
           (conj HL (conj HL' (conj Hk Hmore))))))).
Defined.

(** ** More on the endpoint statistics *)

Lemma total_hits_insert (hits : gmap string Z) (k : string) (h : Z) :
  total_hits (<[k := h]> hits) = h + total_hits hits - default 0 (hits !! k).
Proof.
  unfold total_hits. rewrite <- insert_delete_eq.
  rewrite map_fold_insert_L; [|intros; lia|by rewrite lookup_delete_eq].
  destruct (hits !! k) as [old|] eqn:Hk; simpl.
  - rewrite (map_fold_delete_L _ _ k old hits); [lia|intros; lia|done].
  - rewrite delete_id by done. lia.
Qed.

Section Tables.
Context {F : Type} `{Arith F}.

Lemma update_tables (st : stats F) (ep : string) (t : F) :
  tables_ok st ->
  tables_ok (update st ep t) /\
  total_hits (ep_hits (update st ep t)) = total_hits (ep_hits st) + 1.
Proof.
  intros [Hdom Hpos]. unfold update, tables_ok. cbn [ep_hits ep_times].
  split; [split|].
  - rewrite !dom_insert_L. by rewrite Hdom.
  - apply map_Forall_insert_2; [|done].
    destruct (ep_hits st !! sub_locale ep) as [h|] eqn:Hh; simpl; [|lia].
    specialize (Hpos _ _ Hh). simpl in Hpos. lia.
  - rewrite total_hits_insert. lia.
Qed.

End Tables.

Lemma endpoint_loop_tables (requests : list entry) (st st' : stats PrimFloat.float) :
  tables_ok st -> endpoint_loop st requests = Ok st' ->
  tables_ok st' /\
  total_hits (ep_hits st') = total_hits (ep_hits st) + Z.of_nat (length requests).
Proof.
  revert st. induction requests as [|r rs IH]; intros st Hok.
  - intros [= <-]. split; [done|simpl; lia].
  - simpl endpoint_loop.
    intros (ep & Hep & (t & Ht & Hloop)%bind_Ok)%bind_Ok.
    destruct (update_tables st ep t Hok) as [Hok1 Hsum1].
    destruct (IH _ Hok1 Hloop) as [Hok' Hsum'].
    split; [done|]. rewrite Hsum', Hsum1. simpl length. lia.
Qed.

(** X10: when the loop of [main] over the requests ends, the table of hits
    and the table of averages have the same endpoints, every endpoint has a
    positive hit count, and the hit counts add up to the number of
    requests. *)
Theorem hits_add_up_to_the_requests
    (requests : list entry) (st : stats PrimFloat.float) :
  endpoint_loop no_stats requests = Ok st ->
  dom (ep_hits st) = dom (ep_times st) /\
  map_Forall (fun _ h => 1 <= h) (ep_hits st) /\
  total_hits (ep_hits st) = Z.of_nat (length requests).
Proof.
  intros Hloop.
  destruct (endpoint_loop_tables requests no_stats st) as [[Hd Hp] Hs];
    [|done|done].
  split; [done|]. apply map_Forall_empty.
Qed.

Lemma hits_add_up_to_the_requests_witness :
  exists st,
    endpoint_loop no_stats [request "/en_US/shop" 1; request "/web" 5;
                            request "/shop" 3] = Ok st /\
    dom (ep_hits st) = dom (ep_times st) /\
    map_Forall (fun _ h => 1 <= h) (ep_hits st) /\
    total_hits (ep_hits st) = 3.
Proof.
  pose (r := endpoint_loop no_stats [request "/en_US/shop" 1; request "/web" 5;
                                     request "/shop" 3]).
  assert (Hst : r = Ok (get_ok no_stats r))
    by (apply get_ok_spec; vm_compute; reflexivity).
  exists (get_ok no_stats r). split; [exact Hst|].
  exact (hits_add_up_to_the_requests _ _ Hst).
Defined.

(** *** The order of the requests *)

Section Order.
Context {F : Type} `{Arith F}.

Lemma times_of_Permutation (E : string) (s1 s2 : list (string * F)) :
  s1 ≡ₚ s2 -> times_of E s1 ≡ₚ times_of E s2.
Proof. intros Hp. unfold times_of. by rewrite Hp. Qed.

Lemma hits_Permutation (s1 s2 : list (string * F)) :
  s1 ≡ₚ s2 -> ep_hits (aggregate s1) = ep_hits (aggregate s2).
Proof.
  intros Hp. apply map_eq. intros E.
  destruct (aggregate_lookup E s1) as [H1 _].
  destruct (aggregate_lookup E s2) as [H2 _].
  rewrite H1, H2, !online_count.
  pose proof (times_of_Permutation E _ _ Hp) as Ht.
  pose proof (Permutation_length Ht) as Hlen.
  destruct (times_of E s1), (times_of E s2); try done.
  by rewrite Hlen.
Qed.

End Order.

Lemma total_Permutation (ts1 ts2 : list Qc) (a : Qc) :
  ts1 ≡ₚ ts2 -> fold_left add ts1 a = fold_left add ts2 a.
Proof.
  intros Hp. revert a.
  induction Hp as [|t ts1 ts2 _ IH|t1 t2 ts|ts1 ts2 ts3 _ IH1 _ IH2];
    intros a; simpl.
  - done.
  - apply IH.
  - f_equal. ring.
  - by rewrite IH1.
Qed.

(** X11: the hit counts do not depend on the order of the requests, and
    computed without rounding neither do the averages: two lists of
    requests that are permutations of each other give the same tables. In
    binary64 the averages do depend on the order: total times 1.1, 1.2,
    1.4, 1.3 average to 1.2499999999999998, and with the last two swapped
    to 1.25. *)
Theorem statistics_ignore_the_order :
  (forall s1 s2 : list (string * PrimFloat.float),
     s1 ≡ₚ s2 -> ep_hits (aggregate s1) = ep_hits (aggregate s2)) /\
  (forall s1 s2 : list (string * Qc),
     s1 ≡ₚ s2 -> aggregate s1 = aggregate s2) /\
  (exists s1 s2 : list (string * PrimFloat.float),
     s1 ≡ₚ s2 /\
     ep_times (aggregate s1) !! "/shop" = Some 1.2499999999999998%float /\
     ep_times (aggregate s2) !! "/shop" = Some 1.25%float).
Proof.
  split; [apply hits_Permutation|]. split.
  2:{ exists [("/shop", 1.1); ("/shop", 1.2); ("/shop", 1.4); ("/shop", 1.3)]%float,
             [("/shop", 1.1); ("/shop", 1.2); ("/shop", 1.3); ("/shop", 1.4)]%float.
      split; [do 2 apply perm_skip; apply perm_swap|].
      split; vm_compute; reflexivity. }
  intros s1 s2 Hp.
  pose proof (hits_Permutation _ _ Hp) as Hh.
  assert (Ht : ep_times (aggregate s1) = ep_times (aggregate s2)).
  { apply map_eq. intros E.
    destruct (aggregate_lookup E s1) as [_ H1].
    destruct (aggregate_lookup E s2) as [_ H2].
    rewrite H1, H2.
    pose proof (times_of_Permutation E _ _ Hp) as Hperm.
    pose proof (Permutation_length Hperm) as Hlen.
    destruct (times_of E s1) as [|a1 l1] eqn:E1, (times_of E s2) as [|a2 l2] eqn:E2;
      try done.
    rewrite !online_is_batch_mean by done. unfold batch_mean.
    by rewrite (total_Permutation _ _ _ Hperm), Hlen. }
  destruct (aggregate s1), (aggregate s2). simpl in *. by subst.
Qed.

Lemma statistics_ignore_the_order_witness :
  ep_hits (aggregate [("/shop", 1%float); ("/web", 5%float); ("/shop", 3%float)])
  = ep_hits (aggregate [("/web", 5%float); ("/shop", 1%float); ("/shop", 3%float)]) /\
  aggregate [("/shop", 1%Qc); ("/web", Q2Qc 5)]
  = aggregate [("/web", Q2Qc 5); ("/shop", 1%Qc)].
Proof.
  destruct statistics_ignore_the_order as (Hhits & Hexact & _). split.
  - apply Hhits. apply perm_swap.
  - apply Hexact. apply perm_swap.
Defined.

(** *** The statistics after the reader *)

Lemma endpoint_loop_ok (requests : list entry) (st : stats PrimFloat.float) :
  Forall (fun r => exists ep t, r !! "endpoint" = Some (VStr ep) /\
                                r !! "total_time" = Some (VFloat t)) requests ->
  exists st', endpoint_loop st requests = Ok st'.
Proof.
  intros Hrs. revert st.
  induction Hrs as [|r rs (ep & t & Hep & Ht) _ IH]; intros st; simpl; [eauto|].
  unfold endpoint_of, total_time_of. rewrite Hep, Ht. simpl. apply IH.
Qed.

Lemma endpoint_loop_key_error (requests : list entry) (st : stats PrimFloat.float) :
  Forall (fun r => (exists ep t, r !! "endpoint" = Some (VStr ep) /\
                                 r !! "total_time" = Some (VFloat t)) \/
                   r !! "endpoint" = None) requests ->
  Exists (fun r => r !! "endpoint" = None) requests ->
  endpoint_loop st requests = Raise KeyError.
Proof.
  intros Hall Hex. revert st.
  induction Hall as [|r rs Hr _ IH]; intros st; [by apply Exists_nil in Hex|].
  simpl. unfold endpoint_of, total_time_of.
  destruct Hr as [(ep & t & Hep & Ht)|Hno].
  - rewrite Hep, Ht. simpl. apply IH.
    apply Exists_cons in Hex as [Hex|Hex]; [congruence|done].
  - by rewrite Hno.
Qed.

Lemma read_log_cells fs logfile threshold severity ign L k es :
  read_log fs logfile threshold severity ign = Ok L ->
  L !! k = Some es ->
  Forall (fun e =>
    (exists ep t, e !! "endpoint" = Some (VStr ep) /\
                  e !! "total_time" = Some (VFloat t)) \/
    (e !! "endpoint" = None /\ e !! "total_time" = None /\
     exists level, e !! "level" = Some (VStr level) /\
                   severity_or_above severity <= level_get level 0)) es.
Proof.
  intros Hread Hk. revert Hread k es Hk. apply read_log_records.
  - intros line e He Hne.
    apply header_inv in He
      as [->|(level & f5 & db & cl & ts & pid & _ & _ & _ & _ & Hbr & ->)];
      [done|].
    destruct (_ && _).
    + apply request_fields_Some in Hbr
        as (t1 & o & t2 & s & ip & f11 & ep & status & t3 & q & _ & _ & _ & _
            & _ & _ & _ & _ & _ & _ & _ & _ & _ & ->).
      left. by eexists _, _.
    + apply message_fields_Some in Hbr as [Hlt ->].
      right. split; [done|]. split; [done|]. exists level.
      split; [done|]. lia.
  - intros e ctx ctx' He Hc.
    rewrite !(lookup_insert_ne _ "context") by done. exact He.
Qed.

Lemma read_log_request_bucket fs logfile threshold severity ign L es :
  read_log fs logfile threshold severity ign = Ok L ->
  L !! REQUEST_KEY = Some es ->
  Forall (fun e =>
    (exists ep t, e !! "endpoint" = Some (VStr ep) /\
                  e !! "total_time" = Some (VFloat t)) \/
    (e !! "endpoint" = None /\ e !! "total_time" = None /\
     severity_or_above severity <= 0)) es.
Proof.
  intros Hread Hes.
  destruct (read_log_filed _ _ _ _ _ _ _ _ Hread Hes) as [_ Hlevel].
  pose proof (read_log_cells _ _ _ _ _ _ _ _ Hread Hes) as Hall.
  rewrite Forall_forall in Hall, Hlevel.
  apply Forall_forall. intros e He.
  destruct (Hall e He) as [?|(? & ? & level & Hl & Hsev)]; [by left|right].
  specialize (Hlevel e He). simpl in Hlevel.
  assert (level = REQUEST_KEY) as -> by congruence. done.
Qed.

(** X12: the loop of [main] on what [read_log] returns. Read with a
    positive severity, the bucket [REQUEST] holds request records only and
    the loop ends without error. A message record gets into that bucket
    when the level token of its header is the text [REQUEST] and the
    severity is zero or less; the loop then stops with a key error. *)
Theorem statistics_after_read_log
    (fs : gmap string string) (logfile : string) (threshold : option number)
    (severity : option Z) (ignore_no_db : bool) (L : buckets) :
  read_log fs logfile threshold severity ignore_no_db = Ok L ->
  (0 < severity_or_above severity ->
   exists st, endpoint_stats L = Ok st) /\
  (forall es, L !! REQUEST_KEY = Some es -> Exists is_message es ->
     severity_or_above severity <= 0 /\
     endpoint_stats L = Raise KeyError).
Proof.
  intros Hread.
  set (sev := severity_or_above severity).
  pose proof (fun es => read_log_request_bucket _ _ _ _ _ _ es Hread) as Hreq.
  fold sev in Hreq.
  unfold endpoint_stats. split.
  - intros Hpos. destruct (L !! REQUEST_KEY) as [es|] eqn:Hes; simpl; [|eauto].
    apply endpoint_loop_ok. eapply Forall_impl; [exact (Hreq es eq_refl)|].
    simpl. intros e [?|(_ & _ & ?)]; [done|lia].
  - intros es Hes Hmsg. specialize (Hreq es Hes). rewrite Hes. simpl.
    assert (Hex : Exists (fun e => e !! "endpoint" = None /\ sev <= 0) es).
    { apply Exists_exists in Hmsg as (e & He & [m Hm]).
      apply Exists_exists. exists e. split; [done|].
      rewrite Forall_forall in Hreq.
      pose proof (read_log_shaped _ _ _ _ _ _ _ _ Hread Hes) as Hshape.
      rewrite Forall_forall in Hshape.
      destruct (Hreq e He) as [(ep & t & _ & Ht)|(? & _ & ?)]; [|done].
      destruct (Hshape e He)
        as [(? & ? & ? & ? & _ & _ & _ & _ & _ & _ & _ & _ & Hno)
           |(? & ? & ? & _ & _ & _ & Hno)]; congruence. }
    split.
    + apply Exists_exists in Hex as (e & _ & _ & ?). done.
    + apply endpoint_loop_key_error.
      * eapply Forall_impl; [exact Hreq|]. simpl.
        intros e [?|(? & _)]; [by left|by right].
      * eapply Exists_impl; [exact Hex|]. by intros e [? _].
Qed.

Lemma statistics_after_read_log_witness :
  (exists L st,
     read_log (one_file (request_line +:+ request_level_line +:+ debug_line))
              "odoo.log" (Some (NFloat 0.04)) (Some 20) true = Ok L /\
     endpoint_stats L = Ok st) /\
  (exists L es,
     read_log (one_file (request_line +:+ request_level_line +:+ debug_line))
              "odoo.log" (Some (NFloat 0.04)) (Some 0) true = Ok L /\
     L !! REQUEST_KEY = Some es /\
     endpoint_stats L = Raise KeyError).
Proof.
  split.
  - pose (r := read_log (one_file (request_line +:+ request_level_line
                                   +:+ debug_line))
                        "odoo.log" (Some (NFloat 0.04)) (Some 20) true).
    assert (HL : r = Ok (get_ok ∅ r))
      by (apply get_ok_spec; vm_compute; reflexivity).
    destruct (statistics_after_read_log _ _ _ _ _ _ HL) as [Hpos _].
    destruct Hpos as [st Hst]; [vm_compute; reflexivity|].
    exact (ex_intro _ _ (ex_intro _ st (conj HL Hst))).
  - pose (r := read_log (one_file (request_line +:+ request_level_line
                                   +:+ debug_line))
                        "odoo.log" (Some (NFloat 0.04)) (Some 0) true).
    assert (HL : r = Ok (get_ok ∅ r))
      by (apply get_ok_spec; vm_compute; reflexivity).
    assert (Hk : get_ok ∅ r !! REQUEST_KEY
                 = Some (default [] (get_ok ∅ r !! REQUEST_KEY)))
      by (apply lookup_present; vm_compute; reflexivity).
    destruct (statistics_after_read_log _ _ _ _ _ _ HL) as [_ Hmsg].
    destruct (Hmsg _ Hk) as [_ Herr].
    { refine (bool_decide_eq_true_1
                (Exists (fun e : entry => is_Some (e !! "message")) _) _).
      vm_compute. reflexivity. }
    exact (ex_intro _ _ (ex_intro _ _ (conj HL (conj Hk Herr)))).
Defined.

(** ** The order of the floats *)

Lemma SFltb_place (x y : spec_float) :
  x <> S754_nan -> y <> S754_nan ->
  (SFltb x y = true <-> before_place (place x) (place y)) /\
  (SFleb x y = true <-> ~ before_place (place y) (place x)).
Proof.
  intros Hx Hy. unfold SFltb, SFleb, before_place.
  destruct x as [sx|sx| |sx mx ex], y as [sy|sy| |sy my ey]; try done;
    simpl; try destruct sx; try destruct sy; simpl;
    try rewrite Pos.compare_cont_spec; simpl;
    try match goal with
        | |- context [Z.compare ?a ?b] =>
            destruct (Z.compare_spec a b) as [->|Hlt|Hgt]; simpl
        end;
    try match goal with
        | |- context [Pos.compare ?a ?b] =>
            destruct (Pos.compare_spec a b) as [->|Hm|Hm]; simpl
        end;
    split; split; intros H;
    try discriminate; try reflexivity; try lia; exfalso; lia.
Qed.

Lemma is_number_spec (f : PrimFloat.float) :
  is_number f <-> Prim2SF f <> S754_nan.
Proof.
  unfold is_number, is_nan. rewrite FloatAxioms.eqb_spec. unfold SFeqb.
  destruct (Prim2SF f) as [s|s| |s m e]; simpl; try destruct s; simpl;
    try rewrite Pos.compare_cont_spec, Z.compare_refl; simpl;
    try rewrite Pos.compare_refl; simpl; split; done.
Qed.

Lemma ltb_asym (a b : PrimFloat.float) :
  PrimFloat.ltb a b = true -> PrimFloat.ltb b a = false.
Proof.
  rewrite !FloatAxioms.ltb_spec. intros Hab.
  assert (Ha : Prim2SF a <> S754_nan).
  { intros Hn. rewrite Hn in Hab. done. }
  assert (Hb : Prim2SF b <> S754_nan).
  { intros Hn. rewrite Hn in Hab. unfold SFltb in Hab.
    by destruct (Prim2SF a). }
  apply (SFltb_place _ _ Ha Hb) in Hab.
  apply not_true_is_false. intros Hba.
  apply (SFltb_place _ _ Hb Ha) in Hba.
  unfold before_place in *. lia.
Qed.

Lemma ltb_trans (a b c : PrimFloat.float) :
  is_number b ->
  PrimFloat.ltb a b = false -> PrimFloat.ltb b c = false ->
  PrimFloat.ltb a c = false.
Proof.
  rewrite !FloatAxioms.ltb_spec. intros Hb%is_number_spec Hab Hbc.
  apply not_true_is_false. intros Hac.
  assert (Ha : Prim2SF a <> S754_nan).
  { intros Hn. rewrite Hn in Hac. done. }
  assert (Hc : Prim2SF c <> S754_nan).
  { intros Hn. rewrite Hn in Hac. unfold SFltb in Hac.
    by destruct (Prim2SF a). }
  apply (SFltb_place _ _ Ha Hc) in Hac.
  apply not_true_iff_false in Hab, Hbc.
  rewrite (proj1 (SFltb_place _ _ Ha Hb)) in Hab.
  rewrite (proj1 (SFltb_place _ _ Hb Hc)) in Hbc.
  unfold before_place in *. lia.
Qed.

Lemma leb_not_ltb (a b : PrimFloat.float) :
  is_number a -> is_number b ->
  PrimFloat.leb a b = true <-> PrimFloat.ltb b a = false.
Proof.
  intros Ha%is_number_spec Hb%is_number_spec.
  rewrite FloatAxioms.leb_spec, FloatAxioms.ltb_spec, <- not_true_iff_false.
  rewrite (proj2 (SFltb_place _ _ Ha Hb)), (proj1 (SFltb_place _ _ Hb Ha)).
  done.
Qed.

(** ** The sort *)

Section SortedFacts.
Context {A K : Type} (lt : K -> K -> bool) (key : A -> K).

Lemma insert_reverse_Permutation (x : A) (l : list A) :
  insert_reverse lt key x l ≡ₚ x :: l.
Proof.
  induction l as [|y l IH]; simpl; [done|].
  destruct (lt (key x) (key y)); [|done].
  rewrite IH. apply perm_swap.
Qed.

Lemma sorted_reverse_Permutation (l : list A) : sorted_reverse lt key l ≡ₚ l.
Proof.
  induction l as [|x l IH]; simpl; [done|].
  by rewrite insert_reverse_Permutation, IH.
Qed.

Variable ok : K -> Prop.
Hypothesis lt_asym :
  forall a b, ok a -> ok b -> lt a b = true -> lt b a = false.
Hypothesis lt_trans :
  forall a b c, ok a -> ok b -> ok c ->
    lt a b = false -> lt b c = false -> lt a c = false.

Lemma insert_reverse_descending (x : A) (l : list A) :
  ok (key x) -> Forall (fun a => ok (key a)) l ->
  descending lt key l -> descending lt key (insert_reverse lt key x l).
Proof.
  unfold descending. intros Hx Hok Hl. revert Hok.
  induction Hl as [|y l Hl IH Hy]; intros Hok; simpl.
  - repeat constructor.
  - apply Forall_cons in Hok as [Hoky Hok].
    destruct (lt (key x) (key y)) eqn:Hxy.
    + constructor; [by apply IH|].
      rewrite Forall_forall. intros z Hz.
      rewrite insert_reverse_Permutation in Hz.
      apply elem_of_cons in Hz as [->|Hz]; [by apply lt_asym|].
      rewrite Forall_forall in Hy. by apply Hy.
    + constructor; [by constructor|].
      constructor; [done|].
      rewrite Forall_forall in Hy, Hok. apply Forall_forall. intros z Hz.
      apply (lt_trans _ (key y)); auto.
Qed.

Lemma sorted_reverse_descending (l : list A) :
  Forall (fun a => ok (key a)) l ->
  descending lt key (sorted_reverse lt key l).
Proof.
  induction l as [|x l IH]; intros Hok; simpl; [constructor|].
  apply Forall_cons in Hok as [Hx Hok].
  apply insert_reverse_descending; [done| |by apply IH].
  by rewrite sorted_reverse_Permutation.
Qed.

Lemma descending_firstn (n : nat) (l : list A) (a b : A) :
  descending lt key l -> a ∈ firstn n l -> b ∈ skipn n l ->
  lt (key a) (key b) = false.
Proof.
  unfold descending. intros Hl. revert n.
  induction Hl as [|y l Hl IH Hy]; intros n Ha Hb.
  - destruct n; simpl in *; by apply elem_of_nil in Ha.
  - destruct n as [|n]; simpl in *; [by apply elem_of_nil in Ha|].
    apply elem_of_cons in Ha as [->|Ha]; [|by eapply IH].
    rewrite Forall_forall in Hy. apply Hy.
    apply list_elem_of_lookup in Hb as [i Hi].
    rewrite lookup_drop in Hi. by eapply list_elem_of_lookup_2.
Qed.

Lemma descending_lookup (l : list A) (i j : nat) (a b : A) :
  descending lt key l -> (i < j)%nat -> l !! i = Some a -> l !! j = Some b ->
  lt (key a) (key b) = false.
Proof.
  unfold descending. intros Hl. revert i j.
  induction Hl as [|y l Hl IH Hy]; intros i j Hij Ha Hb; [done|].
  destruct j as [|j]; [lia|]. simpl in Hb.
  destruct i as [|i]; simpl in Ha.
  - injection Ha as ->. rewrite Forall_forall in Hy. apply Hy.
    by eapply list_elem_of_lookup_2.
  - apply (IH i j); [lia|done|done].
Qed.

Lemma descending_take (n : nat) (l : list A) :
  descending lt key l -> descending lt key (firstn n l).
Proof.
  unfold descending. intros Hl. revert n.
  induction Hl as [|y l Hl IH Hy]; intros [|n]; simpl; try constructor.
  - apply IH.
  - rewrite Forall_forall in Hy. apply Forall_forall. intros z Hz.
    apply Hy. apply list_elem_of_lookup in Hz as [i Hi].
    apply lookup_take_Some in Hi as [Hi _]. by eapply list_elem_of_lookup_2.
Qed.

End SortedFacts.

(** Items of equal key keep their order: the sort is stable. *)
Lemma sorted_reverse_stable {A} (key : A -> Z) (k : Z) (l : list A) :
  filter (fun a => key a = k) (sorted_reverse Z.ltb key l)
  = filter (fun a => key a = k) l.
Proof.
  induction l as [|x l IH]; simpl; [done|].
  rewrite filter_cons, <- IH. clear IH.
  induction (sorted_reverse Z.ltb key l) as [|y r IHr]; simpl.
  - by rewrite filter_cons.
  - destruct (Z.ltb_spec (key x) (key y)) as [Hlt|Hge].
    + rewrite !(filter_cons _ y), IHr.
      case_decide as Hx; case_decide as Hy; try done. lia.
    + by rewrite !(filter_cons _ x).
Qed.

(** ** The keys of the tables in the order of their insertion *)

Lemma first_seen_elem (l : list string) (x : string) :
  x ∈ first_seen l <-> x ∈ l.
Proof.
  induction l as [|y l IH]; simpl; [done|].
  rewrite !elem_of_cons, <- IH. split.
  - intros [->|Hx]; [by left|]. right.
    apply list_elem_of_In, filter_In in Hx as [Hx _]. by apply list_elem_of_In.
  - intros [->|Hx]; [by left|].
    destruct (decide (x = y)) as [->|Hne]; [by left|right].
    apply list_elem_of_In, filter_In. split; [by apply list_elem_of_In|].
    apply negb_true_iff, String.eqb_neq. congruence.
Qed.

Lemma first_seen_NoDup (l : list string) : NoDup (first_seen l).
Proof.
  induction l as [|y l IH]; simpl; constructor.
  - intros Hy. apply list_elem_of_In, filter_In in Hy as [_ Hy].
    by rewrite String.eqb_refl in Hy.
  - clear -IH. induction IH as [|z r Hz _ IHr]; simpl; [constructor|].
    destruct (negb (y =? z)%string); [|done].
    constructor; [|done]. intros Hin. apply Hz.
    apply list_elem_of_In, filter_In in Hin as [Hin _]. by apply list_elem_of_In.
Qed.

Lemma endpoint_loop_keys (requests : list entry) (st st' : stats PrimFloat.float) :
  endpoint_loop st requests = Ok st' ->
  forall k, is_Some (ep_hits st' !! k) <->
            is_Some (ep_hits st !! k) \/
            k ∈ omap (fun line => match endpoint_of line with
                                  | Ok ep => Some (sub_locale ep)
                                  | Raise _ => None
                                  end) requests.
Proof.
  revert st. induction requests as [|r rs IH]; intros st.
  - intros [= <-] k. simpl. rewrite elem_of_nil. tauto.
  - simpl endpoint_loop.
    intros (ep & Hep & (t & Ht & Hloop)%bind_Ok)%bind_Ok k.
    rewrite (IH _ Hloop k). simpl. rewrite Hep. simpl.
    rewrite elem_of_cons. unfold update. simpl.
    destruct (decide (k = sub_locale ep)) as [->|Hne].
    + rewrite lookup_insert_eq. split; [intros _; right; by left|].
      intros _. left. by eexists.
    + rewrite lookup_insert_ne by done. tauto.
Qed.

Lemma keys_in_order_spec (requests : list entry) (st : stats PrimFloat.float) :
  endpoint_loop no_stats requests = Ok st ->
  NoDup (keys_in_order requests) /\
  forall k, k ∈ keys_in_order requests <-> is_Some (ep_hits st !! k).
Proof.
  intros Hloop. split; [apply first_seen_NoDup|]. intros k.
  unfold keys_in_order. rewrite first_seen_elem.
  rewrite (endpoint_loop_keys _ _ _ Hloop k). simpl.
  rewrite lookup_empty. split; [by right|].
  intros [[? [=]]|?]; done.
Qed.

Section Items.
Context {V : Type}.

Lemma items_elem (keys : list string) (d : gmap string V) (k : string) (v : V) :
  (k, v) ∈ items keys d <-> k ∈ keys /\ d !! k = Some v.
Proof.
  unfold items. rewrite list_elem_of_omap. split.
  - intros (j & Hj & Hv). destruct (d !! j) as [w|] eqn:Hd; [|done].
    simpl in Hv. injection Hv as <- <-. done.
  - intros [Hk Hv]. exists k. by rewrite Hv.
Qed.

Lemma items_keys (keys : list string) (d : gmap string V) :
  (forall k, k ∈ keys -> is_Some (d !! k)) ->
  (items keys d).*1 = keys.
Proof.
  unfold items. induction keys as [|k keys IH]; intros Hall; simpl; [done|].
  destruct (Hall k) as [v Hv]; [by left|]. rewrite Hv. simpl. f_equal.
  apply IH. intros j Hj. apply Hall. by right.
Qed.

Lemma items_Permutation (keys : list string) (d : gmap string V) :
  NoDup keys -> (forall k, k ∈ keys <-> is_Some (d !! k)) ->
  items keys d ≡ₚ map_to_list d.
Proof.
  intros Hnd Hkeys. apply NoDup_Permutation.
  - apply (NoDup_fmap_1 fst). rewrite items_keys; [done|].
    intros k Hk. by apply Hkeys.
  - apply NoDup_map_to_list.
  - intros [k v]. rewrite items_elem, elem_of_map_to_list.
    split; [by intros [_ ?]|]. intros Hv. split; [|done].
    apply Hkeys. by eexists.
Qed.

End Items.

(** ** The tables of the endpoints *)

Lemma elem_of_firstn {A} (n : nat) (l : list A) (x : A) :
  x ∈ firstn n l -> x ∈ l.
Proof. intros (i & Hi & _)%elem_of_take. by eapply list_elem_of_lookup_2. Qed.

Section Top.
Context {V : Type} (lt : V -> V -> bool) (ok : V -> Prop).
Hypothesis lt_asym :
  forall a b, ok a -> ok b -> lt a b = true -> lt b a = false.
Hypothesis lt_trans :
  forall a b c, ok a -> ok b -> ok c ->
    lt a b = false -> lt b c = false -> lt a c = false.

(** The first ten items of a dict by decreasing value. *)
Lemma top_rows (keys : list string) (d : gmap string V) :
  NoDup keys -> (forall k, k ∈ keys <-> is_Some (d !! k)) ->
  map_Forall (fun _ v => ok v) d ->
  let rows := firstn 10 (sorted_reverse lt snd (items keys d)) in
  length rows = Nat.min 10 (size d) /\
  NoDup rows.*1 /\
  (forall k v, (k, v) ∈ rows -> d !! k = Some v) /\
  (forall i j r1 r2, (i < j)%nat -> rows !! i = Some r1 ->
     rows !! j = Some r2 -> lt r1.2 r2.2 = false) /\
  (forall k v r, d !! k = Some v -> k ∉ rows.*1 -> r ∈ rows ->
     lt r.2 v = false).
Proof.
  intros Hnd Hkeys Hok.
  set (its := items keys d).
  set (sorted := sorted_reverse lt snd its).
  assert (Hperm : sorted ≡ₚ its) by apply sorted_reverse_Permutation.
  assert (Hits : its ≡ₚ map_to_list d) by by apply items_Permutation.
  assert (Hdesc : descending lt snd sorted).
  { apply (sorted_reverse_descending _ _ ok lt_asym lt_trans).
    apply Forall_forall. intros [k v] Hkv. apply items_elem in Hkv as [_ Hv].
    apply (Hok _ _ Hv). }
  simpl. split; [|split; [|split; [|split]]].
  - by rewrite length_take, Hperm, Hits, length_map_to_list.
  - rewrite fmap_take. eapply sublist_NoDup; [|apply sublist_take].
    rewrite Hperm. unfold its. rewrite items_keys; [done|].
    intros k Hk. by apply Hkeys.
  - intros k v Hin. apply elem_of_firstn in Hin. rewrite Hperm in Hin.
    by apply items_elem in Hin as [_ ?].
  - intros i j r1 r2 Hij H1 H2.
    apply (descending_lookup lt snd _ i j r1 r2
             (descending_take lt snd 10 _ Hdesc) Hij H1 H2).
  - intros k v r Hv Hout Hr.
    assert (Hin : (k, v) ∈ sorted).
    { rewrite Hperm. apply items_elem. split; [|done]. apply Hkeys. by eexists. }
    rewrite <- (take_drop 10 sorted) in Hin.
    apply elem_of_app in Hin as [Hin|Hin].
    + exfalso. apply Hout. apply list_elem_of_fmap. by exists (k, v).
    + apply (descending_firstn lt snd 10 _ r (k, v) Hdesc Hr Hin).
Qed.

End Top.

(** X13: the rows of the table of the most hit endpoints. There are ten of
    them, or as many as there are endpoints if these are fewer, each with
    the hit count of another endpoint; they come by decreasing hit count,
    and no endpoint left out has more hits than one that is listed. *)
Theorem most_hit_rows_are_the_top
    (requests : list entry) (st : stats PrimFloat.float) :
  endpoint_loop no_stats requests = Ok st ->
  let rows := most_hit (keys_in_order requests) (ep_hits st) in
  length rows = Nat.min 10 (size (ep_hits st)) /\
  NoDup rows.*1 /\
  (forall ep h, (ep, h) ∈ rows -> ep_hits st !! ep = Some h) /\
  (forall i j r1 r2, (i < j)%nat -> rows !! i = Some r1 ->
     rows !! j = Some r2 -> r2.2 <= r1.2) /\
  (forall ep h r, ep_hits st !! ep = Some h -> ep ∉ rows.*1 ->
     r ∈ rows -> h <= r.2).
Proof.
  intros Hloop. destruct (keys_in_order_spec _ _ Hloop) as [Hnd Hkeys].
  destruct (top_rows Z.ltb (fun _ => True)) with (keys := keys_in_order requests)
                                                (d := ep_hits st)
    as (Hlen & Hdup & Hin & Hord & Htop); try done.
  - intros; lia.
  - intros; lia.
  - simpl. unfold most_hit. split; [done|]. split; [done|]. split; [done|].
    split.
    + intros i j r1 r2 Hij H1 H2. specialize (Hord i j r1 r2 Hij H1 H2). lia.
    + intros ep h r Hh Hout Hr. specialize (Htop ep h r Hh Hout Hr). lia.
Qed.

Lemma most_hit_rows_are_the_top_witness :
  exists st,
    endpoint_loop no_stats [request "/a" 1; request "/b" 2; request "/en_US/b" 3]
      = Ok st /\
    let rows := most_hit (keys_in_order [request "/a" 1; request "/b" 2;
                                         request "/en_US/b" 3]) (ep_hits st) in
    length rows = Nat.min 10 (size (ep_hits st)) /\
    NoDup rows.*1 /\
    (forall ep h, (ep, h) ∈ rows -> ep_hits st !! ep = Some h) /\
    (forall i j r1 r2, (i < j)%nat -> rows !! i = Some r1 ->
       rows !! j = Some r2 -> r2.2 <= r1.2) /\
    (forall ep h r, ep_hits st !! ep = Some h -> ep ∉ rows.*1 ->
       r ∈ rows -> h <= r.2).
Proof.
  pose (r := endpoint_loop no_stats [request "/a" 1; request "/b" 2;
                                     request "/en_US/b" 3]).
  assert (Hst : r = Ok (get_ok no_stats r))
    by (apply get_ok_spec; vm_compute; reflexivity).
  exists (get_ok no_stats r). split; [exact Hst|].
  exact (most_hit_rows_are_the_top _ _ Hst).
Defined.

(** X14: the rows of the table of the slowest endpoints, when every
    average is a number: ten of them, or as many as there are endpoints,
    each with the average of another endpoint, by decreasing average, no
    endpoint left out being slower than one that is listed; the table shows
    each average with one decimal. *)
Theorem slowest_rows_are_the_top
    (requests : list entry) (st : stats PrimFloat.float) :
  endpoint_loop no_stats requests = Ok st ->
  map_Forall (fun _ t => is_number t) (ep_times st) ->
  let rows := slowest (keys_in_order requests) (ep_times st) in
  length rows = Nat.min 10 (size (ep_times st)) /\
  NoDup rows.*1 /\
  (forall ep t, (ep, t) ∈ rows -> ep_times st !! ep = Some t) /\
  (forall i j r1 r2, (i < j)%nat -> rows !! i = Some r1 ->
     rows !! j = Some r2 -> PrimFloat.leb r2.2 r1.2 = true) /\
  (forall ep t r, ep_times st !! ep = Some t -> ep ∉ rows.*1 ->
     r ∈ rows -> PrimFloat.leb t r.2 = true) /\
  slowest_endpoints (keys_in_order requests) st
  = (fun r => <["time" := VStr (format_1f r.2)]>
              (<["endpoint" := VStr r.1]> ∅)) <$> rows.
Proof.
  intros Hloop Hnum. destruct (keys_in_order_spec _ _ Hloop) as [Hnd Hkeys].
  destruct (endpoint_loop_tables requests no_stats st) as [[Hdom _] _];
    [split; [done|apply map_Forall_empty]|done|].
  assert (Hkeys_t : forall k, k ∈ keys_in_order requests
                              <-> is_Some (ep_times st !! k)).
  { intros k. rewrite Hkeys, <- !elem_of_dom. by rewrite Hdom. }
  destruct (top_rows PrimFloat.ltb is_number)
    with (keys := keys_in_order requests) (d := ep_times st)
    as (Hlen & Hdup & Hin & Hord & Htop); try done.
  - intros a b _ _. apply ltb_asym.
  - intros a b c _ Hb _. by apply ltb_trans.
  - simpl. unfold slowest. split; [done|]. split; [done|]. split; [done|].
    assert (Hrow : forall r, r ∈ firstn 10 (sorted_reverse PrimFloat.ltb snd
                       (items (keys_in_order requests) (ep_times st))) ->
                     is_number r.2).
    { intros [k v] Hr. apply Hin in Hr. apply (Hnum _ _ Hr). }
    split; [|split].
    + intros i j r1 r2 Hij H1 H2. apply leb_not_ltb.
      * eapply Hrow, list_elem_of_lookup_2, H2.
      * eapply Hrow, list_elem_of_lookup_2, H1.
      * by apply (Hord i j).
    + intros ep t r Ht Hout Hr. apply leb_not_ltb.
      * apply (Hnum _ _ Ht).
      * by apply Hrow.
      * by apply (Htop ep).
    + unfold slowest_endpoints, slowest. apply list_fmap_ext.
      by intros i [ep t] _.
Qed.

Lemma slowest_rows_are_the_top_witness :
  exists st,
    endpoint_loop no_stats [request "/a" 1; request "/b" 2; request "/en_US/b" 4]
      = Ok st /\
    let rows := slowest (keys_in_order [request "/a" 1; request "/b" 2;
                                        request "/en_US/b" 4]) (ep_times st) in
    length rows = Nat.min 10 (size (ep_times st)) /\
    NoDup rows.*1.
Proof.
  pose (r := endpoint_loop no_stats [request "/a" 1; request "/b" 2;
                                     request "/en_US/b" 4]).
  assert (Hst : r = Ok (get_ok no_stats r))
    by (apply get_ok_spec; vm_compute; reflexivity).
  exists (get_ok no_stats r). split; [exact Hst|].
  destruct (slowest_rows_are_the_top _ _ Hst) as (Hlen & Hnd & _).
  - refine (bool_decide_eq_true_1
              (map_Forall (fun _ t => is_nan t = false)
                          (ep_times (get_ok no_stats r))) _).
    vm_compute. reflexivity.
  - exact (conj Hlen Hnd).
Defined.

(** *** Endpoints with the same number of hits *)

Lemma filter_keeps_order {A} (P : A -> Prop) `{!forall x, Decision (P x)}
    (l : list A) (i j : nat) (x y : A) :
  (i < j)%nat -> l !! i = Some x -> l !! j = Some y -> P x -> P y ->
  exists i' j', (i' < j')%nat /\
    filter P l !! i' = Some x /\ filter P l !! j' = Some y.
Proof.
  revert i j. induction l as [|a l IH]; intros i j Hij Hx Hy Px Py; [done|].
  destruct j as [|j]; [lia|]. simpl in Hy.
  destruct i as [|i]; simpl in Hx.
  - injection Hx as ->. rewrite filter_cons_True by done.
    assert (Hin : y ∈ filter P l).
    { apply list_elem_of_filter. split; [done|].
      by eapply list_elem_of_lookup_2. }
    apply list_elem_of_lookup in Hin as [j' Hj'].
    exists 0%nat, (S j'). split; [lia|]. by split.
  - destruct (IH i j) as (i' & j' & Hlt & Hi' & Hj'); [lia|done|done|done|done|].
    rewrite filter_cons. case_decide.
    + exists (S i'), (S j'). split; [lia|]. by split.
    + by exists i', j'.
Qed.

(** X15: among the listed endpoints with the same number of hits, the one
    that was requested first comes first. *)
Theorem equal_hits_keep_the_order_of_the_requests
    (requests : list entry) (st : stats PrimFloat.float)
    (i j : nat) (ep1 ep2 : string) (h : Z) :
  endpoint_loop no_stats requests = Ok st ->
  let rows := most_hit (keys_in_order requests) (ep_hits st) in
  (i < j)%nat -> rows !! i = Some (ep1, h) -> rows !! j = Some (ep2, h) ->
  exists a b, (a < b)%nat /\
    keys_in_order requests !! a = Some ep1 /\
    keys_in_order requests !! b = Some ep2.
Proof.
  intros Hloop. destruct (keys_in_order_spec _ _ Hloop) as [Hnd Hkeys].
  simpl. unfold most_hit.
  set (keys := keys_in_order requests) in *.
  set (its := items keys (ep_hits st)).
  set (sorted := sorted_reverse Z.ltb snd its).
  intros Hij H1 H2.
  apply lookup_take_Some in H1 as [H1 _]. apply lookup_take_Some in H2 as [H2 _].
  assert (Hfst : its.*1 = keys).
  { apply items_keys. intros k Hk. by apply Hkeys. }
  assert (Hnd_its : NoDup its).
  { apply (NoDup_fmap_1 fst). by rewrite Hfst. }
  assert (Hperm : sorted ≡ₚ its) by apply sorted_reverse_Permutation.
  assert (Hnd_sorted : NoDup sorted) by by rewrite Hperm.
  assert (Hstable : filter (fun r : string * Z => r.2 = h) sorted
                    = filter (fun r : string * Z => r.2 = h) its)
    by apply sorted_reverse_stable.
  assert (Hin1 : (ep1, h) ∈ its).
  { rewrite <- Hperm. by eapply list_elem_of_lookup_2. }
  assert (Hin2 : (ep2, h) ∈ its).
  { rewrite <- Hperm. by eapply list_elem_of_lookup_2. }
  apply list_elem_of_lookup in Hin1 as [a Ha].
  apply list_elem_of_lookup in Hin2 as [b Hb].
  assert (Hka : keys !! a = Some ep1).
  { rewrite <- Hfst, list_lookup_fmap, Ha. done. }
  assert (Hkb : keys !! b = Some ep2).
  { rewrite <- Hfst, list_lookup_fmap, Hb. done. }
  destruct (Nat.lt_trichotomy a b) as [Hab|[Hab|Hab]].
  - by exists a, b.
  - subst b. assert ((ep1, h) = (ep2, h)) as Heq by congruence.
    rewrite <- Heq in H2.
    pose proof (NoDup_lookup _ _ _ _ Hnd_sorted H1 H2). lia.
  - exfalso.
    destruct (filter_keeps_order (fun r : string * Z => r.2 = h) sorted
                i j (ep1, h) (ep2, h)) as (i1 & j1 & Hlt1 & Hi1 & Hj1);
      try done.
    destruct (filter_keeps_order (fun r : string * Z => r.2 = h) its
                b a (ep2, h) (ep1, h)) as (i2 & j2 & Hlt2 & Hi2 & Hj2);
      try done.
    rewrite <- Hstable in Hi2, Hj2.
    assert (Hnd_f : NoDup (filter (fun r : string * Z => r.2 = h) sorted))
      by by apply NoDup_filter.
    pose proof (NoDup_lookup _ _ _ _ Hnd_f Hi1 Hj2).
    pose proof (NoDup_lookup _ _ _ _ Hnd_f Hj1 Hi2).
    lia.
Qed.

Lemma equal_hits_keep_the_order_of_the_requests_witness :
  exists a b, (a < b)%nat /\
    keys_in_order [request "/b" 1; request "/a" 2; request "/c" 2;
                   request "/c" 3; request "/a" 1] !! a = Some "/a" /\
    keys_in_order [request "/b" 1; request "/a" 2; request "/c" 2;
                   request "/c" 3; request "/a" 1] !! b = Some "/c".
Proof.
  pose (rs := [request "/b" 1; request "/a" 2; request "/c" 2;
               request "/c" 3; request "/a" 1]).
  pose (r := endpoint_loop no_stats rs).
  assert (Hst : r = Ok (get_ok no_stats r))
    by (apply get_ok_spec; vm_compute; reflexivity).
  apply (equal_hits_keep_the_order_of_the_requests rs (get_ok no_stats r)
           0 1 "/a" "/c" 2 Hst).
  - lia.
  - vm_compute. reflexivity.
  - vm_compute. reflexivity.
Defined.

(** ** The text of values *)

(** The texts of some values, as the interpreter prints them. *)
Lemma text_samples :
  repr_float 0.05 = "0.05" /\ repr_float 70.75 = "70.75" /\
  repr_float 65 = "65.0" /\ repr_float 1.2499999999999998 = "1.2499999999999998" /\
  repr_float 0.0001 = "0.0001" /\ repr_float 0.00001 = "1e-05" /\
  repr_float (-2.5) = "-2.5" /\
  repr_float infinity = "inf" /\ repr_float nan = "nan" /\
  format_1f 0.25 = "0.2" /\ format_1f 0.35 = "0.3" /\
  format_1f 67.875 = "67.9" /\ format_1f 0.05 = "0.1" /\
  str_int (-12) = Ok "-12" /\
  center "a" 4 = " a  " /\ ljust "ab" 5 = "ab   " /\
  str_datetime (mk_datetime 24 1 2 3 4 5) = "0024-01-02 03:04:05" /\
  str_list ["a'b"; "x"] = "[" +:+ quote +:+ "a'b" +:+ quote +:+ ", 'x']" /\
  format_left (VTime (mk_datetime 2024 1 2 3 4 5)) 12 = Ok "<12" /\
  format_left (VList []) 12 = Raise TypeError.
Proof. vm_compute. repeat split. Qed.

(** ** The tables *)

Lemma length_append (s t : string) :
  String.length (s +:+ t) = (String.length s + String.length t)%nat.
Proof. induction s as [|c s IH]; simpl; [done|by rewrite IH]. Qed.

Lemma length_times (c : ascii) (n : nat) : String.length (times c n) = n.
Proof. induction n as [|n IH]; simpl; [done|by rewrite IH]. Qed.

Lemma length_ljust (s : string) (w : nat) :
  String.length (ljust s w) = Nat.max (String.length s) w.
Proof. unfold ljust. rewrite length_append, length_times. lia. Qed.

Lemma length_center (s : string) (w : nat) :
  String.length (center s w) = Nat.max (String.length s) w.
Proof.
  unfold center. rewrite !length_append, !length_times.
  assert ((w - String.length s) / 2 <= w - String.length s)%nat
    by (apply Nat.Div0.div_le_upper_bound; lia).
  lia.
Qed.

Lemma and_then_inv {A B} (c : printing A) (k : A -> printing B) out (r : result B) :
  and_then c k = (out, r) ->
  (exists o1 a o2, c = (o1, Ok a) /\ k a = (o2, r) /\ out = (o1 ++ o2)%list) \/
  (exists e, c = (out, Raise e) /\ r = Raise e).
Proof.
  destruct c as [o1 [a|e]]; simpl.
  - destruct (k a) as [o2 r'] eqn:Hk. intros [= <- <-]. left. by eexists _, _, _.
  - intros [= <- <-]. right. by eexists.
Qed.

Lemma widths_spec (field : string) (lines : list entry) (ws : list nat) :
  widths field lines = Ok ws ->
  Forall2 (fun line w => exists v s, line !! field = Some v /\
                                     str_value v = Ok s /\ String.length s = w)
          lines ws.
Proof.
  revert ws. induction lines as [|line rest IH]; intros ws; simpl.
  - intros [= <-]. constructor.
  - intros (v & Hv & (s & Hs & (ws' & Hws & [= <-])%bind_Ok)%bind_Ok)%bind_Ok.
    constructor; [|by apply IH].
    destruct (line !! field) as [v'|]; [|done]. injection Hv as ->.
    by exists v, s.
Qed.

Lemma fold_max_ge (ws : list nat) (w0 : nat) :
  (w0 <= fold_left Nat.max ws w0)%nat /\
  Forall (fun w => (w <= fold_left Nat.max ws w0)%nat) ws.
Proof.
  revert w0. induction ws as [|w ws IH]; intros w0; simpl; [by split|].
  destruct (IH (Nat.max w0 w)) as [H0 Hall]. split; [lia|].
  constructor; [lia|done].
Qed.

Lemma max_len_of_spec (field : string) (lines : list entry) (n : nat) :
  max_len_of field lines = Ok n ->
  lines <> [] /\
  Forall (fun line => exists v s, line !! field = Some v /\
                                  str_value v = Ok s /\
                                  (String.length s <= n)%nat) lines.
Proof.
  unfold max_len_of. intros (ws & Hws & Hmax)%bind_Ok.
  apply widths_spec in Hws.
  destruct ws as [|w ws]; [done|]. injection Hmax as <-.
  split; [intros ->; inversion Hws|].
  destruct (fold_max_ge ws w) as [H0 Hall].
  assert (Hle : Forall (fun x => (x <= fold_left Nat.max ws w)%nat) (w :: ws))
    by by constructor.
  clear H0 Hall. revert Hle.
  induction Hws as [|line x rest xs (v & s & Hv & Hs & <-) _ IH];
    intros Hle; [constructor|].
  apply Forall_cons in Hle as [Hx Hxs].
  constructor; [by exists v, s|by apply IH].
Qed.

Lemma format_left_padded (v : value) (s : string) (w : nat) :
  padded_cell v -> str_value v = Ok s -> format_left v w = Ok (ljust s w).
Proof.
  destruct v as [t|n|f|l|t]; simpl; try done.
  - by intros _ [= ->].
  - by intros _ ->.
  - by intros _ [= ->].
Qed.

Lemma row_length (line : entry) (field value : string) (wf wv : nat) :
  padded_row field value line ->
  (exists v s, line !! field = Some v /\ str_value v = Ok s /\
               (String.length s <= wf)%nat) ->
  (exists v s, line !! value = Some v /\ str_value v = Ok s /\
               (String.length s <= wv)%nat) ->
  exists text, row line field value wf wv = Ok text /\
               String.length text = (wf + wv + 7)%nat.
Proof.
  intros Hpad (f & a & Hf & Ha & Hla) (v & b & Hv & Hb & Hlb).
  unfold row. rewrite Hf, Hv. simpl.
  rewrite (format_left_padded f a wf), (format_left_padded v b wv);
    [|by apply Hpad; auto|done|by apply Hpad; auto|done].
  simpl. eexists. split; [done|].
  rewrite !length_append, !length_ljust. simpl. lia.
Qed.

Lemma print_rows_length (lines : list entry) (field value : string) (wf wv : nat) :
  Forall (padded_row field value) lines ->
  Forall (fun line => exists v s, line !! field = Some v /\ str_value v = Ok s /\
                                  (String.length s <= wf)%nat) lines ->
  Forall (fun line => exists v s, line !! value = Some v /\ str_value v = Ok s /\
                                  (String.length s <= wv)%nat) lines ->
  exists rows, print_rows lines field value wf wv = (rows, Ok tt) /\
               length rows = length lines /\
               Forall (fun r => String.length r = (wf + wv + 7)%nat) rows.
Proof.
  induction lines as [|line rest IH]; intros Hp Hf Hv; simpl.
  - exists []. by repeat split.
  - apply Forall_cons in Hp as [Hp Hps]. apply Forall_cons in Hf as [Hf Hfs].
    apply Forall_cons in Hv as [Hv Hvs].
    destruct (row_length line field value wf wv Hp Hf Hv) as (text & -> & Hlen).
    destruct (IH Hps Hfs Hvs) as (rows & -> & Hn & Hall).
    simpl. exists (text :: rows). split; [done|]. split; [simpl; lia|].
    by constructor.
Qed.

(** X16: the table that [_print_table] prints for rows of texts and
    numbers is a rectangle. It has one line for each row, between a rule of
    [=], the title and a rule of [-] above and a rule of [-] and an empty
    line below; the rules and the rows all have the same width, which is at
    least 7; the line of the title has this width when the title fits, and
    is two characters longer than the title when it does not. *)
Theorem table_is_a_rectangle
    (title : string) (lines : list entry) (field value : string) :
  is_ok (max_len_of field lines) = true ->
  is_ok (max_len_of value lines) = true ->
  Forall (padded_row field value) lines ->
  exists (w : nat) (rows : list string),
    _print_table title lines field value =
      ([times "=" w; "|" +:+ center title (w - 2) +:+ "|"; times "-" w]
       ++ rows ++ [times "-" w; ""], Ok tt)%list /\
    length rows = length lines /\
    lines <> [] /\
    (7 <= w)%nat /\
    String.length (times "=" w) = w /\
    String.length (times "-" w) = w /\
    Forall (fun r => String.length r = w) rows /\
    String.length ("|" +:+ center title (w - 2) +:+ "|")
      = Nat.max w (String.length title + 2).
Proof.
  intros Hf Hv Hpad.
  apply (get_ok_spec 0%nat) in Hf, Hv.
  set (wf := get_ok 0%nat (max_len_of field lines)) in *.
  set (wv := get_ok 0%nat (max_len_of value lines)) in *.
  destruct (max_len_of_spec _ _ _ Hf) as [Hne Hfs].
  destruct (max_len_of_spec _ _ _ Hv) as [_ Hvs].
  destruct (print_rows_length lines field value wf wv Hpad Hfs Hvs)
    as (rows & Hrows & Hn & Hall).
  exists (wf + wv + 7)%nat, rows.
  split; [|split; [done|split; [done|split; [lia|]]]].
  - unfold _print_table. rewrite Hf, Hv. simpl. rewrite Hrows. simpl. done.
  - rewrite !length_times. split; [done|]. split; [done|]. split; [done|].
    rewrite !length_append, length_center. simpl. lia.
Qed.

Lemma table_is_a_rectangle_witness :
  exists (w : nat) (rows : list string),
    _print_table "Top 10 Slow requests"
                 [request "/shop" 1.5; request "/" 0.25]
                 "endpoint" "total_time" =
      ([times "=" w;
        "|" +:+ center "Top 10 Slow requests" (w - 2) +:+ "|";
        times "-" w] ++ rows ++ [times "-" w; ""], Ok tt)%list /\
    length rows = 2%nat /\
    Forall (fun r => String.length r = w) rows.
Proof.
  destruct (table_is_a_rectangle "Top 10 Slow requests"
              [request "/shop" 1.5; request "/" 0.25] "endpoint" "total_time")
    as (w & rows & Hout & Hlen & _ & _ & _ & _ & Hrows & _).
  - vm_compute. reflexivity.
  - vm_compute. reflexivity.
  - repeat constructor; intros v [Hv|Hv]; vm_compute in Hv;
      injection Hv as <-; exact I.
  - exact (ex_intro _ w (ex_intro _ rows (conj Hout (conj Hlen Hrows)))).
Defined.

(** ** The table of the slowest requests *)

Lemma keyed_floats (requests : list entry) :
  Forall (fun line => exists t, line !! "total_time" = Some (VFloat t))
         requests ->
  keyed "total_time" requests
  = Ok ((fun line => (NFloat (time_of line), line)) <$> requests).
Proof.
  induction 1 as [|line rest (t & Ht) _ IH]; simpl; [done|].
  unfold sort_key, time_of. rewrite Ht. simpl. by rewrite IH.
Qed.

Lemma slowest_requests_rows (requests : list entry) :
  Forall (fun line => exists t, line !! "total_time" = Some (VFloat t))
         requests ->
  exists rows,
    slowest_requests requests = Ok rows /\
    length rows = Nat.min 10 (length requests) /\
    forall r, r ∈ rows -> r ∈ requests.
Proof.
  intros Hfl. unfold slowest_requests. rewrite (keyed_floats _ Hfl). simpl.
  eexists. split; [done|]. split.
  - rewrite length_take, length_fmap.
    rewrite (Permutation_length (sorted_reverse_Permutation _ _ _)).
    by rewrite length_fmap.
  - intros r Hr. apply elem_of_firstn in Hr.
    apply list_elem_of_fmap in Hr as (p & -> & Hp).
    rewrite sorted_reverse_Permutation in Hp.
    by apply list_elem_of_fmap in Hp as (line & -> & Hline).
Qed.

Lemma keyed_timed (requests : list entry) :
  Forall timed requests ->
  keyed "total_time" requests
  = Ok ((fun line => (NFloat (time_of line), line)) <$> requests).
Proof.
  intros Ht. apply keyed_floats. eapply Forall_impl; [exact Ht|].
  intros line (t & ? & _). by exists t.
Qed.

(** X17: the rows of the table of the slowest requests, when every total
    time is a number. There are ten of them, or as many as there are
    requests if these are fewer; they are requests of the list, each as
    often as it is there; they come by decreasing total time, and no
    request left out is slower than one that is listed. *)
Theorem slowest_requests_are_the_top (requests : list entry) :
  Forall timed requests ->
  exists rows rest,
    slowest_requests requests = Ok rows /\
    length rows = Nat.min 10 (length requests) /\
    requests ≡ₚ (rows ++ rest)%list /\
    (forall i j r1 r2, (i < j)%nat -> rows !! i = Some r1 ->
       rows !! j = Some r2 ->
       PrimFloat.leb (time_of r2) (time_of r1) = true) /\
    (forall r1 r2, r1 ∈ rows -> r2 ∈ rest ->
       PrimFloat.leb (time_of r2) (time_of r1) = true).
Proof.
  intros Htimed. unfold slowest_requests. rewrite (keyed_timed _ Htimed).
  simpl.
  set (ks := (fun line => (NFloat (time_of line), line)) <$> requests).
  set (sorted := sorted_reverse number_lt fst ks).
  assert (Hperm : sorted ≡ₚ ks) by apply sorted_reverse_Permutation.
  assert (Hsnd : snd <$> ks = requests).
  { unfold ks. rewrite <- list_fmap_compose. apply list_fmap_id. }
  assert (Hks : forall p, p ∈ ks -> p.1 = NFloat (time_of p.2) /\ timed p.2).
  { intros p (line & -> & Hline)%list_elem_of_fmap. split; [done|].
    rewrite Forall_forall in Htimed. by apply Htimed. }
  assert (Hdesc : descending number_lt fst sorted).
  { apply (sorted_reverse_descending _ _
             (fun k => exists t, k = NFloat t /\ is_number t)).
    - intros a b (ta & -> & _) (tb & -> & _). simpl. apply ltb_asym.
    - intros a b c (ta & -> & _) (tb & -> & Hb) (tc & -> & _). simpl.
      by apply ltb_trans.
    - apply Forall_forall. intros p Hp.
      destruct (Hks p Hp) as [-> (t & Ht & Hn)].
      exists t. split; [|done]. unfold time_of. by rewrite Ht. }
  assert (Hleb : forall p q, p ∈ sorted -> q ∈ sorted ->
            number_lt p.1 q.1 = false ->
            PrimFloat.leb (time_of q.2) (time_of p.2) = true).
  { intros p q Hp Hq Hlt. rewrite Hperm in Hp, Hq.
    destruct (Hks p Hp) as [Hkp (tp & Htp & Hnp)].
    destruct (Hks q Hq) as [Hkq (tq & Htq & Hnq)].
    rewrite Hkp, Hkq in Hlt. simpl in Hlt.
    apply leb_not_ltb; [| |done]; unfold time_of.
    - by rewrite Htq.
    - by rewrite Htp. }
  exists (snd <$> firstn 10 sorted), (snd <$> skipn 10 sorted).
  split; [by rewrite fmap_take|]. split; [|split; [|split]].
  - rewrite length_fmap, length_take, Hperm. unfold ks.
    by rewrite length_fmap.
  - rewrite <- fmap_app, take_drop, Hperm. by rewrite Hsnd.
  - intros i j r1 r2 Hij H1 H2.
    apply list_lookup_fmap_Some in H1 as (p & -> & Hp).
    apply list_lookup_fmap_Some in H2 as (q & -> & Hq).
    apply Hleb.
    + eapply elem_of_firstn, list_elem_of_lookup_2, Hp.
    + eapply elem_of_firstn, list_elem_of_lookup_2, Hq.
    + apply (descending_lookup number_lt fst _ i j p q
               (descending_take number_lt fst 10 _ Hdesc) Hij Hp Hq).
  - intros r1 r2 (p & -> & Hp)%list_elem_of_fmap (q & -> & Hq)%list_elem_of_fmap.
    apply Hleb.
    + by eapply elem_of_firstn.
    + apply list_elem_of_lookup in Hq as [i Hi]. rewrite lookup_drop in Hi.
      by eapply list_elem_of_lookup_2.
    + by apply (descending_firstn number_lt fst 10 sorted).
Qed.

Lemma slowest_requests_are_the_top_witness :
  exists rows rest,
    slowest_requests [request "/a" 1; request "/b" 3; request "/c" 2] = Ok rows /\
    length rows = 3%nat /\
    [request "/a" 1; request "/b" 3; request "/c" 2] ≡ₚ (rows ++ rest)%list.
Proof.
  destruct (slowest_requests_are_the_top
              [request "/a" 1; request "/b" 3; request "/c" 2])
    as (rows & rest & Hrows & Hlen & Hperm & _).
  - repeat constructor.
    + exists 1%float. split; vm_compute; reflexivity.
    + exists 3%float. split; vm_compute; reflexivity.
    + exists 2%float. split; vm_compute; reflexivity.
  - exact (ex_intro _ rows (ex_intro _ rest (conj Hrows (conj Hlen Hperm)))).
Defined.

Lemma format_left_ok (v : value) (s : string) (w : nat) :
  (forall l, v <> VList l) -> str_value v = Ok s ->
  exists text, format_left v w = Ok text.
Proof.
  destruct v as [t|n|f|l|t]; simpl; intros Hl Hs; eauto.
  - rewrite Hs. simpl. eauto.
  - by destruct (Hl l).
Qed.

Lemma print_rows_ok (lines : list entry) (field value : string) (wf wv : nat) :
  Forall (no_list_cell field value) lines ->
  Forall (fun line => exists v s, line !! field = Some v /\ str_value v = Ok s /\
                                  (String.length s <= wf)%nat) lines ->
  Forall (fun line => exists v s, line !! value = Some v /\ str_value v = Ok s /\
                                  (String.length s <= wv)%nat) lines ->
  exists rows, print_rows lines field value wf wv = (rows, Ok tt).
Proof.
  induction lines as [|line rest IH]; intros Hp Hf Hv; simpl; [eauto|].
  apply Forall_cons in Hp as [Hp Hps]. apply Forall_cons in Hf as [Hf Hfs].
  apply Forall_cons in Hv as [Hv Hvs].
  destruct Hf as (f & a & Hf & Ha & _). destruct Hv as (v & b & Hv & Hb & _).
  destruct (format_left_ok f a wf) as [ta Hta]; [|done|].
  { intros l ->. by destruct (Hp l). }
  destruct (format_left_ok v b wv) as [tb Htb]; [|done|].
  { intros l ->. by destruct (Hp l). }
  unfold row. rewrite Hf, Hv. simpl. rewrite Hta. simpl. rewrite Htb. simpl.
  destruct (IH Hps Hfs Hvs) as (rows & ->). eauto.
Qed.

(** X18: a table is printed in full or not at all, unless a cell is a
    list. For an empty list of rows [_print_table] prints nothing and
    raises a value error, as [max] has no value for an empty sequence; and
    whenever it raises for rows without a list cell, nothing has been
    printed. *)
Theorem table_is_printed_in_full_or_not
    (title : string) (lines : list entry) (field value : string) :
  (lines = [] ->
   _print_table title lines field value = ([], Raise ValueError)) /\
  (forall out e,
     Forall (no_list_cell field value) lines ->
     _print_table title lines field value = (out, Raise e) -> out = []).
Proof.
  split; [by intros ->|].
  intros out e Hcells. unfold _print_table.
  destruct (max_len_of field lines) as [wf|e1] eqn:Hf; simpl;
    [|by intros [= <- _]].
  destruct (max_len_of value lines) as [wv|e2] eqn:Hv; simpl;
    [|by intros [= <- _]].
  destruct (max_len_of_spec _ _ _ Hf) as [_ Hfs].
  destruct (max_len_of_spec _ _ _ Hv) as [_ Hvs].
  destruct (print_rows_ok lines field value wf wv Hcells Hfs Hvs) as (rows & ->).
  simpl. discriminate.
Qed.

Lemma table_is_printed_in_full_or_not_witness :
  _print_table "Top 10 Slow requests" [] "endpoint" "total_time"
    = ([], Raise ValueError) /\
  fst (_print_table "Top 10 most hit endpoints:" [request "/a" 1]
                    "endpoint" "hits") = [].
Proof.
  split.
  - apply (table_is_printed_in_full_or_not "Top 10 Slow requests" []
             "endpoint" "total_time"). reflexivity.
  - apply (proj2 (table_is_printed_in_full_or_not
                    "Top 10 most hit endpoints:" [request "/a" 1]
                    "endpoint" "hits")) with (e := KeyError).
    + repeat constructor; intros Hv; vm_compute in Hv; discriminate Hv.
    + vm_compute. reflexivity.
Defined.

(** ** The command line *)

Lemma main_read_log_inv fs a L :
  main_read_log fs a = Ok L ->
  exists text st,
    fs !! Args.logfile a = Some text /\
    run (threshold_or_0 (Some (NInt (main_threshold a)))) (main_severity a)
        (negb (Args.include_no_db a)) init (file_lines text) = Ok st /\
    L = log st.
Proof.
  unfold main_read_log.
  intros [(_ & [=] & _)|(text & st & Hf & Hrun & ->)]%read_log_inv.
  by exists text, st.
Qed.

(** X19: what the options of the command line do to the reading. [main]
    never calls [read_log] without a severity, so the file is always
    opened and a missing file ends [main] with an error before anything is
    printed. With [--just-requests] the result holds request records only,
    in the bucket [REQUEST]; with [--no-requests] it holds no request
    record; with both it is empty; without [--include-no-db] no record has
    the database [?]. *)
Theorem options_select_the_records
    (fs : gmap string string) (a : Args.t) :
  (fs !! Args.logfile a = None ->
   main fs a = ([], Raise FileNotFoundError)) /\
  (forall L, main_read_log fs a = Ok L ->
     (Args.just_requests a = true -> Args.no_requests a = true -> L = ∅) /\
     (forall k es, L !! k = Some es ->
        (Args.just_requests a = true ->
         k = REQUEST_KEY /\ Forall is_request es) /\
        (Args.no_requests a = true ->
         Forall (fun e => is_message e /\ ~ is_request e) es) /\
        (Args.include_no_db a = false ->
         Forall (fun e => exists db, e !! "db" = Some (VStr db) /\ db <> "?")
                es))).
Proof.
  split.
  - intros Hf. unfold main, main_read_log, read_log.
    rewrite (proj2 (andb_false_iff _ _)); [by rewrite Hf|].
    right. by apply bool_decide_eq_false.
  - intros L HL.
    pose proof HL as (text & st & Hf & Hrun & ->)%main_read_log_inv.
    assert (Hsel : forall k es, log st !! k = Some es ->
      (Args.just_requests a = true ->
       k = REQUEST_KEY /\ Forall is_request es) /\
      (Args.no_requests a = true ->
       Forall (fun e => is_message e /\ ~ is_request e) es) /\
      (Args.include_no_db a = false ->
       Forall (fun e => exists db, e !! "db" = Some (VStr db) /\ db <> "?")
              es)).
    { intros k es Hk. split; [|split].
      - intros Hr.
        assert (Hsev : 50 < main_severity a)
          by (unfold main_severity; rewrite Hr; lia).
        pose proof (run_requests_only _ _ _ _ _ Hrun k es Hsev Hk) as Hall.
        destruct (read_log_filed _ _ _ _ _ _ _ _ HL Hk) as [Hne Hlevel].
        split; [|by eapply Forall_impl; [exact Hall|intros e [? _]]].
        destruct es as [|e es]; [done|].
        apply Forall_cons in Hall as [[_ Hl] _].
        apply Forall_cons in Hlevel as [Hl' _]. congruence.
      - intros HR. apply (run_messages_only _ _ _ _ _ Hrun k es); [|done].
        unfold main_threshold. by rewrite HR.
      - intros Hi. apply (run_db_known _ _ _ _ _ Hrun k es); [|done].
        by rewrite Hi. }
    split; [|done].
    intros Hr HR. apply map_empty. intros k.
    destruct (log st !! k) as [es|] eqn:Hk; [exfalso|done].
    destruct (Hsel k es Hk) as ([_ Hreq] & Hmsg & _); [done|].
    specialize (Hmsg HR).
    destruct (read_log_filed _ _ _ _ _ _ _ _ HL Hk) as [Hne _].
    destruct es as [|e es]; [done|].
    apply Forall_cons in Hreq as [Hreq _].
    apply Forall_cons in Hmsg as [[_ Hno] _]. done.
Qed.

Lemma options_select_the_records_witness :
  main ∅ default_args = ([], Raise FileNotFoundError) /\
  exists L,
    main_read_log (one_file slow_log)
                  (Args.mk "odoo.log" 50 "INFO" false true true false false)
      = Ok L /\ L = ∅.
Proof.
  split.
  - apply (options_select_the_records ∅ default_args). reflexivity.
  - pose (r := main_read_log (one_file slow_log)
                 (Args.mk "odoo.log" 50 "INFO" false true true false false)).
    assert (HL : r = Ok (get_ok ∅ r))
      by (apply get_ok_spec; vm_compute; reflexivity).
    exists (get_ok ∅ r). split; [exact HL|].
    destruct (options_select_the_records (one_file slow_log)
                (Args.mk "odoo.log" 50 "INFO" false true true false false))
      as [_ Hsel].
    destruct (Hsel _ HL) as [Hempty _]. apply Hempty; reflexivity.
Defined.

(** X20: [main] and the table of the slowest requests, without progress
    display. With [--no-requests] [main] prints the line of the counts and
    nothing else. Without it, when the reading has kept no request at all,
    [main] prints the line of the counts and ends with a value error,
    raised by the first table for want of a row. *)
Theorem main_needs_a_request
    (fs : gmap string string) (a : Args.t) (L : buckets) :
  progress_display a = false ->
  main_read_log fs a = Ok L ->
  (Args.no_requests a = true ->
   exists text, main fs a = ([text], Ok tt)) /\
  (Args.no_requests a = false -> L !! REQUEST_KEY = None ->
   exists text, main fs a = ([text], Raise ValueError)).
Proof.
  intros _ HL. unfold main. rewrite HL. simpl. split.
  - intros ->. simpl. eauto.
  - intros -> Hreq. unfold main_tables. rewrite Hreq. simpl. eauto.
Qed.

Lemma main_needs_a_request_witness :
  exists text,
    main (one_file (request_line +:+ error_line +:+ debug_line)) default_args
    = ([text], Raise ValueError).
Proof.
  pose (r := main_read_log (one_file (request_line +:+ error_line +:+ debug_line))
                           default_args).
  assert (HL : r = Ok (get_ok ∅ r))
    by (apply get_ok_spec; vm_compute; reflexivity).
  destruct (main_needs_a_request (one_file (request_line +:+ error_line +:+ debug_line))
              default_args (get_ok ∅ r) eq_refl HL) as [_ Hfail].
  apply Hfail; vm_compute; reflexivity.
Defined.

(** ** A whole run of [main] *)

Lemma widths_ok (field : string) (lines : list entry) :
  Forall (fun line => exists v s, line !! field = Some v /\ str_value v = Ok s)
         lines ->
  exists ws, widths field lines = Ok ws /\ length ws = length lines.
Proof.
  induction 1 as [|line rest (v & s & Hv & Hs) _ (ws & IH & Hlen)]; simpl.
  - by exists [].
  - rewrite Hv. simpl. rewrite Hs. simpl. rewrite IH. simpl.
    eexists. split; [done|]. simpl. by rewrite Hlen.
Qed.

Lemma max_len_of_ok (field : string) (lines : list entry) :
  lines <> [] ->
  Forall (fun line => exists v s, line !! field = Some v /\ str_value v = Ok s)
         lines ->
  is_ok (max_len_of field lines) = true.
Proof.
  intros Hne Hall. destruct (widths_ok _ _ Hall) as (ws & Hws & Hlen).
  unfold max_len_of. rewrite Hws. simpl.
  destruct ws as [|w ws]; [|done]. by destruct lines.
Qed.

Lemma print_table_ok (title : string) (lines : list entry) (field value : string) :
  lines <> [] ->
  Forall (padded_row field value) lines ->
  Forall (fun line => exists v s, line !! field = Some v /\ str_value v = Ok s)
         lines ->
  Forall (fun line => exists v s, line !! value = Some v /\ str_value v = Ok s)
         lines ->
  exists out, _print_table title lines field value = (out, Ok tt) /\
              length out = (length lines + 5)%nat.
Proof.
  intros Hne Hpad Hfield Hvalue.
  pose proof (max_len_of_ok _ _ Hne Hfield) as Hf.
  pose proof (max_len_of_ok _ _ Hne Hvalue) as Hv.
  apply (get_ok_spec 0%nat) in Hf, Hv.
  destruct (max_len_of_spec _ _ _ Hf) as [_ Hfs].
  destruct (max_len_of_spec _ _ _ Hv) as [_ Hvs].
  destruct (print_rows_length lines field value _ _ Hpad Hfs Hvs)
    as (rows & Hrows & Hn & _).
  unfold _print_table. rewrite Hf, Hv. simpl. rewrite Hrows. simpl.
  eexists. split; [done|]. simpl. rewrite length_app. simpl. lia.
Qed.

Lemma hit_below_total (hits : gmap string Z) :
  map_Forall (fun _ h => 1 <= h) hits ->
  0 <= total_hits hits /\
  forall k h, hits !! k = Some h -> h <= total_hits hits.
Proof.
  unfold total_hits.
  apply (map_fold_weak_ind
           (fun r (m : gmap string Z) =>
              map_Forall (fun _ h => 1 <= h) m ->
              0 <= r /\ forall k h, m !! k = Some h -> h <= r)).
  - intros _. split; [lia|]. intros k h. by rewrite lookup_empty.
  - intros i x m r Hi IH Hall.
    apply map_Forall_insert in Hall as [Hx Hm]; [|done].
    destruct (IH Hm) as [Hr Hle]. split; [lia|].
    intros k h. rewrite lookup_insert. case_decide.
    + intros [= <-]. lia.
    + intros Hk. specialize (Hle _ _ Hk). lia.
Qed.

Lemma row_cells (k1 k2 : string) (v1 v2 : value) :
  k1 <> k2 ->
  let r : entry := <[k2 := v2]> (<[k1 := v1]> ∅) in
  r !! k1 = Some v1 /\ r !! k2 = Some v2.
Proof.
  intros Hne. simpl. split.
  - rewrite lookup_insert_ne by done. apply lookup_insert_eq.
  - apply lookup_insert_eq.
Qed.

Lemma min_10_pos {A} (n : nat) : length (@nil A) = Nat.min 10 n -> n = 0%nat.
Proof. by destruct n. Qed.

Lemma str_int_ok (n bound : Z) :
  0 <= n <= bound -> bound < 10 ^ 4300 -> str_int n = Ok (decimal_of n).
Proof.
  unfold str_int. generalize (10 ^ 4300). intros limit Hn Hb.
  destruct (Z.leb_spec limit (Z.abs n)); [lia|done].
Qed.

(** X21: a whole run of [main] without progress display. When the file
    has been read with a positive severity, at least one request has been kept and
    [--no-requests] is not given, [main] ends without error; it prints the
    line of the counts and the three tables, each in full: five lines and
    one for each row, ten rows at most, one row for each request in the
    first table and one for each endpoint in the other two. The bound on
    the number of requests is that of [str] on the hit counts. *)
Theorem main_prints_three_tables
    (fs : gmap string string) (a : Args.t) (L : buckets)
    (requests : list entry) :
  progress_display a = false ->
  main_read_log fs a = Ok L ->
  Args.no_requests a = false ->
  0 < main_severity a ->
  L !! REQUEST_KEY = Some requests ->
  Z.of_nat (length requests) < 10 ^ 4300 ->
  exists text t1 t2 t3 st,
    main fs a = (text :: t1 ++ t2 ++ t3, Ok tt)%list /\
    endpoint_loop no_stats requests = Ok st /\
    length t1 = (Nat.min 10 (length requests) + 5)%nat /\
    length t2 = (Nat.min 10 (size (ep_hits st)) + 5)%nat /\
    length t3 = (Nat.min 10 (size (ep_hits st)) + 5)%nat.
Proof.
  intros _ HL HR Hsev Hreq Hbound.
  assert (Hstr : forall h, 0 <= h <= Z.of_nat (length requests) ->
                           str_int h = Ok (decimal_of h))
    by (intros h Hh; by apply (str_int_ok h (Z.of_nat (length requests)))).
  clear Hbound.
  assert (Hcells : Forall (fun e => exists ep t,
            e !! "endpoint" = Some (VStr ep) /\
            e !! "total_time" = Some (VFloat t)) requests).
  { pose proof (read_log_request_bucket _ _ _ _ _ _ _ HL Hreq) as Hb.
    eapply Forall_impl; [exact Hb|]. simpl.
    intros e [?|(_ & _ & ?)]; [done|lia]. }
  destruct (read_log_filed _ _ _ _ _ _ _ _ HL Hreq) as [Hne _].
  (* the first table *)
  destruct (slowest_requests_rows requests) as (rows1 & Hrows1 & Hlen1 & Hin1).
  { eapply Forall_impl; [exact Hcells|]. intros e (ep & t & _ & Ht). eauto. }
  assert (Hrow1 : forall r, r ∈ rows1 -> exists ep t,
            r !! "endpoint" = Some (VStr ep) /\
            r !! "total_time" = Some (VFloat t)).
  { intros r Hr. rewrite Forall_forall in Hcells. by apply Hcells, Hin1. }
  destruct (print_table_ok "Top 10 Slow requests" rows1 "endpoint" "total_time")
    as (t1 & Ht1 & Hl1).
  { intros ->. destruct requests; [done|]. by apply min_10_pos in Hlen1. }
  { apply Forall_forall. intros r (ep & t & Hep & Ht)%Hrow1 v [Hv|Hv];
      rewrite Hv in *; simplify_eq; done. }
  { apply Forall_forall. intros r (ep & t & Hep & Ht)%Hrow1. by exists (VStr ep), ep. }
  { apply Forall_forall. intros r (ep & t & Hep & Ht)%Hrow1.
    by exists (VFloat t), (repr_float t). }
  (* the loop *)
  destruct (endpoint_loop_ok requests no_stats Hcells) as [st Hst].
  destruct (keys_in_order_spec _ _ Hst) as [Hnd Hkeys].
  destruct (endpoint_loop_tables requests no_stats st) as [[Hdom Hpos] Htotal];
    [split; [done|apply map_Forall_empty]|done|].
  set (keys := keys_in_order requests) in *.
  change (total_hits (ep_hits no_stats)) with (total_hits ∅) in Htotal.
  unfold total_hits at 2 in Htotal. rewrite map_fold_empty in Htotal.
  assert (Hsize : size (ep_hits st) <> 0%nat).
  { apply map_size_non_empty_iff. intros Hempty.
    rewrite Hempty in Htotal. unfold total_hits in Htotal.
    rewrite map_fold_empty in Htotal.
    destruct requests; [done|]. cbn [length] in Htotal. lia. }
  (* the second table *)
  assert (Hkeys_t : forall k, k ∈ keys <-> is_Some (ep_times st !! k)).
  { intros k. rewrite Hkeys, <- !elem_of_dom. by rewrite Hdom. }
  assert (Hsize_t : size (ep_times st) = size (ep_hits st)).
  { rewrite <- !size_dom. by rewrite Hdom. }
  set (its2 := items keys (ep_times st)).
  assert (Hlen2 : length (slowest_endpoints keys st)
                  = Nat.min 10 (size (ep_hits st))).
  { unfold slowest_endpoints, slowest. rewrite length_fmap, length_take.
    rewrite (Permutation_length (sorted_reverse_Permutation _ _ _)).
    rewrite (Permutation_length (items_Permutation _ _ Hnd Hkeys_t)).
    by rewrite length_map_to_list, Hsize_t. }
  destruct (print_table_ok "Top 10 slow endpoints" (slowest_endpoints keys st)
                           "endpoint" "time") as (t2 & Ht2 & Hl2).
  { intros Hnil. rewrite Hnil in Hlen2. by apply min_10_pos in Hlen2. }
  { apply Forall_forall. intros r ([ep t] & -> & _)%list_elem_of_fmap v.
    destruct (row_cells "endpoint" "time" (VStr ep) (VStr (format_1f t)))
      as [H1 H2]; [done|].
    intros [Hv|Hv]; [rewrite H1 in Hv|rewrite H2 in Hv]; by injection Hv as <-. }
  { apply Forall_forall. intros r ([ep t] & -> & _)%list_elem_of_fmap.
    exists (VStr ep), ep. split; [|done].
    by apply (row_cells "endpoint" "time"). }
  { apply Forall_forall. intros r ([ep t] & -> & _)%list_elem_of_fmap.
    exists (VStr (format_1f t)), (format_1f t). split; [|done].
    by apply (row_cells "endpoint" "time"). }
  (* the third table *)
  assert (Hlen3 : length (most_hit_endpoints keys st)
                  = Nat.min 10 (size (ep_hits st))).
  { unfold most_hit_endpoints, most_hit. rewrite length_fmap, length_take.
    rewrite (Permutation_length (sorted_reverse_Permutation _ _ _)).
    rewrite (Permutation_length (items_Permutation _ _ Hnd Hkeys)).
    by rewrite length_map_to_list. }
  assert (Hrow3 : forall r, r ∈ most_hit_endpoints keys st ->
            exists ep h, r = <["hits" := VInt h]> (<["endpoint" := VStr ep]> ∅)
                         /\ str_int h = Ok (decimal_of h)).
  { intros r ([ep h] & -> & Hin)%list_elem_of_fmap. exists ep, h.
    split; [done|]. unfold most_hit in Hin. apply elem_of_firstn in Hin.
    rewrite sorted_reverse_Permutation in Hin.
    apply items_elem in Hin as [_ Hh].
    destruct (hit_below_total _ Hpos) as [_ Hle].
    apply Hstr.
    specialize (Hpos _ _ Hh). simpl in Hpos.
    specialize (Hle _ _ Hh). rewrite Htotal in Hle. simpl in Hle. lia. }
  destruct (print_table_ok "Top 10 most hit endpoints:"
                           (most_hit_endpoints keys st) "endpoint" "hits")
    as (t3 & Ht3 & Hl3).
  { intros Hnil. rewrite Hnil in Hlen3. by apply min_10_pos in Hlen3. }
  { apply Forall_forall. intros r (ep & h & -> & _)%Hrow3 v.
    destruct (row_cells "endpoint" "hits" (VStr ep) (VInt h)) as [H1 H2];
      [done|].
    intros [Hv|Hv]; [rewrite H1 in Hv|rewrite H2 in Hv]; by injection Hv as <-. }
  { apply Forall_forall. intros r (ep & h & -> & _)%Hrow3.
    exists (VStr ep), ep. split; [|done].
    by apply (row_cells "endpoint" "hits"). }
  { apply Forall_forall. intros r (ep & h & -> & Hs)%Hrow3.
    exists (VInt h), (decimal_of h). split; [|done].
    by apply (row_cells "endpoint" "hits"). }
  eexists _, t1, t2, t3, st.
  split; [|split; [done|split; [lia|split; lia]]].
  unfold main. rewrite HL. simpl. rewrite HR. unfold main_tables.
  rewrite Hreq. simpl. rewrite Hrows1. simpl. rewrite Ht1. simpl.
  rewrite Hst. simpl. fold keys. rewrite Ht2. simpl. rewrite Ht3. simpl.
  done.
Qed.

Lemma main_prints_three_tables_witness :
  exists text t1 t2 t3,
    main (one_file slow_log) default_args = (text :: t1 ++ t2 ++ t3, Ok tt)%list /\
    length t1 = 8%nat /\ length t2 = 7%nat /\ length t3 = 7%nat.
Proof.
  pose (r := main_read_log (one_file slow_log) default_args).
  assert (HL : r = Ok (get_ok ∅ r))
    by (apply get_ok_spec; vm_compute; reflexivity).
  assert (Hk : get_ok ∅ r !! REQUEST_KEY
               = Some (default [] (get_ok ∅ r !! REQUEST_KEY)))
    by (apply lookup_present; vm_compute; reflexivity).
  destruct (main_prints_three_tables (one_file slow_log) default_args
              (get_ok ∅ r) (default [] (get_ok ∅ r !! REQUEST_KEY))
              eq_refl HL eq_refl)
    as (text & t1 & t2 & t3 & st & Hmain & Hst & H1 & H2 & H3).
  - vm_compute. reflexivity.
  - exact Hk.
  - vm_compute. reflexivity.
  - exists text, t1, t2, t3. split; [exact Hmain|].
    assert (Hn : length (default [] (get_ok ∅ r !! REQUEST_KEY)) = 3%nat)
      by (vm_compute; reflexivity).
    assert (Hm : size (ep_hits st) = 2%nat).
    { transitivity (size (ep_hits (get_ok no_stats
                      (endpoint_loop no_stats
                         (default [] (get_ok ∅ r !! REQUEST_KEY)))))).
      - rewrite Hst. reflexivity.
      - vm_compute. reflexivity. }
    rewrite H1, H2, H3, Hn, Hm. repeat split.
Defined.

(** ** The line of the counts *)

Lemma appended_keys thr sev ign lines st st' :
  run thr sev ign st lines = Ok st' ->
  forall k, is_Some (log st' !! k) <->
            is_Some (log st !! k) \/ k ∈ appended thr sev ign st lines.
Proof.
  revert st. induction lines as [|l lines IH]; intros st.
  - intros [= <-] k. simpl. rewrite elem_of_nil. tauto.
  - simpl. intros (st1 & Hstep & Hrun)%bind_Ok k.
    rewrite Hstep, (IH _ Hrun k), elem_of_app. clear IH Hrun.
    unfold step in Hstep. destruct (is_header l); simpl.
    + apply bind_Ok in Hstep as (L & HL & (e & He & [= <-])%bind_Ok). simpl.
      unfold end_previous in HL. destruct (nonempty (current_line st)).
      * unfold store in HL.
        destruct (current_line st !! "level") as [[j| | | |]|]; try discriminate.
        apply Ok_inj in HL. subst L. rewrite lookup_insert, list_elem_of_singleton.
        case_decide as Hj.
        -- subst j. split; [intros _; right; by left|]. intros _. left. by eexists.
        -- split; [tauto|]. intros [H|[H|H]]; [tauto|congruence|tauto].
      * apply Ok_inj in HL. subst L. rewrite elem_of_nil. tauto.
    + rewrite elem_of_nil.
      destruct (current_line st !! "context") as [[| | |ctx|]|];
        try discriminate; apply Ok_inj in Hstep; subst st1; simpl; tauto.
Qed.

(** X22: the line of the counts that [main] prints first names every
    bucket of the result once, in the order in which the buckets got
    their first record. *)
Theorem counts_name_every_bucket
    (fs : gmap string string) (logfile : string) (threshold : option number)
    (severity : option Z) (ignore_no_db : bool) (L : buckets) :
  read_log fs logfile threshold severity ignore_no_db = Ok L ->
  let levels := levels_in_order fs logfile threshold severity ignore_no_db in
  NoDup levels /\ forall k, k ∈ levels <-> is_Some (L !! k).
Proof.
  intros HL. simpl. unfold levels_in_order. unfold read_log in HL.
  destruct (unset threshold && bool_decide (severity = None)).
  - apply Ok_inj in HL. subst L. split; [constructor|].
    intros k. rewrite lookup_empty, elem_of_nil. split; [done|by intros [? ?]].
  - apply bind_Ok in HL as (text & Hf & (st & Hrun & [= <-])%bind_Ok).
    destruct (fs !! logfile) as [t|]; [|done]. injection Hf as ->. simpl.
    split; [apply first_seen_NoDup|]. intros k.
    rewrite first_seen_elem, (appended_keys _ _ _ _ _ _ Hrun k).
    unfold init. simpl. rewrite lookup_empty. split; [by right|].
    intros [[? [=]]|?]; done.
Qed.

Lemma counts_name_every_bucket_witness :
  exists L,
    read_log (one_file slow_log) "odoo.log" (Some (NInt 50)) (Some 20) true
      = Ok L /\
    levels_in_order (one_file slow_log) "odoo.log" (Some (NInt 50)) (Some 20)
                    true = ["REQUEST"; "ERROR"] /\
    forall k, k ∈ ["REQUEST"; "ERROR"] <-> is_Some (L !! k).
Proof.
  pose (r := read_log (one_file slow_log) "odoo.log" (Some (NInt 50))
                      (Some 20) true).
  assert (HL : r = Ok (get_ok ∅ r))
    by (apply get_ok_spec; vm_compute; reflexivity).
  exists (get_ok ∅ r). split; [exact HL|].
  assert (Hlv : levels_in_order (one_file slow_log) "odoo.log"
                  (Some (NInt 50)) (Some 20) true = ["REQUEST"; "ERROR"])
    by (vm_compute; reflexivity).
  split; [exact Hlv|]. rewrite <- Hlv.
  exact (proj2 (counts_name_every_bucket _ _ _ _ _ _ HL)).
Defined.
